(** * The extraction service of [app.py]

    [app.py] is a single Flask endpoint, [POST /summary]: it validates
    an uploaded PDF, reads two configuration files, extracts the text of
    the PDF, builds a prompt, calls the Gemini model, parses the answer
    as JSON, saves it and returns it.

    The embedding keeps the shape of the Python code.

    - Python's [str] is a Rocq [string] and [bytes] is a [list byte];
      a character of the Rocq string is one character of the Python
      string, below 256; [str.lower] folds the letters [A]..[Z], which
      is all that matters for a comparison with [.pdf], and [len]
      counts the characters of the Rocq string.
    - The values built by [json.loads] are the inductive [pyvalue];
      [None] is at once what the functions of the program return on
      failure and what JSON's [null] is read as, as in Python.
    - The collaborators that are not part of the program (the file
      system, PyPDF2, the Gemini client, the [json] module) are the
      fields of a record [World]; [os.path] is [posixpath].  What
      [json.dump] writes with the arguments of the program, and what
      [json.loads] reads, is spelled out in the module [PyJson], for
      the worlds whose [json] module is Python's.
    - Every call to a collaborator is recorded, in program order, in a
      trace of [Event]s, next to the lines printed by the program.
    - Exceptions are values of [Exn]; a computation is a trace together
      with either the exception it raised or the value it returned.
    - The time taken by the model, which the program prints, is not
      modelled. *)

From Stdlib Require Import Bool Arith ZArith Lia List Ascii String.
From Stdlib.Strings Require Import Byte.
From Stdlib Require DecimalString DecimalZ DecimalPos DecimalFacts.
Import ListNotations.

Local Open Scope string_scope.
Local Open Scope list_scope.
Local Open Scope nat_scope.

Set Warnings "-register-all".

(* ================================================================== *)
(** * Python's [str] methods used by the program *)
(* ================================================================== *)

Module PyStr.

(** [c.lower()] on one character: the letters [A]..[Z] move to
    [a]..[z], every other character is left alone. *)
Definition lower_char (c : ascii) : ascii :=
  let n := nat_of_ascii c in
  if (65 <=? n) && (n <=? 90) then ascii_of_nat (n + 32) else c.

(** [s.lower()] *)
Fixpoint lower (s : string) : string :=
  match s with
  | EmptyString => EmptyString
  | String c s' => String (lower_char c) (lower s')
  end.

(** [s.startswith(p)] *)
Definition startswith (s p : string) : bool := String.prefix p s.

(** [s.endswith(suf)]: the last [len(suf)] characters of [s] are
    [suf]. *)
Definition endswith (s suf : string) : bool :=
  if String.length suf <=? String.length s
  then String.eqb (substring (String.length s - String.length suf)
                             (String.length suf) s) suf
  else false.

(** [s[i:]] for [0 <= i] *)
Fixpoint drop (i : nat) (s : string) : string :=
  match i, s with
  | O, _ => s
  | S i', String _ s' => drop i' s'
  | S _, EmptyString => EmptyString
  end.

(** [s[:i]] for [0 <= i] *)
Definition take (i : nat) (s : string) : string := substring 0 i s.

(** [s.rfind(c)] for a one-character [c]: the highest index holding
    [c], or [-1]. *)
Fixpoint rfind_from (c : ascii) (s : string) (i : Z) (found : Z) : Z :=
  match s with
  | EmptyString => found
  | String d s' =>
      rfind_from c s' (i + 1) (if Ascii.eqb d c then i else found)
  end.

Definition rfind (c : ascii) (s : string) : Z := rfind_from c s 0 (-1).

(** Python's [str.isspace] on a character below 256: the white space
    of ASCII, the four separators before the space, the next-line
    control [U+0085] and the no-break space [U+00A0]. *)
Definition is_space (c : ascii) : bool :=
  let n := nat_of_ascii c in
  ((9 <=? n) && (n <=? 13)) || ((28 <=? n) && (n <=? 32)) ||
  (n =? 133) || (n =? 160).

Fixpoint lstrip (s : string) : string :=
  match s with
  | String c s' => if is_space c then lstrip s' else s
  | EmptyString => EmptyString
  end.

(** [not s.strip()]: [s] holds nothing but white space.  Stripping
    at the right end cannot empty a string that starts with a
    character that is not white space. *)
Definition strip_is_empty (s : string) : bool :=
  match lstrip s with EmptyString => true | _ => false end.

End PyStr.

(* ================================================================== *)
(** * [os.path] (the POSIX flavour, [posixpath]) *)
(* ================================================================== *)

Module PosixPath.

(** [os.path.join(a, b)]: an absolute [b] replaces [a]; otherwise
    the two are glued with one [/]. *)
Definition join (a b : string) : string :=
  if PyStr.startswith b "/" then b
  else if String.eqb a "" || PyStr.endswith a "/" then (a ++ b)%string
  else (a ++ "/" ++ b)%string.

(** The [while] loop of [genericpath._splitext], which skips the
    leading dots of the last path component; [n] is the number of
    iterations left, [dotIndex - filenameIndex]. *)
Fixpoint splitext_loop (p : string) (dotIndex filenameIndex n : nat)
  : string * string :=
  match n with
  | O => (p, "")
  | S n' =>
      if negb (String.eqb (substring filenameIndex 1 p) ".")
      then (PyStr.take dotIndex p, PyStr.drop dotIndex p)
      else splitext_loop p dotIndex (S filenameIndex) n'
  end.

(** [os.path.splitext(p)] *)
Definition splitext (p : string) : string * string :=
  let sepIndex := PyStr.rfind "/"%char p in
  let dotIndex := PyStr.rfind "."%char p in
  if (sepIndex <? dotIndex)%Z then
    let filenameIndex := (sepIndex + 1)%Z in
    splitext_loop p (Z.to_nat dotIndex) (Z.to_nat filenameIndex)
                  (Z.to_nat (dotIndex - filenameIndex))
  else (p, "").

End PosixPath.

(* ================================================================== *)
(** * Data *)
(* ================================================================== *)

(** The Python values that [json.loads] builds and [jsonify] and
    [json.dump] print.  [PNone] is Python's [None], which is what JSON's
    [null] is read as.  A float is kept as its [repr]. *)
Inductive pyvalue : Type :=
| PNone
| PBool (b : bool)
| PInt (n : Z)
| PFloat (repr : string)
| PStr (s : string)
| PList (items : list pyvalue)
| PDict (items : list (string * pyvalue)).

(** [v is not None] *)
Definition is_not_None (v : pyvalue) : bool :=
  match v with PNone => false | _ => true end.

(** Exceptions: the classes the program names in an [except] clause,
    the one Python raises for a local read before it is bound, and
    every other subclass of [Exception]. *)
Inductive ExnClass : Type :=
| FileNotFoundError
| PdfReadError
| JSONDecodeError
| UnboundLocalError
| OtherException.

Record Exn : Type := mkExn { exn_class : ExnClass; exn_msg : string }.

(** An uploaded file ([werkzeug.FileStorage]) and the request; the
    multipart [files] of a request is a multi-dict, kept in order. *)
Record FileStorage : Type := mkFile { filename : string; content : list byte }.

Record Request : Type := mkRequest { files : list (string * FileStorage) }.

(** [request.files[key]], the first value under [key]; [None] when
    [key not in request.files]. *)
Fixpoint files_get (key : string) (l : list (string * FileStorage))
  : option FileStorage :=
  match l with
  | [] => None
  | (k, f) :: l' => if String.eqb k key then Some f else files_get key l'
  end.

(** The answer of [model.generate_content]: its candidates with their
    content parts, the prompt feedback when the attribute is there
    (with the numeric [block_reason], [0] when unspecified), and what
    the accessor [response.text] gives. *)
Record Candidate : Type := mkCandidate { parts : list string }.

Record PromptFeedback : Type := mkFeedback { block_reason : nat }.

Record GenerateContentResponse : Type := mkResponse {
  candidates : list Candidate;
  prompt_feedback : option PromptFeedback;
  text : Exn + string
}.

(** What the handler returns to Flask: [(jsonify(body), status)]. *)
Record HttpResponse : Type := mkHttp { body : pyvalue; status : Z }.

(** [jsonify({"error": msg})] *)
Definition error_body (msg : string) : pyvalue := PDict [("error", PStr msg)].

(** The collaborators of the program.  Each field says what the call
    does in the world the request runs in: it returns ([inr], or
    [None] for a call made for its effect) or raises. *)
Record World : Type := mkWorld {
  (** [open(path, 'r', encoding='utf-8')] followed by [f.read()] *)
  open_read : string -> Exn + string;
  (** [PyPDF2.PdfReader(stream)] and [len(reader.pages)]; for each
      page, [reader.pages[i].extract_text()] *)
  PdfReader : list byte -> Exn + list (Exn + string);
  (** [genai.GenerativeModel(MODEL_NAME, ...)] *)
  GenerativeModel : option Exn;
  (** [model.generate_content(prompt)] *)
  generate_content : string -> Exn + GenerateContentResponse;
  (** [json.loads(s)] *)
  json_loads : string -> Exn + pyvalue;
  (** [os.makedirs(dir, exist_ok=True)] *)
  makedirs : string -> option Exn;
  (** [open(path, 'w', encoding='utf-8')] *)
  open_write : string -> option Exn;
  (** [json.dump(data, f, indent=4, ensure_ascii=False)] and the
      closing of [f]: the text that reached the file and the exception
      raised on the way, if any *)
  json_dump : pyvalue -> string * option Exn
}.

(** The lines the program prints, one constructor for each [print],
    with the values that the line interpolates. *)
Inductive LogMsg : Type :=
| LogOutputSaved (filepath : string)            (* line 50 *)
| LogErrorSaving (filepath : string) (e : Exn)  (* line 52 *)
| LogFileNotFound (filepath : string)           (* line 59 *)
| LogErrorReading (filepath : string) (e : Exn) (* line 62 *)
| LogNoTextExtracted                            (* line 74 *)
| LogInvalidPdf                                 (* line 77 *)
| LogErrorExtracting (e : Exn)                  (* line 80 *)
| LogAttempting                                 (* line 84 *)
| LogErrorInitModel (e : Exn)                   (* line 106 *)
| LogSending (model : string)                   (* line 110 *)
| LogResponseReceived                           (* line 114 *)
| LogBlockedOrEmpty                             (* line 117 *)
| LogBlockReason (reason : nat)                 (* line 119 *)
| LogNoCandidates                               (* line 121 *)
| LogNoParts                                    (* line 125 *)
| LogRawBegin                                   (* lines 126, 139, 145 *)
| LogRawResponse (r : GenerateContentResponse)  (* line 127 *)
| LogRawText (s : string)                       (* lines 140, 146 *)
| LogRawEnd                                     (* lines 128, 141, 147 *)
| LogParsedJson                                 (* line 135 *)
| LogInvalidJson (e : Exn)                      (* line 138 *)
| LogJsonUnexpected (e : Exn)                   (* line 144 *)
| LogApiError (e : Exn)                         (* line 151 *)
| LogReceivedRequest                            (* line 156 *)
| LogNoFilePart                                 (* line 159 *)
| LogNoSelectedFile                             (* line 165 *)
| LogInvalidFileType (name : string)            (* line 169 *)
| LogReadingOntology (path : string)            (* line 172 *)
| LogReadingPrompt (path : string)              (* line 174 *)
| LogConfigIssue                                (* line 178 *)
| LogExtractingFrom (name : string)             (* line 181 *)
| LogExtractFailed                              (* line 185 *)
| LogEmptyText                                  (* line 188 *)
| LogExtractedChars (n : nat)                   (* line 190 *)
| LogSuccess                                    (* line 199 *)
| LogFailed.                                    (* line 203 *)

(** What a request does that can be seen from outside: the lines it
    prints and the calls it makes to the collaborators.  The model is
    always set up with the same generation configuration and safety
    settings, constants of the module, which the event leaves out. *)
Inductive Event : Type :=
| EvPrint (m : LogMsg)
| EvOpenRead (path : string)
| EvPdfReader (data : list byte)
| EvGenerativeModel (model : string)
| EvGenerateContent (prompt : string)
| EvMakedirs (dir : string)
| EvOpenWrite (path : string)
| EvJsonDump (path : string) (data : pyvalue).

(* ================================================================== *)
(** * Computations: a trace, and an exception or a value *)
(* ================================================================== *)

Definition M (A : Type) : Type := (list Event * (Exn + A))%type.

Definition ret {A} (a : A) : M A := ([], inr a).

Definition raise {A} (e : Exn) : M A := ([], inl e).

Definition bind {A B} (m : M A) (k : A -> M B) : M B :=
  match m with
  | (t, inl e) => (t, inl e)
  | (t, inr a) => let '(t', r) := k a in (t ++ t', r)
  end.

(** [try: m  except Exception as e: h e] *)
Definition try_except {A} (m : M A) (h : Exn -> M A) : M A :=
  match m with
  | (t, inl e) => let '(t', r) := h e in (t ++ t', r)
  | (t, inr a) => (t, inr a)
  end.

(** A call to a collaborator: it is recorded, then returns or raises. *)
Definition call {A} (ev : Event) (r : Exn + A) : M A := ([ev], r).

Definition print (m : LogMsg) : M unit := ([EvPrint m], inr tt).

(** The result of a call made for its effect. *)
Definition outcome (r : option Exn) : Exn + unit :=
  match r with Some e => inl e | None => inr tt end.

Definition trace_of {A} (m : M A) : list Event := fst m.
Definition result_of {A} (m : M A) : Exn + A := snd m.

Notation "x <- m ;; k" := (bind m (fun x => k))
  (at level 61, m at next level, right associativity).
Notation "m ;;; k" := (bind m (fun _ => k))
  (at level 61, right associativity).

(* ================================================================== *)
(** * The program *)
(* ================================================================== *)

Definition ONTOLOGY_FILE : string := "D:/DowryProject/dowryONTO_updated.rdf".
Definition PROMPT_FILE : string := "D:/DowryProject/code.txt".
Definition OUTPUT_DIR : string := "output".
Definition MODEL_NAME : string := "gemini-1.5-flash".

(** The new-line character of the triple-quoted string. *)
Definition nl : string := String (ascii_of_nat 10) EmptyString.

(** An f-string is a sequence of literal pieces and interpolated
    values; its value is their concatenation. *)
Definition f_string (pieces : list string) : string := String.concat "" pieces.

(** Lines 85-97: the f-string [full_prompt].  The lines of the
    triple-quoted literal after the first carry the four spaces of the
    source's indentation. *)
Definition full_prompt (prompt_template ontology_text document_text : string)
  : string :=
  f_string
    [ prompt_template; nl;
      nl;
      "    ONTOLOGY CONTEXT:"; nl;
      "    ```xml"; nl;
      "    "; ontology_text; nl;
      "    ```"; nl;
      nl;
      "    DOCUMENT TO ANALYZE:"; nl;
      "    ```text"; nl;
      "    "; document_text; nl;
      "    ```"; nl;
      nl;
      "    EXTRACTED JSON OUTPUT:" ].

Arguments full_prompt : simpl never.

(** [s[:1000] + "..." if len(s) > 1000 else s] *)
Definition truncate_raw (s : string) : string :=
  if 1000 <? String.length s then (PyStr.take 1000 s ++ "...")%string else s.

Section App.

Variable w : World.

(** Lines 44-52.  The handler of the [try] prints [filepath], a local
    that is bound by the second statement of the [try] block: it is
    given the binding of the local at the point where the exception
    was raised, and reading an unbound local raises
    [UnboundLocalError]. *)
Definition save_output_except (filepath : option string) (e : Exn) : M unit :=
  match filepath with
  | Some p => print (LogErrorSaving p e)
  | None => raise (mkExn UnboundLocalError "filepath")
  end.

(** The [try] block is split at the assignment to [filepath]: the
    statement before it runs under the handler with [filepath]
    unbound, the statements after it with [filepath] bound. *)
Definition save_output (filename : string) (data : pyvalue) (output_dir : string)
  : M unit :=
  made <- try_except
            (call (EvMakedirs output_dir) (outcome (makedirs w output_dir)) ;;;
             ret true)
            (fun e => save_output_except None e ;;; ret false) ;;
  if made : bool then
    let filepath := PosixPath.join output_dir filename in
    try_except
      (call (EvOpenWrite filepath) (outcome (open_write w filepath)) ;;;
       call (EvJsonDump filepath data) (outcome (snd (json_dump w data))) ;;;
       print (LogOutputSaved filepath))
      (save_output_except (Some filepath))
  else ret tt.

(** Lines 54-63 *)
Definition read_file (filepath : string) : M (option string) :=
  try_except
    (s <- call (EvOpenRead filepath) (open_read w filepath) ;;
     ret (Some s))
    (fun e =>
       match exn_class e with
       | FileNotFoundError => print (LogFileNotFound filepath) ;;; ret None
       | _ => print (LogErrorReading filepath e) ;;; ret None
       end).

(** Lines 70-72: the loop over the pages, [text += page.extract_text()] *)
Fixpoint extract_pages (pages : list (Exn + string)) (text : string) : M string :=
  match pages with
  | [] => ret text
  | page :: rest =>
      t <- ([], page) ;;
      extract_pages rest (text ++ t)%string
  end.

(** Lines 65-81 *)
Definition extract_text_from_pdf (pdf_file_stream : list byte) : M (option string) :=
  try_except
    (pages <- call (EvPdfReader pdf_file_stream) (PdfReader w pdf_file_stream) ;;
     text <- extract_pages pages "" ;;
     (if String.eqb text "" then print LogNoTextExtracted else ret tt) ;;;
     ret (Some text))
    (fun e =>
       match exn_class e with
       | PdfReadError => print LogInvalidPdf ;;; ret None
       | _ => print (LogErrorExtracting e) ;;; ret None
       end).

(** Lines 133-148: the inner [try] around [json.loads] *)
Definition parse_json_response (json_string : string) : M pyvalue :=
  try_except
    (extracted_data <- ([], json_loads w json_string) ;;
     print LogParsedJson ;;;
     ret extracted_data)
    (fun e =>
       match exn_class e with
       | JSONDecodeError =>
           print (LogInvalidJson e) ;;;
           print LogRawBegin ;;;
           print (LogRawText (truncate_raw json_string)) ;;;
           print LogRawEnd ;;;
           ret PNone
       | _ =>
           print (LogJsonUnexpected e) ;;;
           print LogRawBegin ;;;
           print (LogRawText (truncate_raw json_string)) ;;;
           print LogRawEnd ;;;
           ret PNone
       end).

(** Lines 83-152.  The function returns the parsed value, or [None]
    on every failure. *)
Definition extract_concepts_with_gemini
           (document_text ontology_text prompt_template : string) : M pyvalue :=
  print LogAttempting ;;;
  let full_prompt := full_prompt prompt_template ontology_text document_text in
  model <- try_except
             (call (EvGenerativeModel MODEL_NAME) (outcome (GenerativeModel w)) ;;;
              ret true)
             (fun e => print (LogErrorInitModel e) ;;; ret false) ;;
  if model : bool then
    try_except
      (print (LogSending MODEL_NAME) ;;;
       response <- call (EvGenerateContent full_prompt)
                        (generate_content w full_prompt) ;;
       print LogResponseReceived ;;;
       match candidates response with
       | [] =>
           print LogBlockedOrEmpty ;;;
           match prompt_feedback response with
           | Some fb =>
               if negb (block_reason fb =? 0)
               then print (LogBlockReason (block_reason fb))
               else print LogNoCandidates
           | None => print LogNoCandidates
           end ;;;
           ret PNone
       | first :: _ =>
           match parts first with
           | [] =>
               print LogNoParts ;;;
               print LogRawBegin ;;;
               print (LogRawResponse response) ;;;
               print LogRawEnd ;;;
               ret PNone
           | _ :: _ =>
               json_string <- ([], text response) ;;
               parse_json_response json_string
           end
       end)
      (fun e => print (LogApiError e) ;;; ret PNone)
  else ret PNone.

(** Lines 154-204.  [jsonify] is taken to return: it builds the
    response from a value that is already there, and fails on a value
    that [json.loads] gave only where the value is nested beyond the
    recursion limit of the interpreter. *)
Definition handle_extraction (request : Request) : M HttpResponse :=
  print LogReceivedRequest ;;;
  match files_get "file" (files request) with
  | None =>
      print LogNoFilePart ;;;
      ret (mkHttp (error_body "No file part in the request") 400)
  | Some file =>
      if String.eqb (filename file) "" then
        print LogNoSelectedFile ;;;
        ret (mkHttp (error_body "No selected file") 400)
      else if negb (PyStr.endswith (PyStr.lower (filename file)) ".pdf") then
        print (LogInvalidFileType (filename file)) ;;;
        ret (mkHttp (error_body "Invalid file type. Please upload a PDF.") 400)
      else
        print (LogReadingOntology ONTOLOGY_FILE) ;;;
        ontology_content <- read_file ONTOLOGY_FILE ;;
        print (LogReadingPrompt PROMPT_FILE) ;;;
        prompt_template_content <- read_file PROMPT_FILE ;;
        match ontology_content, prompt_template_content with
        | Some ontology_content, Some prompt_template_content =>
            print (LogExtractingFrom (filename file)) ;;;
            pdf_text <- extract_text_from_pdf (content file) ;;
            match pdf_text with
            | None =>
                print LogExtractFailed ;;;
                ret (mkHttp (error_body "Failed to extract text from the PDF file. It might be invalid, corrupted, or image-based.") 400)
            | Some pdf_text =>
                (if PyStr.strip_is_empty pdf_text then print LogEmptyText else ret tt) ;;;
                print (LogExtractedChars (String.length pdf_text)) ;;;
                extracted_data <- extract_concepts_with_gemini
                                    pdf_text ontology_content prompt_template_content ;;
                if is_not_None extracted_data then
                  print LogSuccess ;;;
                  save_output
                    (f_string [fst (PosixPath.splitext (filename file)); "_extraction.json"])
                    extracted_data OUTPUT_DIR ;;;
                  ret (mkHttp extracted_data 200)
                else
                  print LogFailed ;;;
                  ret (mkHttp (error_body "Failed to extract information using the AI model.") 500)
            end
        | _, _ =>
            print LogConfigIssue ;;;
            ret (mkHttp (error_body "Server configuration error reading ontology or prompt.") 500)
        end
  end.

End App.

(* ================================================================== *)
(** * Reading a trace *)
(* ================================================================== *)

(** The prompts sent to the model, in order: one for each call of
    [model.generate_content]. *)
Fixpoint llm_calls (t : list Event) : list string :=
  match t with
  | [] => []
  | EvGenerateContent p :: t' => p :: llm_calls t'
  | _ :: t' => llm_calls t'
  end.

(** The times the model client was set up ([genai.GenerativeModel]). *)
Fixpoint llm_entries (t : list Event) : nat :=
  match t with
  | [] => 0
  | EvGenerativeModel _ :: t' => S (llm_entries t')
  | _ :: t' => llm_entries t'
  end.

(** The files opened for reading, in order. *)
Fixpoint config_reads (t : list Event) : list string :=
  match t with
  | [] => []
  | EvOpenRead p :: t' => p :: config_reads t'
  | _ :: t' => config_reads t'
  end.

(** The byte streams handed to the PDF reader, in order. *)
Fixpoint pdf_reads (t : list Event) : list (list byte) :=
  match t with
  | [] => []
  | EvPdfReader d :: t' => d :: pdf_reads t'
  | _ :: t' => pdf_reads t'
  end.

(** The calls of the output writer that touch the disk. *)
Definition is_output_write (ev : Event) : bool :=
  match ev with
  | EvMakedirs _ | EvOpenWrite _ | EvJsonDump _ _ => true
  | _ => false
  end.

Definition output_writes (t : list Event) : list Event := filter is_output_write t.

(** The lines printed, in order. *)
Fixpoint printed (t : list Event) : list LogMsg :=
  match t with
  | [] => []
  | EvPrint m :: t' => m :: printed t'
  | _ :: t' => printed t'
  end.

(** The events of an accepted request whose configuration is read, up
    to the PDF reader. *)
Definition before_extraction (file : FileStorage) : list Event :=
  [EvPrint LogReceivedRequest;
   EvPrint (LogReadingOntology ONTOLOGY_FILE); EvOpenRead ONTOLOGY_FILE;
   EvPrint (LogReadingPrompt PROMPT_FILE); EvOpenRead PROMPT_FILE;
   EvPrint (LogExtractingFrom (filename file))].

(** The events of a request whose PDF has the text [doc], from the PDF
    reader to the start of the LLM step. *)
Definition extraction_events (file : FileStorage) (doc : string) : list Event :=
  EvPdfReader (content file) ::
  (if String.eqb doc "" then [EvPrint LogNoTextExtracted] else []) ++
  (if PyStr.strip_is_empty doc then [EvPrint LogEmptyText] else []) ++
  [EvPrint (LogExtractedChars (String.length doc))].

(** The files on disk: a path holds a text, or nothing. *)
Definition FS : Type := string -> option string.

Definition fs_empty : FS := fun _ => None.

Definition fs_write (fs : FS) (path txt : string) : FS :=
  fun p => if String.eqb p path then Some txt else fs p.

(** The effect of one event on the files: opening for writing creates
    the file or empties it; [json.dump] leaves in it the text that it
    managed to write. *)
Definition fs_event (w : World) (fs : FS) (ev : Event) : FS :=
  match ev with
  | EvOpenWrite path =>
      match open_write w path with
      | None => fs_write fs path ""
      | Some _ => fs
      end
  | EvJsonDump path data => fs_write fs path (fst (json_dump w data))
  | _ => fs
  end.

Definition fs_after (w : World) (fs : FS) (t : list Event) : FS :=
  fold_left (fs_event w) t fs.

(* ================================================================== *)
(** * The words of the specification *)
(* ================================================================== *)

(** The ontology "wrapped as a labeled XML block". *)
Definition labeled_xml_block (ontology : string) : string :=
  ("    ONTOLOGY CONTEXT:" ++ nl ++ "    ```xml" ++ nl ++
   "    " ++ ontology ++ nl ++ "    ```")%string.

(** The document text "wrapped as a labeled text block". *)
Definition labeled_text_block (document : string) : string :=
  ("    DOCUMENT TO ANALYZE:" ++ nl ++ "    ```text" ++ nl ++
   "    " ++ document ++ nl ++ "    ```")%string.

(** The "literal trailing marker requesting JSON output". *)
Definition json_output_marker : string := "    EXTRACTED JSON OUTPUT:".

(** The composed prompt of the specification: template, XML block,
    text block, marker, in that order, blank lines between them. *)
Definition composed_prompt (template ontology document : string) : string :=
  (template ++ nl ++ nl ++
   labeled_xml_block ontology ++ nl ++ nl ++
   labeled_text_block document ++ nl ++ nl ++
   json_output_marker)%string.

(** The extension of a file name: the part of the name that starts at
    its last [.]; a name without [.] has the empty extension. *)
Fixpoint extension (s : string) : string :=
  match s with
  | EmptyString => EmptyString
  | String c s' =>
      match extension s' with
      | EmptyString => if Ascii.eqb c "."%char then s else EmptyString
      | e => e
      end
  end.

(** The three reasons for which the request validator turns a request
    down: no file part, an empty file name, an extension that is not
    [.pdf] whatever its case. *)
Definition invalid_upload (request : Request) : Prop :=
  match files_get "file" (files request) with
  | None => True
  | Some file =>
      filename file = "" \/
      PyStr.lower (extension (filename file)) <> ".pdf"
  end.

(** What the program tests on the request: there is no file part, or
    its name is empty, or the lower-cased name does not end in
    [.pdf]. *)
Definition turned_down (request : Request) : Prop :=
  files_get "file" (files request) = None \/
  exists file, files_get "file" (files request) = Some file /\
               (filename file = "" \/
                PyStr.endswith (PyStr.lower (filename file)) ".pdf" = false).

(** The request passed the validator with the file [file]. *)
Definition accepted_upload (request : Request) (file : FileStorage) : Prop :=
  files_get "file" (files request) = Some file /\
  filename file <> "" /\
  PyStr.endswith (PyStr.lower (filename file)) ".pdf" = true.

(** Both configuration files were read. *)
Definition config_loaded (w : World) (ontology template : string) : Prop :=
  open_read w ONTOLOGY_FILE = inr ontology /\
  open_read w PROMPT_FILE = inr template.

(** The bytes are a well-formed PDF whose pages have the texts
    [texts], as PyPDF2 sees it: the reader opens them and every page
    gives its text. *)
Definition well_formed_pdf (w : World) (data : list byte) (texts : list string) : Prop :=
  PdfReader w data = inr (map inr texts).

(** The texts of the pages "concatenated with no separator, preserving
    page order". *)
Definition pages_text (texts : list string) : string :=
  fold_right String.append "" texts.

(** The ways in which the LLM step fails on the prompt [prompt]. *)
Inductive llm_step_fails (w : World) (prompt : string) : Prop :=
| fails_model_init e :
    GenerativeModel w = Some e -> llm_step_fails w prompt
| fails_provider_raises e :
    generate_content w prompt = inl e -> llm_step_fails w prompt
| fails_no_candidates r :
    generate_content w prompt = inr r -> candidates r = [] ->
    llm_step_fails w prompt
| fails_no_parts r c cs :
    generate_content w prompt = inr r -> candidates r = c :: cs ->
    parts c = [] -> llm_step_fails w prompt
| fails_no_text r e :
    generate_content w prompt = inr r -> text r = inl e ->
    llm_step_fails w prompt
| fails_invalid_json r s e :
    generate_content w prompt = inr r -> text r = inr s ->
    json_loads w s = inl e -> llm_step_fails w prompt.

(** The name of the output file of an upload, and its path. *)
Definition output_name (name : string) : string :=
  (fst (PosixPath.splitext name) ++ "_extraction.json")%string.

Definition output_path (name : string) : string :=
  PosixPath.join OUTPUT_DIR (output_name name).

(* ================================================================== *)
(** * The [json] module, as the program calls it *)
(* ================================================================== *)

(** [json.dump(data, f, indent=4, ensure_ascii=False)] and
    [json.loads(s)], after [json/encoder.py], [json/decoder.py] and
    [json/scanner.py] of CPython.

    - A character of a string is a character of Python below 256, as
      everywhere in this file.
    - A float is its [repr]; reading a number does not compute the
      float, it keeps the literal, which is the [repr] again for the
      literals that [json.dump] writes.
    - The limits of the interpreter (the depth of recursion, the
      number of digits of an [int] that is converted) are not
      modelled: a call of [json.dump] that meets one is a call that
      raises, which is up to the [World]. *)

Module PyJson.

(** What reading a text gives: the value read, or [Malformed] where
    Python raises [JSONDecodeError], or [Beyond] where the model does
    not follow Python. *)
Inductive parse (A : Type) : Type :=
| Ok (a : A)
| Malformed
| Beyond.

Arguments Ok {A} a.
Arguments Malformed {A}.
Arguments Beyond {A}.

Definition quote : ascii := ascii_of_nat 34.
Definition backslash : ascii := ascii_of_nat 92.
Definition newline : ascii := ascii_of_nat 10.

Definition is_digit (c : ascii) : bool :=
  (48 <=? nat_of_ascii c) && (nat_of_ascii c <=? 57).

(** ** [json.dump(data, f, indent=4, ensure_ascii=False)] *)

(** [ESCAPE_DCT] of [json.encoder]: the replacement of a character
    that [ESCAPE] matches. *)
Definition hex_digit (n : nat) : ascii :=
  ascii_of_nat (if n <? 10 then 48 + n else 87 + n).

Definition escape_char (c : ascii) : string :=
  let n := nat_of_ascii c in
  if n =? 34 then String backslash (String quote "")
  else if n =? 92 then String backslash (String backslash "")
  else if n =? 10 then String backslash "n"
  else if n =? 13 then String backslash "r"
  else if n =? 9 then String backslash "t"
  else if n =? 8 then String backslash "b"
  else if n =? 12 then String backslash "f"
  else if n <? 32
       then String backslash
              (String "u" (String "0" (String "0"
                 (String (hex_digit (n / 16)) (String (hex_digit (n mod 16)) "")))))
  else String c "".

(** The characters that [ESCAPE] matches: the control characters, the
    quote and the backslash. *)
Definition needs_escape (c : ascii) : bool :=
  (nat_of_ascii c <? 32) || Ascii.eqb c quote || Ascii.eqb c backslash.

(** [encode_basestring(s)], the encoder of strings when [ensure_ascii]
    is false. *)
Fixpoint escape (s : string) : string :=
  match s with
  | EmptyString => EmptyString
  | String c s' => (escape_char c ++ escape s')%string
  end.

Definition encode_basestring (s : string) : string :=
  String quote (escape s ++ String quote "").

(** [int.__repr__] *)
Definition int_repr (n : Z) : string := DecimalString.NilZero.string_of_int (Z.to_int n).

(** [floatstr]: the [repr] of the float, but for the three that JSON
    has no literal for. *)
Definition floatstr (repr : string) : string :=
  if String.eqb repr "nan" then "NaN"
  else if String.eqb repr "inf" then "Infinity"
  else if String.eqb repr "-inf" then "-Infinity"
  else repr.

Fixpoint spaces (n : nat) : string :=
  match n with
  | O => EmptyString
  | S n' => String " " (spaces n')
  end.

(** ['\n' + _indent * _current_indent_level], with [_indent] four
    spaces. *)
Definition newline_indent (level : nat) : string :=
  String newline (spaces (4 * level)).

(** [_iterencode(o, _current_indent_level)], its chunks joined. *)
Fixpoint iterencode (level : nat) (o : pyvalue) : string :=
  match o with
  | PNone => "null"
  | PBool true => "true"
  | PBool false => "false"
  | PInt n => int_repr n
  | PFloat repr => floatstr repr
  | PStr s => encode_basestring s
  | PList [] => "[]"
  | PList items =>
      "[" ++ newline_indent (S level) ++
      String.concat ("," ++ newline_indent (S level))
                    (map (iterencode (S level)) items) ++
      newline_indent level ++ "]"
  | PDict [] => "{}"
  | PDict items =>
      "{" ++ newline_indent (S level) ++
      String.concat ("," ++ newline_indent (S level))
                    (map (fun kv => encode_basestring (fst kv) ++ ": " ++
                                    iterencode (S level) (snd kv)) items) ++
      newline_indent level ++ "}"
  end%string.

(** The text that [json.dump(data, f, indent=4, ensure_ascii=False)]
    writes to [f]. *)
Definition dump (data : pyvalue) : string := iterencode 0 data.

(** ** [json.loads] *)

(** [s[len(p):]] when [s.startswith(p)] *)
Fixpoint strip_prefix (p s : string) : option string :=
  match p, s with
  | EmptyString, _ => Some s
  | String a p', String c s' => if Ascii.eqb a c then strip_prefix p' s' else None
  | String _ _, EmptyString => None
  end.

(** [WHITESPACE.match]: the characters of [' \t\n\r'] are skipped. *)
Definition is_ws (c : ascii) : bool :=
  let n := nat_of_ascii c in
  (n =? 32) || (n =? 9) || (n =? 10) || (n =? 13).

Fixpoint skip_ws (s : string) : string :=
  match s with
  | String c s' => if is_ws c then skip_ws s' else s
  | EmptyString => EmptyString
  end.

(** The value of a hexadecimal digit, of either case. *)
Definition hex_value (c : ascii) : option N :=
  let n := N_of_ascii c in
  if ((48 <=? n) && (n <=? 57))%N then Some (n - 48)%N
  else if ((97 <=? n) && (n <=? 102))%N then Some (n - 87)%N
  else if ((65 <=? n) && (n <=? 70))%N then Some (n - 55)%N
  else None.

Definition hex4 (a b c d : ascii) : option N :=
  match hex_value a, hex_value b, hex_value c, hex_value d with
  | Some x, Some y, Some z, Some t => Some (((x * 16 + y) * 16 + z) * 16 + t)%N
  | _, _, _, _ => None
  end.

(** [BACKSLASH]: the character that a one-letter escape stands for. *)
Definition unescape (c : ascii) : option ascii :=
  let n := nat_of_ascii c in
  if n =? 34 then Some quote
  else if n =? 92 then Some backslash
  else if n =? 47 then Some "/"%char
  else if n =? 98 then Some (ascii_of_nat 8)
  else if n =? 102 then Some (ascii_of_nat 12)
  else if n =? 110 then Some (ascii_of_nat 10)
  else if n =? 114 then Some (ascii_of_nat 13)
  else if n =? 116 then Some (ascii_of_nat 9)
  else None.

Definition push (c : ascii) (p : parse (string * string)) : parse (string * string) :=
  match p with
  | Ok (s, rest) => Ok (String c s, rest)
  | Malformed => Malformed
  | Beyond => Beyond
  end.

(** [scanstring(s, end, strict=True)], from the character after the
    opening quote: the string read and what follows its closing
    quote.  A character of the model is a character of Python below
    256: an escape [\uXXXX] for another one is [Beyond]. *)
Fixpoint scanstring (s : string) : parse (string * string) :=
  match s with
  | EmptyString => Malformed
  | String c t =>
      if Ascii.eqb c quote then Ok (EmptyString, t)
      else if Ascii.eqb c backslash then
        match t with
        | EmptyString => Malformed
        | String e t' =>
            if Ascii.eqb e "u" then
              match t' with
              | String x1 (String x2 (String x3 (String x4 t''))) =>
                  match hex4 x1 x2 x3 x4 with
                  | Some n => if (n <? 256)%N then push (ascii_of_N n) (scanstring t'')
                              else Beyond
                  | None => Malformed
                  end
              | _ => Malformed
              end
            else
              match unescape e with
              | Some ch => push ch (scanstring t')
              | None => Malformed
              end
        end
      else if nat_of_ascii c <? 32 then Malformed
      else push c (scanstring t)
  end.

(** The longest run of digits at the start of [s], and the rest. *)
Fixpoint span_digits (s : string) : string * string :=
  match s with
  | String c t =>
      if is_digit c then let (ds, r) := span_digits t in (String c ds, r)
      else (EmptyString, s)
  | EmptyString => (EmptyString, EmptyString)
  end.

(** The three groups of [NUMBER_RE]: the integer, which is an optional
    minus sign and then either [0] or digits that do not start with
    [0]; the fraction, a dot and digits; the exponent, [e] or [E], an
    optional sign and digits.  The last two may be missing. *)
Definition integer_part (s : string) : option (string * string) :=
  let (sign, s1) :=
    match s with
    | String c t => if Ascii.eqb c "-" then ("-", t) else (EmptyString, s)
    | EmptyString => (EmptyString, EmptyString)
    end in
  match s1 with
  | String c t =>
      if Ascii.eqb c "0" then Some ((sign ++ "0")%string, t)
      else if is_digit c
           then let (ds, r) := span_digits s1 in Some ((sign ++ ds)%string, r)
           else None
  | EmptyString => None
  end.

Definition frac_part (s : string) : string * string :=
  match s with
  | String c t =>
      if Ascii.eqb c "."
      then match span_digits t with
           | (EmptyString, _) => (EmptyString, s)
           | (ds, r) => (String c ds, r)
           end
      else (EmptyString, s)
  | EmptyString => (EmptyString, EmptyString)
  end.

Definition exp_part (s : string) : string * string :=
  match s with
  | String c t =>
      if Ascii.eqb c "e" || Ascii.eqb c "E"
      then let (sign, t1) :=
             match t with
             | String d t' =>
                 if Ascii.eqb d "-" || Ascii.eqb d "+" then (String d EmptyString, t')
                 else (EmptyString, t)
             | EmptyString => (EmptyString, EmptyString)
             end in
           match span_digits t1 with
           | (EmptyString, _) => (EmptyString, s)
           | (ds, r) => (String c (sign ++ ds), r)
           end
      else (EmptyString, s)
  | EmptyString => (EmptyString, EmptyString)
  end.

(** [int(s)] on an optional sign and digits. *)
Definition parse_int (s : string) : Z :=
  match DecimalString.NilZero.int_of_string s with
  | Some d => Z.of_int d
  | None => 0%Z
  end.

(** [match_number] and what [_scan_once] makes of its groups: an
    [int] when there is neither fraction nor exponent, a [float]
    otherwise.  The float is kept as the literal read, which is its
    [repr] when the literal was written by [json.dump]. *)
Definition match_number (s : string) : option (pyvalue * string) :=
  match integer_part s with
  | None => None
  | Some (integer, r1) =>
      let (frac, r2) := frac_part r1 in
      let (exp, r3) := exp_part r2 in
      if String.eqb frac "" && String.eqb exp ""
      then Some (PInt (parse_int integer), r3)
      else Some (PFloat (integer ++ frac ++ exp), r3)
  end.

(** [dict(pairs)]: a key met again keeps its place and takes the
    later value. *)
Fixpoint dict_set (d : list (string * pyvalue)) (k : string) (v : pyvalue)
  : list (string * pyvalue) :=
  match d with
  | [] => [(k, v)]
  | (k', v') :: d' =>
      if String.eqb k' k then (k', v) :: d' else (k', v') :: dict_set d' k v
  end.

Definition dict (pairs : list (string * pyvalue)) : list (string * pyvalue) :=
  fold_left (fun d kv => dict_set d (fst kv) (snd kv)) pairs [].

Definition map_ok {A B : Type} (f : A -> B) (p : parse (A * string))
  : parse (B * string) :=
  match p with
  | Ok (a, rest) => Ok (f a, rest)
  | Malformed => Malformed
  | Beyond => Beyond
  end.

(** [_scan_once], with the loop of [JSONArray] ([array_values], at
    the start of a value) and the loop of [JSONObject] ([object_pairs],
    after the opening quote of a key).  [fuel] bounds the nesting and
    the number of items; [loads] gives more than a text can use. *)
Fixpoint scan_once (fuel : nat) (s : string) : parse (pyvalue * string) :=
  match fuel with
  | O => Beyond
  | S fuel' =>
      match strip_prefix (String quote "") s with
      | Some t => map_ok PStr (scanstring t)
      | None =>
      match strip_prefix "{" s with
      | Some t =>
          match strip_prefix "}" (skip_ws t) with
          | Some r => Ok (PDict [], r)
          | None =>
              match strip_prefix (String quote "") (skip_ws t) with
              | Some r => map_ok (fun pairs => PDict (dict pairs)) (object_pairs fuel' r)
              | None => Malformed
              end
          end
      | None =>
      match strip_prefix "[" s with
      | Some t =>
          match strip_prefix "]" (skip_ws t) with
          | Some r => Ok (PList [], r)
          | None => map_ok PList (array_values fuel' (skip_ws t))
          end
      | None =>
      match strip_prefix "null" s with
      | Some r => Ok (PNone, r)
      | None =>
      match strip_prefix "true" s with
      | Some r => Ok (PBool true, r)
      | None =>
      match strip_prefix "false" s with
      | Some r => Ok (PBool false, r)
      | None =>
      match match_number s with
      | Some vr => Ok vr
      | None =>
      match strip_prefix "NaN" s with
      | Some r => Ok (PFloat "nan", r)
      | None =>
      match strip_prefix "Infinity" s with
      | Some r => Ok (PFloat "inf", r)
      | None =>
      match strip_prefix "-Infinity" s with
      | Some r => Ok (PFloat "-inf", r)
      | None => Malformed
      end end end end end end end end end end
  end

with array_values (fuel : nat) (s : string) : parse (list pyvalue * string) :=
  match fuel with
  | O => Beyond
  | S fuel' =>
      match scan_once fuel' s with
      | Ok (v, r) =>
          match skip_ws r with
          | String c r' =>
              if Ascii.eqb c "]" then Ok ([v], r')
              else if Ascii.eqb c ","
                   then map_ok (cons v) (array_values fuel' (skip_ws r'))
                   else Malformed
          | EmptyString => Malformed
          end
      | Malformed => Malformed
      | Beyond => Beyond
      end
  end

with object_pairs (fuel : nat) (s : string)
  : parse (list (string * pyvalue) * string) :=
  match fuel with
  | O => Beyond
  | S fuel' =>
      match scanstring s with
      | Ok (key, r) =>
          match strip_prefix ":" (skip_ws r) with
          | Some r1 =>
              match scan_once fuel' (skip_ws r1) with
              | Ok (v, r2) =>
                  match skip_ws r2 with
                  | String c r3 =>
                      if Ascii.eqb c "}" then Ok ([(key, v)], r3)
                      else if Ascii.eqb c ","
                           then match strip_prefix (String quote "") (skip_ws r3) with
                                | Some r4 => map_ok (cons (key, v)) (object_pairs fuel' r4)
                                | None => Malformed
                                end
                           else Malformed
                  | EmptyString => Malformed
                  end
              | Malformed => Malformed
              | Beyond => Beyond
              end
          | None => Malformed
          end
      | Malformed => Malformed
      | Beyond => Beyond
      end
  end.

(** [json.loads(s)]: one value, with white space around it and nothing
    else.  Reading a character takes at most two units of fuel. *)
Definition loads (s : string) : parse pyvalue :=
  match scan_once (2 * String.length s + 2) (skip_ws s) with
  | Ok (v, r) => match skip_ws r with
                 | EmptyString => Ok v
                 | String _ _ => Malformed
                 end
  | Malformed => Malformed
  | Beyond => Beyond
  end.

(** The values that the theorems below are about: a float is a
    literal of JSON, and the keys of an object are distinct, as the
    keys of a [dict] are. *)
Definition float_literal (repr : string) : bool :=
  match match_number repr with
  | Some (PFloat r, EmptyString) => String.eqb r repr
  | _ => false
  end.

Fixpoint distinct (keys : list string) : bool :=
  match keys with
  | [] => true
  | k :: keys' => negb (existsb (String.eqb k) keys') && distinct keys'
  end.

Fixpoint json_value (v : pyvalue) : bool :=
  match v with
  | PFloat repr => float_literal repr
  | PList items => forallb json_value items
  | PDict items =>
      distinct (map fst items) && forallb (fun kv => json_value (snd kv)) items
  | _ => true
  end.

(** The characters a number starts with, and those a value written by
    [dump] starts with. *)
Definition number_start (c : ascii) : bool := is_digit c || Ascii.eqb c "-".

Definition value_start (c : ascii) : bool :=
  number_start c || Ascii.eqb c quote || Ascii.eqb c "{" || Ascii.eqb c "[" ||
  Ascii.eqb c "n" || Ascii.eqb c "t" || Ascii.eqb c "f".

(** What follows a number does not go on with it. *)
Definition ends_number (rest : string) : bool :=
  match rest with
  | EmptyString => true
  | String c _ =>
      negb (is_digit c || Ascii.eqb c "." || Ascii.eqb c "e" || Ascii.eqb c "E" ||
            Ascii.eqb c "+" || Ascii.eqb c "-")
  end.

End PyJson.

(* ================================================================== *)
(** * Worlds and requests to run the program on *)
(* ================================================================== *)

Definition dq : string := String (ascii_of_nat 34) EmptyString.

(** [json.loads] on the literals used below; anything else is taken
    as text that is not JSON. *)
Definition json_loads_literals (s : string) : Exn + pyvalue :=
  if String.eqb s "null" then inr PNone
  else if String.eqb s "false" then inr (PBool false)
  else if String.eqb s "true" then inr (PBool true)
  else if String.eqb s "0" then inr (PInt 0)
  else if String.eqb s (dq ++ dq) then inr (PStr "")
  else if String.eqb s "{}" then inr (PDict [])
  else if String.eqb s "[]" then inr (PList [])
  else inl (mkExn JSONDecodeError "Expecting value").

(** [json.dump] on the same values; the sample worlds dump no other. *)
Definition json_dump_literals (v : pyvalue) : string * option Exn :=
  match v with
  | PNone => ("null", None)
  | PBool false => ("false", None)
  | PBool true => ("true", None)
  | PInt 0 => ("0", None)
  | PStr "" => ((dq ++ dq)%string, None)
  | PDict [] => ("{}", None)
  | PList [] => ("[]", None)
  | _ => ("", Some (mkExn OtherException "TypeError"))
  end.

(** The bytes [%PDF] stand for a PDF of two pages; any other upload
    is not a PDF. *)
Definition pdf_magic : list byte := [x25; x50; x44; x46].

Definition two_pages (data : list byte) : Exn + list (Exn + string) :=
  if list_eq_dec Byte.byte_eq_dec data pdf_magic
  then inr [inr "Dowry "; inr "case."]
  else inl (mkExn PdfReadError "EOF marker not found").

Definition config_files (path : string) : Exn + string :=
  if String.eqb path ONTOLOGY_FILE then inr "<rdf/>"
  else if String.eqb path PROMPT_FILE then inr "Extract."
  else inl (mkExn FileNotFoundError path).

(** A response of one candidate, with one part, whose text is
    [answer]. *)
Definition answer_of (answer : string) : GenerateContentResponse :=
  mkResponse [mkCandidate [answer]] None (inr answer).

(** A response without candidates, blocked for the reason [2]. *)
Definition blocked_response : GenerateContentResponse :=
  mkResponse [] (Some (mkFeedback 2)) (inl (mkExn OtherException "ValueError")).

(** A world where everything works and the model gives [r]. *)
Definition world_responding (r : Exn + GenerateContentResponse) : World :=
  {| open_read := config_files;
     PdfReader := two_pages;
     GenerativeModel := None;
     generate_content := fun _ => r;
     json_loads := json_loads_literals;
     makedirs := fun _ => None;
     open_write := fun _ => None;
     json_dump := json_dump_literals |}.

(** A world where everything works and the model answers with the
    text [answer]. *)
Definition world_answering (answer : string) : World :=
  world_responding (inr (answer_of answer)).

(** The same world, where [output] cannot be made a directory (a
    regular file of that name is in the way). *)
Definition world_no_output_dir (answer : string) : World :=
  {| open_read := config_files;
     PdfReader := two_pages;
     GenerativeModel := None;
     generate_content := fun _ => inr (answer_of answer);
     json_loads := json_loads_literals;
     makedirs := fun _ => Some (mkExn OtherException "FileExistsError");
     open_write := fun _ => None;
     json_dump := json_dump_literals |}.

(** The same world, where the disk is full: [json.dump] writes the
    first character and raises. *)
Definition world_disk_full (answer : string) : World :=
  {| open_read := config_files;
     PdfReader := two_pages;
     GenerativeModel := None;
     generate_content := fun _ => inr (answer_of answer);
     json_loads := json_loads_literals;
     makedirs := fun _ => None;
     open_write := fun _ => None;
     json_dump := fun v =>
       (substring 0 1 (fst (json_dump_literals v)),
        Some (mkExn OtherException "OSError")) |}.

(** The same world without the configuration files. *)
Definition world_no_config (answer : string) : World :=
  {| open_read := fun path => inl (mkExn FileNotFoundError path);
     PdfReader := two_pages;
     GenerativeModel := None;
     generate_content := fun _ => inr (answer_of answer);
     json_loads := json_loads_literals;
     makedirs := fun _ => None;
     open_write := fun _ => None;
     json_dump := json_dump_literals |}.

(** A world where the ontology is there but cannot be read. *)
Definition world_unreadable_ontology : World :=
  {| open_read := fun path =>
       if String.eqb path ONTOLOGY_FILE
       then inl (mkExn OtherException "PermissionError")
       else config_files path;
     PdfReader := two_pages;
     GenerativeModel := None;
     generate_content := fun _ => inr (answer_of "{}");
     json_loads := json_loads_literals;
     makedirs := fun _ => None;
     open_write := fun _ => None;
     json_dump := json_dump_literals |}.

(** A world where every upload is a PDF of three pages without text. *)
Definition world_blank_pages : World :=
  {| open_read := config_files;
     PdfReader := fun _ => inr [inr ""; inr ""; inr ""];
     GenerativeModel := None;
     generate_content := fun _ => inr (answer_of "{}");
     json_loads := json_loads_literals;
     makedirs := fun _ => None;
     open_write := fun _ => None;
     json_dump := json_dump_literals |}.

(** A world where everything works and whose [json] module is
    Python's: the text of the model is read by [PyJson.loads] (a text
    that [PyJson] does not follow is kept out of this world: it is
    taken as refused), and [json.dump] writes the whole of
    [PyJson.dump]. *)
Definition world_python_json (answer : string) : World :=
  {| open_read := config_files;
     PdfReader := two_pages;
     GenerativeModel := None;
     generate_content := fun _ => inr (answer_of answer);
     json_loads := fun s =>
       match PyJson.loads s with
       | PyJson.Ok v => inr v
       | _ => inl (mkExn JSONDecodeError "Expecting value")
       end;
     makedirs := fun _ => None;
     open_write := fun _ => None;
     json_dump := fun v => (PyJson.dump v, None) |}.

(** An answer of the model, on one line, and the value it stands for.
    The name holds a character beyond ASCII, [U+00E9]. *)
Definition e_acute : string := String (ascii_of_nat 233) EmptyString.

Definition sample_answer : string :=
  ("{" ++ dq ++ "victim" ++ dq ++ ": " ++ dq ++ "Ren" ++ e_acute ++ "e" ++ dq ++ ", " ++
   dq ++ "amount" ++ dq ++ ": 50000, " ++
   dq ++ "share" ++ dq ++ ": 0.5, " ++
   dq ++ "held" ++ dq ++ ": [null, true]}")%string.

Definition sample_value : pyvalue :=
  PDict [("victim", PStr ("Ren" ++ e_acute ++ "e"));
         ("amount", PInt 50000);
         ("share", PFloat "0.5");
         ("held", PList [PNone; PBool true])].

Definition good_file : FileStorage := mkFile "Case.PDF" pdf_magic.

Definition corrupt_file : FileStorage := mkFile "case.pdf" [x00; x01].

Definition upload (name : string) (data : list byte) : Request :=
  mkRequest [("file", mkFile name data)].

Definition good_upload : Request := upload "Case.PDF" pdf_magic.

Definition corrupt_upload : Request := upload "case.pdf" [x00; x01].

(* ================================================================== *)
(** * Further readings of a trace, and of a file name *)
(* ================================================================== *)

(** The calls made to the collaborators, in order: the trace without
    the printed lines. *)
Definition is_call (ev : Event) : bool :=
  match ev with EvPrint _ => false | _ => true end.

Definition calls_of (t : list Event) : list Event := filter is_call t.

(** The calls of a request that is served from end to end, for the
    upload [file], the prompt [prompt] and the parsed answer [v]. *)
Definition pipeline_calls (file : FileStorage) (prompt : string) (v : pyvalue)
  : list Event :=
  [EvOpenRead ONTOLOGY_FILE; EvOpenRead PROMPT_FILE;
   EvPdfReader (content file);
   EvGenerativeModel MODEL_NAME; EvGenerateContent prompt;
   EvMakedirs OUTPUT_DIR;
   EvOpenWrite (output_path (filename file));
   EvJsonDump (output_path (filename file)) v].

(** The string holds nothing but dots. *)
Fixpoint only_dots (s : string) : bool :=
  match s with
  | EmptyString => true
  | String c s' => Ascii.eqb c "."%char && only_dots s'
  end.

(** The last component of a path: what follows its last [/]. *)
Definition last_component (s : string) : string :=
  PyStr.drop (Z.to_nat (PyStr.rfind "/"%char s + 1)) s.

(* ================================================================== *)
(** * The start of the process (lines 20-30) *)
(* ================================================================== *)

(** The exceptions of the start: [ValueError], which has a handler of
    its own, and every other subclass of [Exception]. *)
Inductive StartupExn : Type :=
| ValueError (msg : string)
| OtherStartupError (msg : string).

(** What the start depends on: the environment, read after
    [load_dotenv()], and [genai.configure(api_key=key)], which returns
    or raises. *)
Record Process : Type := mkProcess {
  getenv : string -> option string;
  genai_configure : string -> option StartupExn
}.

(** The two lines the start can print (lines 26 and 29). *)
Inductive StartupLine : Type :=
| LogConfigurationError (e : StartupExn)
| LogUnexpectedConfigurationError (e : StartupExn).

(** The module goes on to define the service, or [exit()] ends the
    process after one line was printed. *)
Inductive Startup : Type :=
| Continues
| Exits (line : StartupLine).

(** Lines 20-30.  [not GOOGLE_API_KEY] holds for [None] and for the
    empty string. *)
Definition configure_gemini (p : Process) : Startup :=
  let GOOGLE_API_KEY := getenv p "GOOGLE_API_KEY" in
  let attempt : StartupExn + unit :=
    match GOOGLE_API_KEY with
    | None => inl (ValueError "GOOGLE_API_KEY environment variable not set.")
    | Some key =>
        if String.eqb key ""
        then inl (ValueError "GOOGLE_API_KEY environment variable not set.")
        else match genai_configure p key with
             | Some e => inl e
             | None => inr tt
             end
    end in
  match attempt with
  | inr _ => Continues
  | inl (ValueError msg) => Exits (LogConfigurationError (ValueError msg))
  | inl e => Exits (LogUnexpectedConfigurationError e)
  end.

(** A process whose environment holds [key] under [GOOGLE_API_KEY]
    and nothing else, and whose key is accepted. *)
Definition process_with_key (key : option string) : Process :=
  {| getenv := fun name => if String.eqb name "GOOGLE_API_KEY" then key else None;
     genai_configure := fun _ => None |}.

(** A world where the second page of the upload cannot be read. *)
Definition world_bad_second_page : World :=
  {| open_read := config_files;
     PdfReader := fun _ =>
       inr [inr "Dowry "; inl (mkExn OtherException "KeyError"); inr "case."];
     GenerativeModel := None;
     generate_content := fun _ => inr (answer_of "{}");
     json_loads := json_loads_literals;
     makedirs := fun _ => None;
     open_write := fun _ => None;
     json_dump := json_dump_literals |}.

(* ================================================================== *)
(** * Facts about strings *)
(* ================================================================== *)

Lemma append_nil_r (s : string) : (s ++ "")%string = s.
Proof. induction s as [|c s IH]; simpl; [reflexivity | now rewrite IH]. Qed.

Lemma append_assoc (a b c : string) :
  ((a ++ b) ++ c)%string = (a ++ (b ++ c))%string.
Proof. induction a as [|x a IH]; simpl; [reflexivity | now rewrite IH]. Qed.

Lemma length_append (a b : string) :
  String.length (a ++ b) = String.length a + String.length b.
Proof. induction a as [|x a IH]; simpl; [reflexivity | now rewrite IH]. Qed.

Lemma substring_all (s : string) : substring 0 (String.length s) s = s.
Proof. induction s as [|c s IH]; simpl; [reflexivity | now rewrite IH]. Qed.

Lemma substring_skip (p s : string) (m : nat) :
  substring (String.length p) m (p ++ s) = substring 0 m s.
Proof. induction p as [|c p IH]; simpl; [reflexivity | exact IH]. Qed.

(** A string is the part before index [n] followed by the part from
    [n] on. *)
Lemma substring_split (n : nat) : forall s : string,
  n <= String.length s ->
  s = (substring 0 n s ++ substring n (String.length s - n) s)%string.
Proof.
  induction n as [|n IH]; intros s Hn.
  - rewrite Nat.sub_0_r, substring_all. now destruct s.
  - destruct s as [|c s]; simpl in Hn; [lia|].
    simpl. f_equal. apply IH. lia.
Qed.

Module PyStrFacts.
Import PyStr.

Lemma endswith_append (p suf : string) : endswith (p ++ suf) suf = true.
Proof.
  unfold endswith. rewrite length_append.
  replace (String.length suf <=? String.length p + String.length suf) with true
    by (symmetry; apply Nat.leb_le; lia).
  replace (String.length p + String.length suf - String.length suf)
    with (String.length p) by lia.
  rewrite substring_skip, substring_all. apply String.eqb_refl.
Qed.

Lemma endswith_inv (s suf : string) :
  endswith s suf = true -> exists p, s = (p ++ suf)%string.
Proof.
  unfold endswith.
  destruct (String.length suf <=? String.length s) eqn:Hlen; [|discriminate].
  apply Nat.leb_le in Hlen. intros Heq. apply String.eqb_eq in Heq.
  exists (substring 0 (String.length s - String.length suf) s).
  rewrite (substring_split (String.length s - String.length suf) s) at 1 by lia.
  f_equal.
  replace (String.length s - (String.length s - String.length suf))
    with (String.length suf) by lia.
  exact Heq.
Qed.

Lemma endswith_iff (s suf : string) :
  endswith s suf = true <-> exists p, s = (p ++ suf)%string.
Proof.
  split; [apply endswith_inv|]. intros [p ->]. apply endswith_append.
Qed.

(** Lower-casing neither makes nor removes a dot. *)
Lemma lower_char_dot (c : ascii) :
  Ascii.eqb (lower_char c) "."%char = Ascii.eqb c "."%char.
Proof.
  destruct c as [[] [] [] [] [] [] [] []]; reflexivity.
Qed.

Lemma lower_append (a b : string) :
  lower (a ++ b) = (lower a ++ lower b)%string.
Proof. induction a as [|c a IH]; simpl; [reflexivity | now rewrite IH]. Qed.

Lemma extension_lower (s : string) :
  extension (lower s) = lower (extension s).
Proof.
  induction s as [|c s IH]; [reflexivity|].
  cbn [lower extension]. rewrite IH, lower_char_dot.
  destruct (extension s) as [|d e]; cbn [lower].
  - destruct (Ascii.eqb c "."%char); reflexivity.
  - reflexivity.
Qed.

(** The extension is a suffix of the name. *)
Lemma extension_suffix (s : string) :
  exists p, s = (p ++ extension s)%string.
Proof.
  induction s as [|c s [p IH]]; [now exists ""|].
  cbn [extension]. destruct (extension s) as [|d e] eqn:He.
  - destruct (Ascii.eqb c "."%char).
    + now exists "".
    + exists (String c s). now rewrite append_nil_r.
  - exists (String c p). simpl. now rewrite <- IH.
Qed.

(** A suffix that starts with the only dot it holds is the
    extension. *)
Lemma extension_append (p t : string) :
  extension t = "" ->
  extension (p ++ String "."%char t) = String "."%char t.
Proof.
  intros Ht. induction p as [|c p IH].
  - simpl. now rewrite Ht.
  - cbn [append extension]. now rewrite IH.
Qed.

(** The test of the program, [name.lower().endswith('.pdf')], is the
    test of the specification: the extension of the name, whatever
    its case, is [.pdf]. *)
Lemma endswith_pdf_extension (name : string) :
  endswith (lower name) ".pdf" = true <-> lower (extension name) = ".pdf".
Proof.
  rewrite <- extension_lower. split.
  - intros H. apply endswith_inv in H. destruct H as [p ->].
    now apply extension_append.
  - intros H. destruct (extension_suffix (lower name)) as [p Hp].
    rewrite H in Hp. rewrite Hp. apply endswith_append.
Qed.

Lemma rfind_from_lower_bound (c : ascii) (s : string) :
  forall i found, (-1 <= found)%Z -> (0 <= i)%Z ->
                  (-1 <= rfind_from c s i found)%Z.
Proof.
  induction s as [|d s IH]; intros i found Hf Hi; simpl; [exact Hf|].
  apply IH; [destruct (Ascii.eqb d c)|]; lia.
Qed.

Lemma rfind_lower_bound (c : ascii) (s : string) : (-1 <= rfind c s)%Z.
Proof. apply rfind_from_lower_bound; lia. Qed.

End PyStrFacts.

(* ------------------------------------------------------------------ *)
(** ** [json.loads] reads back what [json.dump] writes *)

Module PyJsonFacts.

Import PyJson.

(** An induction principle that goes through the items of a list and
    of a dictionary. *)
Lemma pyvalue_induction (P : pyvalue -> Prop) :
  P PNone -> (forall b, P (PBool b)) -> (forall n, P (PInt n)) ->
  (forall r, P (PFloat r)) -> (forall s, P (PStr s)) ->
  (forall items, Forall P items -> P (PList items)) ->
  (forall items, Forall (fun kv => P (snd kv)) items -> P (PDict items)) ->
  forall v, P v.
Proof.
  intros HN HB HI HF HS HL HD.
  fix IH 1. intros [ |b|n|r|s|items|items].
  - exact HN.
  - apply HB.
  - apply HI.
  - apply HF.
  - apply HS.
  - apply HL. induction items as [|x items IHitems]; constructor; [apply IH|exact IHitems].
  - apply HD. induction items as [|[k x] items IHitems]; constructor;
      [apply IH|exact IHitems].
Qed.

(** ** Prefixes and white space *)

Lemma strip_prefix_app (p r : string) : strip_prefix p (p ++ r) = Some r.
Proof.
  induction p as [|a p IH]; simpl; [reflexivity|].
  rewrite Ascii.eqb_refl. exact IH.
Qed.

Lemma strip_prefix_head (a c : ascii) (p t : string) :
  Ascii.eqb a c = false -> strip_prefix (String a p) (String c t) = None.
Proof. intros H. simpl. rewrite H. reflexivity. Qed.

Lemma number_start_value_start (c : ascii) :
  number_start c = true -> value_start c = true.
Proof. intros H. unfold value_start. rewrite H. reflexivity. Qed.

Lemma number_start_not (c : ascii) :
  number_start c = true ->
  Ascii.eqb quote c = false /\ Ascii.eqb "{" c = false /\ Ascii.eqb "[" c = false /\
  Ascii.eqb "n" c = false /\ Ascii.eqb "t" c = false /\ Ascii.eqb "f" c = false.
Proof.
  destruct c as [[] [] [] [] [] [] [] []]; vm_compute; intros H;
    try discriminate H; repeat split.
Qed.

Lemma value_start_not (c : ascii) :
  value_start c = true ->
  is_ws c = false /\ Ascii.eqb "]" c = false /\ Ascii.eqb "}" c = false.
Proof.
  destruct c as [[] [] [] [] [] [] [] []]; vm_compute; intros H;
    try discriminate H; repeat split.
Qed.

Lemma skip_ws_spaces (n : nat) (s : string) : skip_ws (spaces n ++ s) = skip_ws s.
Proof. induction n as [|n IH]; [reflexivity|exact IH]. Qed.

Lemma skip_ws_newline_indent (level : nat) (s : string) :
  skip_ws (newline_indent level ++ s) = skip_ws s.
Proof. unfold newline_indent. apply (skip_ws_spaces (4 * level) s). Qed.

Lemma skip_ws_value_start (c : ascii) (t : string) :
  value_start c = true -> skip_ws (String c t) = String c t.
Proof.
  intros H. destruct (value_start_not c H) as (Hw & _).
  simpl. rewrite Hw. reflexivity.
Qed.

(** ** Strings *)

Lemma scanstring_escape_char (c : ascii) (t : string) :
  scanstring (escape_char c ++ t) = push c (scanstring t).
Proof. destruct c as [[] [] [] [] [] [] [] []]; reflexivity. Qed.

Lemma scanstring_escape (s rest : string) :
  scanstring (escape s ++ String quote rest) = Ok (s, rest).
Proof.
  induction s as [|c s IH]; [reflexivity|].
  cbn [escape]. rewrite append_assoc, scanstring_escape_char, IH. reflexivity.
Qed.

Lemma scanstring_basestring (s rest : string) :
  strip_prefix (String quote "") (encode_basestring s ++ rest)
  = Some (escape s ++ String quote rest)%string.
Proof.
  unfold encode_basestring. cbn [append strip_prefix].
  rewrite Ascii.eqb_refl, append_assoc. reflexivity.
Qed.

(** ** Numbers *)

Lemma ends_number_head (c : ascii) (t : string) :
  ends_number (String c t) = true ->
  is_digit c = false /\ Ascii.eqb c "." = false /\ Ascii.eqb c "e" = false /\
  Ascii.eqb c "E" = false /\ Ascii.eqb c "+" = false /\ Ascii.eqb c "-" = false.
Proof.
  unfold ends_number. intros H. apply negb_true_iff in H.
  repeat (apply orb_false_iff in H; destruct H as [H ?]). auto 10.
Qed.

Lemma span_digits_app (s rest : string) :
  ends_number rest = true ->
  span_digits (s ++ rest) = (fst (span_digits s), (snd (span_digits s) ++ rest)%string).
Proof.
  intros Hrest. induction s as [|c s IH].
  - destruct rest as [|d rest]; [reflexivity|].
    destruct (ends_number_head d rest Hrest) as (Hd & _).
    cbn. rewrite Hd. reflexivity.
  - cbn. destruct (is_digit c); [|reflexivity].
    rewrite IH. destruct (span_digits s). reflexivity.
Qed.

Lemma integer_part_app (s rest i r : string) :
  integer_part s = Some (i, r) ->
  ends_number rest = true ->
  integer_part (s ++ rest) = Some (i, (r ++ rest)%string).
Proof.
  intros H Hrest. unfold integer_part in *.
  destruct s as [|c t]; [discriminate H|].
  cbn [append]. destruct (Ascii.eqb c "-").
  - destruct t as [|c' t']; [discriminate H|].
    cbn [append]. destruct (Ascii.eqb c' "0").
    + injection H as <- <-. reflexivity.
    + destruct (is_digit c'); [|discriminate H].
      change (String c' (t' ++ rest)) with (String c' t' ++ rest)%string.
      rewrite (span_digits_app _ _ Hrest).
      destruct (span_digits (String c' t')). injection H as <- <-. reflexivity.
  - destruct (Ascii.eqb c "0").
    + injection H as <- <-. reflexivity.
    + destruct (is_digit c); [|discriminate H].
      change (String c (t ++ rest)) with (String c t ++ rest)%string.
      rewrite (span_digits_app _ _ Hrest).
      destruct (span_digits (String c t)). injection H as <- <-. reflexivity.
Qed.

Lemma frac_part_app (s rest : string) :
  ends_number rest = true ->
  frac_part (s ++ rest) = (fst (frac_part s), (snd (frac_part s) ++ rest)%string).
Proof.
  intros Hrest. destruct s as [|c t].
  - destruct rest as [|d rest]; [reflexivity|].
    destruct (ends_number_head d rest Hrest) as (_ & Hd & _).
    cbn. rewrite Hd. reflexivity.
  - cbn. destruct (Ascii.eqb c "."); [|reflexivity].
    rewrite (span_digits_app _ _ Hrest).
    destruct (span_digits t) as [[|d ds] r]; reflexivity.
Qed.

Lemma exp_part_app (s rest : string) :
  ends_number rest = true ->
  exp_part (s ++ rest) = (fst (exp_part s), (snd (exp_part s) ++ rest)%string).
Proof.
  intros Hrest. destruct s as [|c t].
  - destruct rest as [|d rest]; [reflexivity|].
    destruct (ends_number_head d rest Hrest) as (_ & _ & He & HE & _).
    cbn. rewrite He, HE. reflexivity.
  - cbn [append exp_part]. destruct (Ascii.eqb c "e" || Ascii.eqb c "E"); [|reflexivity].
    destruct t as [|d t'].
    + cbn [append]. destruct rest as [|d rest]; [reflexivity|].
      destruct (ends_number_head d rest Hrest) as (Hd & _ & _ & _ & Hp & Hm).
      rewrite Hm, Hp. cbn. rewrite Hd. reflexivity.
    + cbn [append]. destruct (Ascii.eqb d "-" || Ascii.eqb d "+").
      * rewrite (span_digits_app _ _ Hrest).
        destruct (span_digits t') as [[|x ds] r]; reflexivity.
      * change (String d (t' ++ rest)) with (String d t' ++ rest)%string.
        rewrite (span_digits_app _ _ Hrest).
        destruct (span_digits (String d t')) as [[|x ds] r]; reflexivity.
Qed.

(** What follows a number, when it does not go on with it, is what
    follows it in a longer text. *)
Lemma match_number_app (s rest : string) (v : pyvalue) (r : string) :
  match_number s = Some (v, r) ->
  ends_number rest = true ->
  match_number (s ++ rest) = Some (v, (r ++ rest)%string).
Proof.
  intros H Hrest. unfold match_number in *.
  destruct (integer_part s) as [[i r1]|] eqn:Hi; [|discriminate H].
  rewrite (integer_part_app _ _ _ _ Hi Hrest).
  rewrite (frac_part_app _ _ Hrest). destruct (frac_part r1) as [f r2].
  cbn [fst snd].
  rewrite (exp_part_app _ _ Hrest). destruct (exp_part r2) as [e r3].
  cbn [fst snd].
  destruct (String.eqb f "" && String.eqb e ""); injection H as <- <-; reflexivity.
Qed.

Lemma integer_part_head (s i r : string) :
  integer_part s = Some (i, r) ->
  exists c t, s = String c t /\ number_start c = true.
Proof.
  unfold integer_part. destruct s as [|c t]; [discriminate|].
  intros H. exists c, t. split; [reflexivity|]. unfold number_start.
  destruct (Ascii.eqb c "-"); [apply orb_true_r|].
  destruct (Ascii.eqb_spec c "0") as [->|_]; [reflexivity|].
  destruct (is_digit c); [reflexivity|discriminate H].
Qed.

Lemma match_number_head (s : string) (v : pyvalue) (r : string) :
  match_number s = Some (v, r) ->
  exists c t, s = String c t /\ number_start c = true.
Proof.
  unfold match_number. destruct (integer_part s) as [[i r1]|] eqn:Hi; [|discriminate].
  intros _. exact (integer_part_head _ _ _ Hi).
Qed.

Lemma span_digits_uint (d : Decimal.uint) :
  span_digits (DecimalString.NilEmpty.string_of_uint d) = (DecimalString.NilEmpty.string_of_uint d, "").
Proof. induction d; cbn; rewrite ?IHd; reflexivity. Qed.

(** The digits of a positive number do not start with [0]. *)
Lemma to_uint_head (p : positive) :
  Pos.to_uint p <> Decimal.Nil /\ forall d, Pos.to_uint p <> Decimal.D0 d.
Proof.
  split; [apply DecimalPos.Unsigned.to_uint_nonnil|].
  intros d E.
  pose proof (DecimalPos.Unsigned.to_of (Pos.to_uint p)) as H.
  rewrite DecimalPos.Unsigned.of_to in H. cbn [N.to_uint] in H.
  unfold Decimal.unorm in H.
  destruct (Decimal.nzhead (Pos.to_uint p)) eqn:Hn;
    try (rewrite E in H; discriminate H).
  - rewrite E in H. injection H as ->.
    apply (DecimalPos.Unsigned.to_uint_nonzero p). exact E.
  - apply (DecimalFacts.nzhead_nonzero _ _ Hn).
Qed.

Lemma integer_part_uint (d : Decimal.uint) :
  d <> Decimal.Nil -> (forall d', d <> Decimal.D0 d') ->
  integer_part (DecimalString.NilEmpty.string_of_uint d) = Some (DecimalString.NilEmpty.string_of_uint d, "") /\
  integer_part (String "-" (DecimalString.NilEmpty.string_of_uint d))
  = Some (String "-" (DecimalString.NilEmpty.string_of_uint d), "").
Proof.
  intros Hnil H0.
  destruct d; try (now elim Hnil); try (now elim (H0 d));
    unfold integer_part; cbn; rewrite span_digits_uint; split; reflexivity.
Qed.

Lemma string_of_uint_nonnil (d : Decimal.uint) :
  d <> Decimal.Nil -> DecimalString.NilZero.string_of_uint d = DecimalString.NilEmpty.string_of_uint d.
Proof. destruct d; [intros H; now elim H|reflexivity..]. Qed.

Lemma integer_part_int_repr (n : Z) :
  integer_part (int_repr n) = Some (int_repr n, "").
Proof.
  destruct n as [|p|p]; [reflexivity| |];
    destruct (to_uint_head p) as (Hnil & H0);
    unfold int_repr; cbn [Z.to_int DecimalString.NilZero.string_of_int];
    rewrite (string_of_uint_nonnil _ Hnil);
    apply (integer_part_uint _ Hnil H0).
Qed.

Lemma parse_int_int_repr (n : Z) : parse_int (int_repr n) = n.
Proof.
  unfold parse_int, int_repr. rewrite DecimalString.NilZero.isi.
  - apply DecimalZ.of_to.
  - destruct n; cbn; intros [= H]; try discriminate;
      now apply (DecimalPos.Unsigned.to_uint_nonnil _ H).
  - destruct n; cbn; intros [= H]; try discriminate;
      now apply (DecimalPos.Unsigned.to_uint_nonnil _ H).
Qed.

(** [int(repr(n)) == n] *)
Lemma match_number_int_repr (n : Z) :
  match_number (int_repr n) = Some (PInt n, "").
Proof.
  unfold match_number. rewrite integer_part_int_repr. cbn.
  rewrite parse_int_int_repr. reflexivity.
Qed.

Lemma float_literal_spec (r : string) :
  float_literal r = true ->
  match_number r = Some (PFloat r, "") /\ floatstr r = r.
Proof.
  unfold float_literal.
  destruct (match_number r) as [[[ | | |r'| | | ] [|c rest]]|] eqn:E; try discriminate.
  intros H. apply String.eqb_eq in H. subst r'. split; [reflexivity|].
  unfold floatstr.
  destruct (String.eqb_spec r "nan") as [->|_]; [discriminate E|].
  destruct (String.eqb_spec r "inf") as [->|_]; [discriminate E|].
  destruct (String.eqb_spec r "-inf") as [->|_]; [discriminate E|].
  reflexivity.
Qed.

(** ** The shape of what [dump] writes *)

Lemma iterencode_list (level : nat) (x : pyvalue) (xs : list pyvalue) :
  iterencode level (PList (x :: xs))
  = ("[" ++ newline_indent (S level) ++
     String.concat ("," ++ newline_indent (S level))
                   (map (iterencode (S level)) (x :: xs)) ++
     newline_indent level ++ "]")%string.
Proof. reflexivity. Qed.

Lemma iterencode_dict (level : nat) (kv : string * pyvalue)
      (items : list (string * pyvalue)) :
  iterencode level (PDict (kv :: items))
  = ("{" ++ newline_indent (S level) ++
     String.concat ("," ++ newline_indent (S level))
                   (map (fun kv => (encode_basestring (fst kv) ++ ": " ++
                                    iterencode (S level) (snd kv))%string)
                        (kv :: items)) ++
     newline_indent level ++ "}")%string.
Proof. reflexivity. Qed.

Lemma concat_two (sep a b : string) (l : list string) :
  String.concat sep (a :: b :: l) = (a ++ sep ++ String.concat sep (b :: l))%string.
Proof. reflexivity. Qed.

Lemma int_repr_head (n : Z) :
  exists c t, int_repr n = String c t /\ number_start c = true.
Proof. exact (integer_part_head _ _ _ (integer_part_int_repr n)). Qed.

(** A value is written with, at its start, a character that tells
    what it is. *)
Lemma iterencode_head (level : nat) (v : pyvalue) :
  json_value v = true ->
  exists c t, iterencode level v = String c t /\ value_start c = true.
Proof.
  destruct v as [ |[|]|n|r|s|[|x xs]|[|kv items]]; intros Hv;
    try (eexists; eexists; split; reflexivity).
  - destruct (int_repr_head n) as (c & t & E & Hc).
    exists c, t. split; [exact E|now apply number_start_value_start].
  - cbn in Hv. destruct (float_literal_spec r Hv) as (Hm & Hr).
    destruct (match_number_head _ _ _ Hm) as (c & t & E & Hc).
    exists c, t. cbn [iterencode]. rewrite Hr.
    split; [exact E|now apply number_start_value_start].
Qed.

(** ** The equations of the scanner *)

Lemma scan_once_number (fuel : nat) (s : string) (v : pyvalue) (r : string) :
  match_number s = Some (v, r) -> scan_once (S fuel) s = Ok (v, r).
Proof.
  intros H. destruct (match_number_head _ _ _ H) as (c & t & -> & Hc).
  destruct (number_start_not c Hc) as (H1 & H2 & H3 & H4 & H5 & H6).
  cbn [scan_once].
  rewrite (strip_prefix_head _ _ _ _ H1), (strip_prefix_head _ _ _ _ H2),
    (strip_prefix_head _ _ _ _ H3), (strip_prefix_head _ _ _ _ H4),
    (strip_prefix_head _ _ _ _ H5), (strip_prefix_head _ _ _ _ H6), H.
  reflexivity.
Qed.

Lemma scan_once_string (fuel : nat) (t : string) :
  scan_once (S fuel) (String quote t) = map_ok PStr (scanstring t).
Proof. reflexivity. Qed.

Lemma scan_once_array (fuel : nat) (t : string) :
  scan_once (S fuel) (String "[" t)
  = match strip_prefix "]" (skip_ws t) with
    | Some r => Ok (PList [], r)
    | None => map_ok PList (array_values fuel (skip_ws t))
    end.
Proof. reflexivity. Qed.

Lemma scan_once_object (fuel : nat) (t : string) :
  scan_once (S fuel) (String "{" t)
  = match strip_prefix "}" (skip_ws t) with
    | Some r => Ok (PDict [], r)
    | None =>
        match strip_prefix (String quote "") (skip_ws t) with
        | Some r => map_ok (fun pairs => PDict (dict pairs)) (object_pairs fuel r)
        | None => Malformed
        end
    end.
Proof. reflexivity. Qed.

Lemma array_values_eq (fuel : nat) (s : string) :
  array_values (S fuel) s
  = match scan_once fuel s with
    | Ok (v, r) =>
        match skip_ws r with
        | String c r' =>
            if Ascii.eqb c "]" then Ok ([v], r')
            else if Ascii.eqb c ","
                 then map_ok (cons v) (array_values fuel (skip_ws r'))
                 else Malformed
        | EmptyString => Malformed
        end
    | Malformed => Malformed
    | Beyond => Beyond
    end.
Proof. reflexivity. Qed.

Lemma object_pairs_eq (fuel : nat) (s : string) :
  object_pairs (S fuel) s
  = match scanstring s with
    | Ok (key, r) =>
        match strip_prefix ":" (skip_ws r) with
        | Some r1 =>
            match scan_once fuel (skip_ws r1) with
            | Ok (v, r2) =>
                match skip_ws r2 with
                | String c r3 =>
                    if Ascii.eqb c "}" then Ok ([(key, v)], r3)
                    else if Ascii.eqb c ","
                         then match strip_prefix (String quote "") (skip_ws r3) with
                              | Some r4 => map_ok (cons (key, v)) (object_pairs fuel r4)
                              | None => Malformed
                              end
                         else Malformed
                | EmptyString => Malformed
                end
            | Malformed => Malformed
            | Beyond => Beyond
            end
        | None => Malformed
        end
    | Malformed => Malformed
    | Beyond => Beyond
    end.
Proof. reflexivity. Qed.

(** ** [dict] of pairs with distinct keys *)

Lemma dict_set_new (d : list (string * pyvalue)) (k : string) (v : pyvalue) :
  existsb (String.eqb k) (map fst d) = false ->
  dict_set d k v = d ++ [(k, v)].
Proof.
  induction d as [|[k' v'] d IH]; [reflexivity|].
  cbn. intros H. apply orb_false_iff in H. destruct H as [Hk Hd].
  rewrite String.eqb_sym, Hk, (IH Hd). reflexivity.
Qed.

Lemma dict_fold_distinct (items acc : list (string * pyvalue)) :
  distinct (map fst (acc ++ items)) = true ->
  fold_left (fun d kv => dict_set d (fst kv) (snd kv)) items acc = acc ++ items.
Proof.
  revert acc. induction items as [|[k v] items IH]; intros acc H.
  - now rewrite app_nil_r.
  - cbn [fold_left fst snd].
    assert (Hk : existsb (String.eqb k) (map fst acc) = false).
    { clear IH. induction acc as [|[k' v'] acc IHacc]; [reflexivity|].
      cbn in H |- *. apply andb_true_iff in H. destruct H as [Hn Hd].
      rewrite (IHacc Hd), orb_false_r.
      apply negb_true_iff in Hn. rewrite map_app, existsb_app in Hn.
      apply orb_false_iff in Hn. destruct Hn as [_ Hn]. cbn in Hn.
      apply orb_false_iff in Hn. destruct Hn as [Hn _].
      now rewrite String.eqb_sym. }
    rewrite (dict_set_new _ _ _ Hk), IH; rewrite <- app_assoc; [reflexivity|exact H].
Qed.

Lemma dict_distinct (items : list (string * pyvalue)) :
  distinct (map fst items) = true -> dict items = items.
Proof. intros H. apply (dict_fold_distinct items [] H). Qed.

(** ** Reading back what [dump] writes *)

Lemma fuel_for_head (s : string) (c : ascii) (t : string) (fuel : nat) :
  s = String c t -> String.length s <= fuel -> exists f, fuel = S f.
Proof. intros -> H. cbn in H. destruct fuel as [|f]; [lia|eauto]. Qed.

Lemma skip_ws_head (X : string) (c : ascii) (t : string) :
  X = String c t -> value_start c = true -> skip_ws X = X.
Proof. intros -> H. now apply skip_ws_value_start. Qed.

Lemma strip_close_head (X : string) (c : ascii) (t : string) :
  X = String c t -> value_start c = true ->
  strip_prefix "]" X = None /\ strip_prefix "}" X = None.
Proof.
  intros -> H. destruct (value_start_not c H) as (_ & H1 & H2).
  split; apply strip_prefix_head; assumption.
Qed.

Lemma open_append (c : ascii) (X rest : string) :
  ((String c "" ++ X) ++ rest)%string = String c (X ++ rest).
Proof. reflexivity. Qed.

Lemma skip_ws_space (X : string) : skip_ws (String " " X) = skip_ws X.
Proof. reflexivity. Qed.

Lemma items_head (level : nat) (sep tail : string) (x : pyvalue) (xs : list pyvalue) :
  json_value x = true ->
  exists c t,
    (String.concat sep (map (iterencode level) (x :: xs)) ++ tail)%string = String c t /\
    value_start c = true.
Proof.
  intros Hx. destruct (iterencode_head level x Hx) as (c & t & E & Hc).
  destruct xs as [|y ys]; cbn [map]; [cbn [String.concat]|rewrite concat_two];
    rewrite E; cbn [append]; eauto.
Qed.

Lemma skip_ws_value (level : nat) (v : pyvalue) (X : string) :
  json_value v = true ->
  skip_ws (iterencode level v ++ X) = (iterencode level v ++ X)%string.
Proof.
  intros Hv. destruct (iterencode_head level v Hv) as (c & t & E & Hc).
  rewrite E. apply (skip_ws_value_start c (t ++ X) Hc).
Qed.

Lemma array_values_last (fuel : nat) (s : string) (v : pyvalue) (r X : string) :
  scan_once fuel s = Ok (v, r) ->
  skip_ws r = String "]" X ->
  array_values (S fuel) s = Ok ([v], X).
Proof. intros H1 H2. rewrite array_values_eq, H1, H2. reflexivity. Qed.

Lemma array_values_more (fuel : nat) (s : string) (v : pyvalue) (r X : string) :
  scan_once fuel s = Ok (v, r) ->
  skip_ws r = String "," X ->
  array_values (S fuel) s = map_ok (cons v) (array_values fuel (skip_ws X)).
Proof. intros H1 H2. rewrite array_values_eq, H1, H2. reflexivity. Qed.

Lemma object_pairs_last (fuel : nat) (s key r r1 : string) (v : pyvalue)
      (r2 X : string) :
  scanstring s = Ok (key, r) ->
  strip_prefix ":" (skip_ws r) = Some r1 ->
  scan_once fuel (skip_ws r1) = Ok (v, r2) ->
  skip_ws r2 = String "}" X ->
  object_pairs (S fuel) s = Ok ([(key, v)], X).
Proof.
  intros H1 H2 H3 H4. rewrite object_pairs_eq, H1, H2, H3, H4. reflexivity.
Qed.

Lemma object_pairs_more (fuel : nat) (s key r r1 : string) (v : pyvalue)
      (r2 X r4 : string) :
  scanstring s = Ok (key, r) ->
  strip_prefix ":" (skip_ws r) = Some r1 ->
  scan_once fuel (skip_ws r1) = Ok (v, r2) ->
  skip_ws r2 = String "," X ->
  strip_prefix (String quote "") (skip_ws X) = Some r4 ->
  object_pairs (S fuel) s = map_ok (cons (key, v)) (object_pairs fuel r4).
Proof.
  intros H1 H2 H3 H4 H5. rewrite object_pairs_eq, H1, H2, H3, H4.
  cbv beta iota. change (Ascii.eqb "," "}") with false.
  change (Ascii.eqb "," ",") with true. cbv beta iota. rewrite H5. reflexivity.
Qed.

(** The items of a list are read back, when each of them is. *)
Lemma array_values_items (level : nat) (rest : string) :
  forall (xs : list pyvalue) (x : pyvalue) (fuel : nat),
    Forall (fun v =>
              json_value v = true /\
              forall fuel rest',
                String.length (iterencode (S level) v) <= fuel ->
                ends_number rest' = true ->
                scan_once fuel (iterencode (S level) v ++ rest') = Ok (v, rest'))
           (x :: xs) ->
    String.length (String.concat ("," ++ newline_indent (S level))
                                 (map (iterencode (S level)) (x :: xs))) < fuel ->
    array_values fuel
      (String.concat ("," ++ newline_indent (S level))
                     (map (iterencode (S level)) (x :: xs)) ++
       newline_indent level ++ "]" ++ rest)
    = Ok (x :: xs, rest).
Proof.
  induction xs as [|y ys IH]; intros x fuel HF Hlen.
  - inversion HF as [|? ? [Hx Px] _]; subst.
    cbn [map String.concat] in *.
    destruct fuel as [|f]; [lia|].
    apply (array_values_last f _ x (newline_indent level ++ "]" ++ rest) rest).
    + apply Px; [lia|reflexivity].
    + rewrite skip_ws_newline_indent. reflexivity.
  - inversion HF as [|? ? [Hx Px] HF']; subst.
    cbn [map] in *. rewrite concat_two in *.
    rewrite !length_append in Hlen. cbn [String.length] in Hlen.
    destruct fuel as [|f]; [lia|].
    rewrite !append_assoc.
    erewrite array_values_more; [|apply Px; [lia|reflexivity]|reflexivity].
    rewrite skip_ws_newline_indent.
    inversion HF' as [|? ? [Hy _] _]; subst.
    destruct (items_head (S level) ("," ++ newline_indent (S level))
                (newline_indent level ++ "]" ++ rest) y ys Hy)
      as (c & t & E & Hc).
    cbn [map] in E.
    rewrite (skip_ws_head _ c t E Hc).
    rewrite (IH y f HF'); [reflexivity|].
    cbn [map]. lia.
Qed.

Lemma quoted_head (X r : string) :
  strip_prefix (String quote "") X = Some r ->
  skip_ws X = X /\ strip_prefix "}" X = None.
Proof.
  destruct X as [|c t]; [discriminate|]. cbn [strip_prefix].
  destruct (Ascii.eqb_spec quote c) as [<-|_]; [|discriminate].
  intros _. split; reflexivity.
Qed.

Lemma members_head (level : nat) (sep tail : string) (kv : string * pyvalue)
      (items : list (string * pyvalue)) :
  exists r,
    strip_prefix (String quote "")
      (String.concat sep
         (map (fun kv => (encode_basestring (fst kv) ++ ": " ++
                          iterencode level (snd kv))%string)
              (kv :: items)) ++ tail)
    = Some r.
Proof.
  destruct items as [|kv' items]; cbn [map]; [cbn [String.concat]|rewrite concat_two];
    rewrite !append_assoc, scanstring_basestring; eauto.
Qed.

(** The pairs of a dictionary are read back, when each value is. *)
Lemma object_pairs_items (level : nat) (rest : string) :
  forall (items : list (string * pyvalue)) (kv : string * pyvalue)
         (fuel : nat) (r0 : string),
    Forall (fun kv =>
              json_value (snd kv) = true /\
              forall fuel rest',
                String.length (iterencode (S level) (snd kv)) <= fuel ->
                ends_number rest' = true ->
                scan_once fuel (iterencode (S level) (snd kv) ++ rest')
                = Ok (snd kv, rest'))
           (kv :: items) ->
    strip_prefix (String quote "")
      (String.concat ("," ++ newline_indent (S level))
         (map (fun kv => (encode_basestring (fst kv) ++ ": " ++
                          iterencode (S level) (snd kv))%string)
              (kv :: items)) ++
       newline_indent level ++ "}" ++ rest)
    = Some r0 ->
    String.length
      (String.concat ("," ++ newline_indent (S level))
         (map (fun kv => (encode_basestring (fst kv) ++ ": " ++
                          iterencode (S level) (snd kv))%string)
              (kv :: items))) < fuel ->
    object_pairs fuel r0 = Ok (kv :: items, rest).
Proof.
  induction items as [|kv' items IH]; intros [k v] fuel r0 HF Hr0 Hlen.
  - inversion HF as [|? ? [Hv Pv] _]; subst.
    cbn [map String.concat fst snd] in *.
    rewrite !append_assoc, scanstring_basestring in Hr0. injection Hr0 as <-.
    rewrite !length_append in Hlen.
    destruct fuel as [|f]; [lia|].
    eapply object_pairs_last.
    + apply scanstring_escape.
    + reflexivity.
    + rewrite skip_ws_space.
      rewrite (skip_ws_value _ _ _ Hv).
      apply Pv; [lia|reflexivity].
    + exact (skip_ws_newline_indent level ("}" ++ rest)).
  - inversion HF as [|? ? [Hv Pv] HF']; subst.
    cbn [map fst snd] in *. rewrite concat_two in *.
    rewrite !append_assoc, scanstring_basestring in Hr0. injection Hr0 as <-.
    rewrite !length_append in Hlen. cbn [String.length] in Hlen.
    destruct fuel as [|f]; [lia|].
    destruct (members_head (S level) ("," ++ newline_indent (S level))
                (newline_indent level ++ "}" ++ rest) kv' items) as (r4 & Hr4).
    destruct (quoted_head _ _ Hr4) as (Hws & _).
    erewrite (object_pairs_more f _ k _ _ v _ _ r4).
    + rewrite (IH kv' f r4 HF' Hr4); [reflexivity|]. cbn [map]. lia.
    + apply scanstring_escape.
    + reflexivity.
    + rewrite skip_ws_space.
      rewrite (skip_ws_value _ _ _ Hv).
      apply Pv; [lia|reflexivity].
    + reflexivity.
    + rewrite <- Hr4. f_equal.
      etransitivity; [|exact Hws].
      exact (skip_ws_newline_indent (S level) _).
Qed.

(** Every value is read back from what [dump] writes for it, at any
    level of indentation and before anything that does not go on with
    a number. *)
Lemma scan_once_iterencode (v : pyvalue) :
  json_value v = true ->
  forall (level fuel : nat) (rest : string),
    String.length (iterencode level v) <= fuel ->
    ends_number rest = true ->
    scan_once fuel (iterencode level v ++ rest) = Ok (v, rest).
Proof.
  induction v as [ |b|n|r|s|items IH|items IH] using pyvalue_induction;
    intros Hv level fuel rest Hlen Hrest;
    destruct (iterencode_head level _ Hv) as (c0 & t0 & E0 & Hc0);
    destruct (fuel_for_head _ _ _ _ E0 Hlen) as [f ->]; clear c0 t0 E0 Hc0.
  - reflexivity.
  - destruct b; reflexivity.
  - apply scan_once_number.
    apply (match_number_app _ _ _ _ (match_number_int_repr n) Hrest).
  - cbn in Hv. destruct (float_literal_spec r Hv) as (Hm & Hr).
    cbn [iterencode]. rewrite Hr. apply scan_once_number.
    apply (match_number_app _ _ _ _ Hm Hrest).
  - cbn [iterencode]. unfold encode_basestring. cbn [append].
    rewrite scan_once_string, append_assoc. cbn [append].
    rewrite scanstring_escape. reflexivity.
  - destruct items as [|x xs]; [reflexivity|].
    assert (HF : Forall (fun v =>
                json_value v = true /\
                forall fuel rest',
                  String.length (iterencode (S level) v) <= fuel ->
                  ends_number rest' = true ->
                  scan_once fuel (iterencode (S level) v ++ rest') = Ok (v, rest'))
              (x :: xs)).
    { apply Forall_forall. intros y Hy.
      cbn [json_value] in Hv. rewrite forallb_forall in Hv.
      rewrite Forall_forall in IH. split; [now apply Hv|].
      intros fuel' rest' Hl Hr. apply IH; auto. }
    assert (Hx : json_value x = true) by (inversion HF as [|? ? [? _] _]; assumption).
    rewrite iterencode_list in *.
    rewrite !length_append in Hlen. cbn [String.length] in Hlen.
    rewrite open_append, scan_once_array, !append_assoc, skip_ws_newline_indent.
    destruct (items_head (S level) ("," ++ newline_indent (S level))
                (newline_indent level ++ "]" ++ rest) x xs Hx)
      as (c & t & E & Hc).
    rewrite (skip_ws_head _ c t E Hc).
    destruct (strip_close_head _ c t E Hc) as (-> & _).
    rewrite (array_values_items level rest xs x f HF); [reflexivity|lia].
  - destruct items as [|kv items]; [reflexivity|].
    assert (HF : Forall (fun kv =>
                json_value (snd kv) = true /\
                forall fuel rest',
                  String.length (iterencode (S level) (snd kv)) <= fuel ->
                  ends_number rest' = true ->
                  scan_once fuel (iterencode (S level) (snd kv) ++ rest')
                  = Ok (snd kv, rest'))
              (kv :: items)).
    { apply Forall_forall. intros y Hy.
      cbn [json_value] in Hv. apply andb_true_iff in Hv. destruct Hv as [_ Hv].
      rewrite forallb_forall in Hv.
      rewrite Forall_forall in IH. split; [now apply Hv|].
      intros fuel' rest' Hl Hr. apply IH; auto. }
    assert (Hd : distinct (map fst (kv :: items)) = true).
    { cbn [json_value] in Hv. apply andb_true_iff in Hv. apply Hv. }
    rewrite iterencode_dict in *.
    rewrite !length_append in Hlen. cbn [String.length] in Hlen.
    rewrite open_append, scan_once_object, !append_assoc, skip_ws_newline_indent.
    destruct (members_head (S level) ("," ++ newline_indent (S level))
                (newline_indent level ++ "}" ++ rest) kv items) as (r0 & Hr0).
    destruct (quoted_head _ _ Hr0) as (Hws & Hclose).
    rewrite Hws, Hclose, Hr0.
    rewrite (object_pairs_items level rest items kv f r0 HF Hr0); [|lia].
    cbn [map_ok]. rewrite (dict_distinct _ Hd). reflexivity.
Qed.

(** [json.loads] reads back the value that [json.dump] wrote. *)
Lemma loads_dump (v : pyvalue) :
  json_value v = true -> loads (dump v) = Ok v.
Proof.
  intros Hv. unfold loads, dump.
  destruct (iterencode_head 0 v Hv) as (c & t & E & Hc).
  rewrite (skip_ws_head _ c t E Hc).
  pose proof (scan_once_iterencode v Hv 0 (2 * String.length (iterencode 0 v) + 2) ""
                ltac:(lia) eq_refl) as H.
  rewrite append_nil_r in H. rewrite H. reflexivity.
Qed.

(** With [ensure_ascii=False], a character is replaced exactly when
    [ESCAPE] matches it; no character beyond ASCII is. *)
Lemma escape_char_plain (c : ascii) :
  needs_escape c = false -> escape_char c = String c "".
Proof.
  destruct c as [[] [] [] [] [] [] [] []]; intros H;
    try reflexivity; discriminate H.
Qed.

Lemma escape_char_escaped (c : ascii) :
  needs_escape c = true -> escape_char c <> String c "".
Proof.
  destruct c as [[] [] [] [] [] [] [] []]; intros H;
    try discriminate H; discriminate.
Qed.

Lemma needs_escape_ascii (c : ascii) :
  needs_escape c = true -> nat_of_ascii c < 128.
Proof.
  destruct c as [[] [] [] [] [] [] [] []]; intros H;
    try discriminate H; vm_compute; lia.
Qed.

End PyJsonFacts.

(* ================================================================== *)
(** * Facts about traces and computations *)
(* ================================================================== *)

(** The proofs run the program step by step; the functions on strings
    and paths are kept folded while they do. *)
Arguments PosixPath.splitext : simpl never.
Arguments PosixPath.join : simpl never.
Arguments PyStr.endswith : simpl never.
Arguments PyStr.strip_is_empty : simpl never.
Arguments PyStr.lower : simpl never.
Arguments String.eqb : simpl never.
Arguments String.length : simpl never.
Arguments read_file : simpl never.
Arguments extract_text_from_pdf : simpl never.
Arguments extract_concepts_with_gemini : simpl never.
Arguments save_output : simpl never.

Lemma llm_calls_app (t1 t2 : list Event) :
  llm_calls (t1 ++ t2) = llm_calls t1 ++ llm_calls t2.
Proof.
  induction t1 as [|[] t1 IH]; simpl; try exact IH; [reflexivity | now rewrite IH].
Qed.

Lemma llm_entries_app (t1 t2 : list Event) :
  llm_entries (t1 ++ t2) = llm_entries t1 + llm_entries t2.
Proof.
  induction t1 as [|[] t1 IH]; simpl; try exact IH; [reflexivity | now rewrite IH].
Qed.

Lemma config_reads_app (t1 t2 : list Event) :
  config_reads (t1 ++ t2) = config_reads t1 ++ config_reads t2.
Proof.
  induction t1 as [|[] t1 IH]; simpl; try exact IH; [reflexivity | now rewrite IH].
Qed.

Lemma pdf_reads_app (t1 t2 : list Event) :
  pdf_reads (t1 ++ t2) = pdf_reads t1 ++ pdf_reads t2.
Proof.
  induction t1 as [|[] t1 IH]; simpl; try exact IH; [reflexivity | now rewrite IH].
Qed.

Lemma output_writes_app (t1 t2 : list Event) :
  output_writes (t1 ++ t2) = output_writes t1 ++ output_writes t2.
Proof. apply filter_app. Qed.

Lemma fs_after_app (w : World) (fs : FS) (t1 t2 : list Event) :
  fs_after w fs (t1 ++ t2) = fs_after w (fs_after w fs t1) t2.
Proof. apply fold_left_app. Qed.

Lemma fs_write_same (fs : FS) (path txt : string) :
  fs_write fs path txt path = Some txt.
Proof. unfold fs_write. now rewrite String.eqb_refl. Qed.

(** An event that is no write leaves the files as they are. *)
Lemma fs_event_other (w : World) (fs : FS) (ev : Event) :
  is_output_write ev = false -> fs_event w fs ev = fs.
Proof. destruct ev; simpl; intros H; try reflexivity; discriminate. Qed.

Lemma fs_after_no_writes (w : World) (t : list Event) : forall fs,
  output_writes t = [] -> fs_after w fs t = fs.
Proof.
  induction t as [|ev t IH]; intros fs H; [reflexivity|].
  unfold output_writes in H. simpl in H.
  destruct (is_output_write ev) eqn:Hev; [discriminate|].
  simpl. rewrite fs_event_other by exact Hev. apply IH. exact H.
Qed.

Section Steps.

Variable w : World.

(** ** [read_file] *)

Lemma read_file_ok (path s : string) :
  open_read w path = inr s ->
  read_file w path = ([EvOpenRead path], inr (Some s)).
Proof. intros H. unfold read_file, call. rewrite H. reflexivity. Qed.

Lemma read_file_not_found (path : string) (e : Exn) :
  open_read w path = inl e -> exn_class e = FileNotFoundError ->
  read_file w path =
    ([EvOpenRead path; EvPrint (LogFileNotFound path)], inr None).
Proof.
  intros H Hc. unfold read_file, call. rewrite H. cbn. rewrite Hc. reflexivity.
Qed.

Lemma read_file_other_error (path : string) (e : Exn) :
  open_read w path = inl e -> exn_class e <> FileNotFoundError ->
  read_file w path =
    ([EvOpenRead path; EvPrint (LogErrorReading path e)], inr None).
Proof.
  intros H Hc. unfold read_file, call. rewrite H. cbn.
  destruct (exn_class e); try reflexivity. now elim Hc.
Qed.

(** Whatever happens, [read_file] opens the file once, returns, and
    returns [None] exactly when the file could not be read. *)
Lemma read_file_cases (path : string) :
  exists t, 
    config_reads t = [path] /\ llm_calls t = [] /\ llm_entries t = 0 /\
    pdf_reads t = [] /\ output_writes t = [] /\
    ((exists s, open_read w path = inr s /\
                read_file w path = (t, inr (Some s))) \/
     (exists e, open_read w path = inl e /\
                read_file w path = (t, inr None))).
Proof.
  destruct (open_read w path) as [e|s] eqn:H.
  - exists [EvOpenRead path;
            EvPrint (match exn_class e with
                     | FileNotFoundError => LogFileNotFound path
                     | _ => LogErrorReading path e
                     end)].
    repeat (split; [reflexivity|]). right. exists e. split; [reflexivity|].
    unfold read_file, call. rewrite H. cbn. destruct (exn_class e); reflexivity.
  - exists [EvOpenRead path].
    repeat (split; [reflexivity|]). left. exists s. split; [reflexivity|].
    now apply read_file_ok.
Qed.

(** ** [extract_text_from_pdf] *)

Lemma extract_pages_trace (pages : list (Exn + string)) : forall acc,
  trace_of (extract_pages pages acc) = [].
Proof.
  induction pages as [|[e|s] pages IH]; intros acc; cbn; try reflexivity.
  specialize (IH (acc ++ s)%string). unfold trace_of in IH.
  destruct (extract_pages pages (acc ++ s)); simpl in *. exact IH.
Qed.

Lemma extract_pages_texts (texts : list string) : forall acc,
  extract_pages (map inr texts) acc =
    ([], inr (acc ++ String.concat "" texts)%string).
Proof.
  induction texts as [|s texts IH]; intros acc; cbn.
  - now rewrite append_nil_r.
  - rewrite IH. cbn. f_equal. f_equal. rewrite append_assoc.
    destruct texts; [cbn; now rewrite append_nil_r | reflexivity].
Qed.

Lemma extract_pages_raises (pages : list (Exn + string)) : forall acc,
  (forall texts, pages <> map inr texts) ->
  exists e, extract_pages pages acc = ([], inl e).
Proof.
  induction pages as [|[e|s] pages IH]; intros acc Hno.
  - now elim (Hno []).
  - exists e. reflexivity.
  - destruct (IH (acc ++ s)%string) as [e He].
    + intros texts ->. now elim (Hno (s :: texts)).
    + exists e. cbn. rewrite He. reflexivity.
Qed.

Lemma extract_text_well_formed (data : list byte) (texts : list string) :
  well_formed_pdf w data texts ->
  extract_text_from_pdf w data =
    (EvPdfReader data ::
       (if String.eqb (String.concat "" texts) ""
        then [EvPrint LogNoTextExtracted] else []),
     inr (Some (String.concat "" texts))).
Proof.
  intros H. unfold extract_text_from_pdf, call. rewrite H. cbn.
  rewrite extract_pages_texts. cbn.
  destruct (String.eqb (String.concat "" texts) ""); reflexivity.
Qed.

Lemma extract_text_not_well_formed (data : list byte) :
  (forall texts, ~ well_formed_pdf w data texts) ->
  exists m, extract_text_from_pdf w data =
              ([EvPdfReader data; EvPrint m], inr None).
Proof.
  intros Hno. unfold extract_text_from_pdf, call.
  destruct (PdfReader w data) as [e|pages] eqn:H; cbn.
  - destruct (exn_class e); eexists; reflexivity.
  - destruct (extract_pages_raises pages "") as [e He].
    + intros texts ->. now elim (Hno texts).
    + rewrite He. cbn. destruct (exn_class e); eexists; reflexivity.
Qed.

(** The extractor returns [None] exactly on the streams that are
    not well-formed PDFs. *)
Lemma pdf_well_formed_dec (data : list byte) :
  (exists texts, well_formed_pdf w data texts) \/
  (forall texts, ~ well_formed_pdf w data texts).
Proof.
  unfold well_formed_pdf. destruct (PdfReader w data) as [e|pages].
  - right. intros texts H. discriminate.
  - assert (Hp : (exists texts, pages = map inr texts) \/
                 (forall texts, pages <> map inr texts)).
    { induction pages as [|[e|s] pages [[texts ->]|IH]].
      - left. now exists [].
      - right. intros [|? ?]; discriminate.
      - right. intros [|? ?]; discriminate.
      - left. now exists (s :: texts).
      - right. intros [|? texts]; [discriminate|].
        cbn. intros H. injection H as _ H. now elim (IH texts). }
    destruct Hp as [[texts ->]|Hp]; [left; now exists texts|].
    right. intros texts H. injection H as H. now elim (Hp texts).
Qed.

End Steps.

Section Gemini.

Variable w : World.
Variables document ontology template : string.

(** [extract_concepts_with_gemini] always returns; it sets the client
    up once and calls the model at most once, with the composed
    prompt; it touches neither the configuration nor the disk. *)
Lemma gemini_returns :
  exists t v,
    extract_concepts_with_gemini w document ontology template = (t, inr v) /\
    config_reads t = [] /\ pdf_reads t = [] /\ output_writes t = [] /\
    llm_entries t = 1 /\
    (llm_calls t = [] \/ llm_calls t = [full_prompt template ontology document]) /\
    (GenerativeModel w = None -> llm_calls t = [full_prompt template ontology document]).
Proof.
  unfold extract_concepts_with_gemini, parse_json_response, call, outcome.
  destruct (GenerativeModel w) as [e0|]; cbn.
  { do 2 eexists. split; [reflexivity|]. cbn.
    repeat split; auto; discriminate. }
  destruct (generate_content w (full_prompt template ontology document)) as [e|r]; cbn.
  { do 2 eexists. split; [reflexivity|]. cbn. repeat split; auto. }
  destruct (candidates r) as [|c cs]; cbn.
  { destruct (prompt_feedback r) as [fb|]; cbn;
      [destruct (block_reason fb =? 0); cbn|];
      (do 2 eexists; split; [reflexivity|]; cbn; repeat split; auto). }
  destruct (parts c) as [|part ps]; cbn.
  { do 2 eexists. split; [reflexivity|]. cbn. repeat split; auto. }
  destruct (text r) as [e|s]; cbn.
  { do 2 eexists. split; [reflexivity|]. cbn. repeat split; auto. }
  destruct (json_loads w s) as [e|v]; cbn.
  { destruct (exn_class e); cbn;
      (do 2 eexists; split; [reflexivity|]; cbn; repeat split; auto). }
  do 2 eexists. split; [reflexivity|]. cbn. repeat split; auto.
Qed.

(** Every failure of the LLM step makes the function return [None]. *)
Lemma gemini_fails :
  llm_step_fails w (full_prompt template ontology document) ->
  result_of (extract_concepts_with_gemini w document ontology template)
  = inr PNone.
Proof.
  unfold extract_concepts_with_gemini, parse_json_response, call, outcome.
  intros [e H|e H|r H Hc|r c cs H Hc Hp|r e H Ht|r s e H Ht Hj].
  - rewrite H. reflexivity.
  - destruct (GenerativeModel w); [reflexivity|]. cbn. rewrite H. reflexivity.
  - destruct (GenerativeModel w); [reflexivity|]. cbn. rewrite H. cbn.
    rewrite Hc. cbn.
    destruct (prompt_feedback r) as [fb|]; cbn;
      [destruct (block_reason fb =? 0)|]; reflexivity.
  - destruct (GenerativeModel w); [reflexivity|]. cbn. rewrite H. cbn.
    rewrite Hc. cbn. rewrite Hp. reflexivity.
  - destruct (GenerativeModel w); [reflexivity|]. cbn. rewrite H. cbn.
    destruct (candidates r) as [|c cs]; cbn.
    { destruct (prompt_feedback r) as [fb|]; cbn;
        [destruct (block_reason fb =? 0)|]; reflexivity. }
    destruct (parts c); [reflexivity|]. cbn. rewrite Ht. reflexivity.
  - destruct (GenerativeModel w); [reflexivity|]. cbn. rewrite H. cbn.
    destruct (candidates r) as [|c cs]; cbn.
    { destruct (prompt_feedback r) as [fb|]; cbn;
        [destruct (block_reason fb =? 0)|]; reflexivity. }
    destruct (parts c); [reflexivity|]. cbn. rewrite Ht. cbn. rewrite Hj.
    cbn. destruct (exn_class e); reflexivity.
Qed.

(** When the model answers with a candidate whose text parses, the
    function returns the parsed value. *)
Lemma gemini_parses (r : GenerateContentResponse) (c : Candidate)
      (cs : list Candidate) (s : string) (v : pyvalue) :
  GenerativeModel w = None ->
  generate_content w (full_prompt template ontology document) = inr r ->
  candidates r = c :: cs -> parts c <> [] ->
  text r = inr s -> json_loads w s = inr v ->
  extract_concepts_with_gemini w document ontology template =
    ([EvPrint LogAttempting; EvGenerativeModel MODEL_NAME;
      EvPrint (LogSending MODEL_NAME); EvGenerateContent (full_prompt template ontology document);
      EvPrint LogResponseReceived; EvPrint LogParsedJson], inr v).
Proof.
  intros Hm Hg Hc Hp Ht Hj.
  unfold extract_concepts_with_gemini, parse_json_response, call, outcome.
  rewrite Hm. cbn. rewrite Hg. cbn. rewrite Hc. cbn.
  destruct (parts c); [now elim Hp|]. cbn. rewrite Ht. cbn. rewrite Hj.
  reflexivity.
Qed.

End Gemini.

Section SaveOutput.

Variable w : World.
Variables (name : string) (data : pyvalue) (dir : string).

(** When the directory cannot be made, the handler of the [try]
    reads the unbound local [filepath]: the function raises. *)
Lemma save_output_raises (e : Exn) :
  makedirs w dir = Some e ->
  save_output w name data dir =
    ([EvMakedirs dir], inl (mkExn UnboundLocalError "filepath")).
Proof.
  intros H. unfold save_output, call, outcome. rewrite H. reflexivity.
Qed.

(** When the directory is there, the function returns, whatever
    happens to the file. *)
Lemma save_output_returns :
  makedirs w dir = None ->
  exists t, save_output w name data dir = (t, inr tt) /\
            llm_calls t = [] /\ config_reads t = [] /\ pdf_reads t = [].
Proof.
  intros H. unfold save_output, call, outcome. rewrite H. cbn.
  destruct (open_write w (PosixPath.join dir name)); cbn.
  { eexists. split; [reflexivity|]. cbn. auto. }
  destruct (snd (json_dump w data)); cbn;
    (eexists; split; [reflexivity|]; cbn; auto).
Qed.

(** When nothing fails, the value is dumped into the file. *)
Lemma save_output_saves :
  makedirs w dir = None ->
  open_write w (PosixPath.join dir name) = None ->
  snd (json_dump w data) = None ->
  save_output w name data dir =
    ([EvMakedirs dir; EvOpenWrite (PosixPath.join dir name);
      EvJsonDump (PosixPath.join dir name) data;
      EvPrint (LogOutputSaved (PosixPath.join dir name))], inr tt).
Proof.
  intros H1 H2 H3. unfold save_output, call, outcome.
  rewrite H1. cbn. rewrite H2. cbn. rewrite H3. reflexivity.
Qed.

End SaveOutput.

Section Handler.

Variable w : World.
Variable request : Request.

(** ** The three rejections of the validator *)

Lemma handle_no_file :
  files_get "file" (files request) = None ->
  handle_extraction w request =
    ([EvPrint LogReceivedRequest; EvPrint LogNoFilePart],
     inr (mkHttp (error_body "No file part in the request") 400)).
Proof. intros H. unfold handle_extraction. rewrite H. reflexivity. Qed.

Lemma handle_empty_filename (file : FileStorage) :
  files_get "file" (files request) = Some file ->
  filename file = "" ->
  handle_extraction w request =
    ([EvPrint LogReceivedRequest; EvPrint LogNoSelectedFile],
     inr (mkHttp (error_body "No selected file") 400)).
Proof.
  intros H Hn. unfold handle_extraction. rewrite H, Hn. reflexivity.
Qed.

Lemma handle_wrong_type (file : FileStorage) :
  files_get "file" (files request) = Some file ->
  filename file <> "" ->
  PyStr.endswith (PyStr.lower (filename file)) ".pdf" = false ->
  handle_extraction w request =
    ([EvPrint LogReceivedRequest; EvPrint (LogInvalidFileType (filename file))],
     inr (mkHttp (error_body "Invalid file type. Please upload a PDF.") 400)).
Proof.
  intros H Hn He. unfold handle_extraction. rewrite H.
  apply String.eqb_neq in Hn. rewrite Hn, He. reflexivity.
Qed.

(** ** After the validator *)

Variable file : FileStorage.
Hypothesis Haccepted : accepted_upload request file.

(** The events up to the end of the configuration loader. *)
Lemma handle_config_failure :
  (forall ontology template, ~ config_loaded w ontology template) ->
  exists t,
    handle_extraction w request =
      (t, inr (mkHttp (error_body "Server configuration error reading ontology or prompt.") 500)) /\
    config_reads t = [ONTOLOGY_FILE; PROMPT_FILE] /\
    pdf_reads t = [] /\ llm_calls t = [] /\ output_writes t = [].
Proof.
  intros Hno. destruct Haccepted as (Hf & Hn & He).
  unfold handle_extraction. rewrite Hf.
  apply String.eqb_neq in Hn. rewrite Hn, He. cbn [negb].
  destruct (read_file_cases w ONTOLOGY_FILE)
    as (t1 & R1 & L1 & _ & P1 & W1 & [(o & Ho & E1)|(e1 & Ho & E1)]);
  destruct (read_file_cases w PROMPT_FILE)
    as (t2 & R2 & L2 & _ & P2 & W2 & [(p & Hp & E2)|(e2 & Hp & E2)]);
  try (now elim (Hno o p));
  rewrite E1, E2; cbn;
  (eexists; split; [reflexivity|]);
  cbn; rewrite ?config_reads_app, ?pdf_reads_app, ?llm_calls_app,
         ?output_writes_app; cbn;
  rewrite ?config_reads_app, ?pdf_reads_app, ?llm_calls_app,
         ?output_writes_app; cbn;
  rewrite ?R1, ?R2, ?L1, ?L2, ?P1, ?P2, ?W1, ?W2; cbn; auto.
Qed.

End Handler.

Section Pipeline.

Variable w : World.
Variable request : Request.
Variable file : FileStorage.
Variables ontology template : string.
Hypothesis Haccepted : accepted_upload request file.
Hypothesis Hconfig : config_loaded w ontology template.

Lemma handle_pdf_failure :
  (forall texts, ~ well_formed_pdf w (content file) texts) ->
  exists m,
    handle_extraction w request =
      (before_extraction file ++
       [EvPdfReader (content file); EvPrint m; EvPrint LogExtractFailed],
       inr (mkHttp (error_body "Failed to extract text from the PDF file. It might be invalid, corrupted, or image-based.") 400)).
Proof.
  intros Hno. destruct Haccepted as (Hf & Hn & He).
  destruct Hconfig as (Ho & Hp).
  destruct (extract_text_not_well_formed w _ Hno) as [m Hm].
  exists m. unfold handle_extraction. rewrite Hf.
  apply String.eqb_neq in Hn. rewrite Hn, He. cbn [negb].
  rewrite (read_file_ok w _ _ Ho), (read_file_ok w _ _ Hp), Hm. reflexivity.
Qed.

(** The whole run of a request that reaches the LLM step. *)
Lemma handle_llm_step (texts : list string) (tg : list Event) (v : pyvalue) :
  well_formed_pdf w (content file) texts ->
  extract_concepts_with_gemini w (String.concat "" texts) ontology template
  = (tg, inr v) ->
  handle_extraction w request =
    (before_extraction file ++ extraction_events file (String.concat "" texts) ++ tg ++
     (if is_not_None v
      then EvPrint LogSuccess ::
           trace_of (save_output w (output_name (filename file)) v OUTPUT_DIR)
      else [EvPrint LogFailed]),
     if is_not_None v
     then match result_of (save_output w (output_name (filename file)) v OUTPUT_DIR) with
          | inl e => inl e
          | inr _ => inr (mkHttp v 200)
          end
     else inr (mkHttp (error_body "Failed to extract information using the AI model.") 500)).
Proof.
  intros Hwf Hg. destruct Haccepted as (Hf & Hn & He).
  destruct Hconfig as (Ho & Hp).
  unfold handle_extraction. rewrite Hf.
  apply String.eqb_neq in Hn. rewrite Hn, He. cbn [negb].
  rewrite (read_file_ok w _ _ Ho), (read_file_ok w _ _ Hp).
  rewrite (extract_text_well_formed w _ _ Hwf).
  unfold extraction_events, before_extraction, output_name.
  set (doc := String.concat "" texts) in *.
  cbn. rewrite Hg.
  destruct (String.eqb doc ""), (PyStr.strip_is_empty doc); cbn;
    destruct (is_not_None v); cbn; try reflexivity;
    unfold trace_of, result_of;
    destruct (save_output w _ v OUTPUT_DIR) as [ts [e|[]]]; cbn;
    rewrite ?app_nil_r, <- ?app_assoc; reflexivity.
Qed.

End Pipeline.

(** Joining with the empty separator is plain concatenation. *)
Lemma concat_no_separator (texts : list string) :
  String.concat "" texts = pages_text texts.
Proof.
  induction texts as [|s texts IH]; [reflexivity|].
  cbn [pages_text fold_right]. fold (pages_text texts). rewrite <- IH.
  destruct texts; [cbn; now rewrite append_nil_r | reflexivity].
Qed.

Lemma pages_text_blank (texts : list string) :
  Forall (fun s => s = "") texts -> pages_text texts = "".
Proof.
  induction 1 as [|s texts Hs _ IH]; [reflexivity|].
  cbn [pages_text fold_right]. fold (pages_text texts). now rewrite Hs, IH.
Qed.

(** The prompt of the program is the composed prompt of the
    specification. *)
Lemma full_prompt_composed (template ontology document : string) :
  full_prompt template ontology document
  = composed_prompt template ontology document.
Proof.
  unfold full_prompt, composed_prompt, f_string, labeled_xml_block,
    labeled_text_block, json_output_marker.
  cbn [String.concat]. rewrite !append_assoc. reflexivity.
Qed.

(** The output writer makes no call but its own. *)
Lemma save_output_quiet (w : World) (name : string) (data : pyvalue) (dir : string) :
  llm_calls (trace_of (save_output w name data dir)) = [] /\
  config_reads (trace_of (save_output w name data dir)) = [] /\
  pdf_reads (trace_of (save_output w name data dir)) = [].
Proof.
  destruct (makedirs w dir) as [e|] eqn:H.
  - rewrite (save_output_raises w name data dir e H). cbn. auto.
  - destruct (save_output_returns w name data dir H) as (t & -> & ? & ? & ?).
    cbn. auto.
Qed.

Lemma config_loaded_dec (w : World) :
  (exists ontology template, config_loaded w ontology template) \/
  (forall ontology template, ~ config_loaded w ontology template).
Proof.
  unfold config_loaded.
  destruct (open_read w ONTOLOGY_FILE) as [e|o].
  - right. intros ? ? [H _]. discriminate.
  - destruct (open_read w PROMPT_FILE) as [e|t].
    + right. intros ? ? [_ H]. discriminate.
    + left. now exists o, t.
Qed.

Lemma upload_dec (request : Request) :
  (exists file, accepted_upload request file) \/ turned_down request.
Proof.
  unfold accepted_upload, turned_down.
  destruct (files_get "file" (files request)) as [file|]; [|now right; left].
  destruct (String.eqb_spec (filename file) "") as [Hn|Hn].
  { right. right. exists file. auto. }
  destruct (PyStr.endswith (PyStr.lower (filename file)) ".pdf") eqn:He.
  - left. exists file. auto.
  - right. right. exists file. auto.
Qed.

Lemma accepted_not_turned_down (request : Request) (file : FileStorage) :
  accepted_upload request file -> ~ turned_down request.
Proof.
  intros (Hf & Hn & He) [H|(f & H & [Hn'|He'])]; rewrite Hf in H.
  - discriminate.
  - injection H as <-. contradiction.
  - injection H as <-. rewrite He in He'. discriminate.
Qed.

(** The tests of the program are the three reasons of the
    specification. *)
Lemma turned_down_invalid (request : Request) :
  turned_down request <-> invalid_upload request.
Proof.
  unfold turned_down, invalid_upload.
  destruct (files_get "file" (files request)) as [file|].
  - split.
    + intros [H|(f & H & [Hn|He])]; [discriminate| |]; injection H as <-.
      * now left.
      * right. intros Hx. apply PyStrFacts.endswith_pdf_extension in Hx.
        rewrite Hx in He. discriminate.
    + intros [Hn|He]; right; exists file; split; auto.
      right. destruct (PyStr.endswith (PyStr.lower (filename file)) ".pdf") eqn:Hx;
        [|reflexivity].
      apply PyStrFacts.endswith_pdf_extension in Hx. contradiction.
  - split; auto.
Qed.

(** A request that is turned down is answered at once. *)
Lemma handle_turned_down (w : World) (request : Request) :
  turned_down request ->
  exists m msg,
    handle_extraction w request =
      ([EvPrint LogReceivedRequest; EvPrint m], inr (mkHttp (error_body msg) 400)).
Proof.
  intros [H|(file & H & Hbad)].
  - do 2 eexists. now apply handle_no_file.
  - destruct (String.eqb_spec (filename file) "") as [Hn|Hn].
    + do 2 eexists. now apply (handle_empty_filename w request file).
    + destruct Hbad as [Hn'|He]; [contradiction|].
      do 2 eexists. now apply (handle_wrong_type w request file).
Qed.

(* ================================================================== *)
(** * The program on concrete inputs *)
(* ================================================================== *)

Example lower_mixed_case : PyStr.lower "Report.Pdf" = "report.pdf".
Proof. reflexivity. Qed.

Example rfind_last_dot :
  PyStr.rfind "."%char "a.b.c" = 3%Z /\ PyStr.rfind "/"%char "a.b.c" = (-1)%Z.
Proof. split; reflexivity. Qed.

Example extension_is_last_suffix : extension "a.tar.GZ" = ".GZ".
Proof. reflexivity. Qed.

Example splitext_plain : PosixPath.splitext "Case.PDF" = ("Case", ".PDF").
Proof. reflexivity. Qed.

Example splitext_last_dot_only : PosixPath.splitext "/tmp/x.y.pdf" = ("/tmp/x.y", ".pdf").
Proof. reflexivity. Qed.

Example splitext_leading_dot : PosixPath.splitext ".pdf" = (".pdf", "").
Proof. reflexivity. Qed.

Example splitext_dot_in_directory : PosixPath.splitext "a.b/c" = ("a.b/c", "").
Proof. reflexivity. Qed.

Example join_relative : output_path "Case.PDF" = "output/Case_extraction.json".
Proof. reflexivity. Qed.

Example join_absolute : output_path "/tmp/x.pdf" = "/tmp/x_extraction.json".
Proof. reflexivity. Qed.

(** The case of the extension does not matter. *)
Example upper_case_extension_accepted :
  ~ invalid_upload (upload "SCAN.PDF" pdf_magic) /\
  ~ invalid_upload (upload "scan.Pdf" pdf_magic) /\
  invalid_upload (upload "scan.pdf.txt" pdf_magic) /\
  invalid_upload (upload "" pdf_magic) /\
  invalid_upload (mkRequest []).
Proof.
  unfold invalid_upload; cbn.
  repeat split; try (intros [H|H]; [discriminate H | now apply H]).
  - right. discriminate.
  - now left.
Qed.

(** The run of a request that is served. *)
Example served_request :
  handle_extraction (world_answering "{}") good_upload =
    ([EvPrint LogReceivedRequest;
      EvPrint (LogReadingOntology ONTOLOGY_FILE); EvOpenRead ONTOLOGY_FILE;
      EvPrint (LogReadingPrompt PROMPT_FILE); EvOpenRead PROMPT_FILE;
      EvPrint (LogExtractingFrom "Case.PDF"); EvPdfReader pdf_magic;
      EvPrint (LogExtractedChars 11);
      EvPrint LogAttempting; EvGenerativeModel MODEL_NAME;
      EvPrint (LogSending MODEL_NAME);
      EvGenerateContent (composed_prompt "Extract." "<rdf/>" "Dowry case.");
      EvPrint LogResponseReceived; EvPrint LogParsedJson;
      EvPrint LogSuccess;
      EvMakedirs "output"; EvOpenWrite "output/Case_extraction.json";
      EvJsonDump "output/Case_extraction.json" (PDict []);
      EvPrint (LogOutputSaved "output/Case_extraction.json")],
     inr (mkHttp (PDict []) 200)).
Proof. reflexivity. Qed.

(** Values that Python takes for false, other than [None], are
    returned with 200. *)
Example falsy_answers_are_returned :
  result_of (handle_extraction (world_answering "false") good_upload)
  = inr (mkHttp (PBool false) 200) /\
  result_of (handle_extraction (world_answering "0") good_upload)
  = inr (mkHttp (PInt 0) 200) /\
  result_of (handle_extraction (world_answering (dq ++ dq)) good_upload)
  = inr (mkHttp (PStr "") 200) /\
  result_of (handle_extraction (world_answering "{}") good_upload)
  = inr (mkHttp (PDict []) 200) /\
  result_of (handle_extraction (world_answering "[]") good_upload)
  = inr (mkHttp (PList []) 200).
Proof. repeat split. Qed.

(** A failure of [json.dump] is printed and kept inside [save_output];
    it leaves a file that does not parse. *)
Example write_failure_is_swallowed :
  save_output (world_disk_full "{}") "Case_extraction.json" (PDict []) OUTPUT_DIR =
    ([EvMakedirs "output"; EvOpenWrite "output/Case_extraction.json";
      EvJsonDump "output/Case_extraction.json" (PDict []);
      EvPrint (LogErrorSaving "output/Case_extraction.json"
                              (mkExn OtherException "OSError"))],
     inr tt) /\
  result_of (handle_extraction (world_disk_full "{}") good_upload)
  = inr (mkHttp (PDict []) 200) /\
  fs_after (world_disk_full "{}") fs_empty
           (trace_of (handle_extraction (world_disk_full "{}") good_upload))
           "output/Case_extraction.json"
  = Some "{".
Proof. repeat split. Qed.

(** What [json.dump] writes for [sample_value], line by line: four
    spaces for each level, one item on each line, the character beyond
    ASCII as it is. *)
Example dump_sample_value :
  PyJson.dump sample_value =
    ("{" ++ nl ++
     "    " ++ dq ++ "victim" ++ dq ++ ": " ++ dq ++ "Ren" ++ e_acute ++ "e" ++ dq ++ "," ++ nl ++
     "    " ++ dq ++ "amount" ++ dq ++ ": 50000," ++ nl ++
     "    " ++ dq ++ "share" ++ dq ++ ": 0.5," ++ nl ++
     "    " ++ dq ++ "held" ++ dq ++ ": [" ++ nl ++
     "        null," ++ nl ++
     "        true" ++ nl ++
     "    ]" ++ nl ++
     "}")%string.
Proof. reflexivity. Qed.

(** What [json.loads] makes of some texts: the answer of the model
    above; an escape for a character below 256; a key met twice; a
    comma before the closing bracket, a number that starts with [0]
    and a control character inside a string, which are refused. *)
Example loads_sample_answer : PyJson.loads sample_answer = PyJson.Ok sample_value.
Proof. reflexivity. Qed.

Example loads_unicode_escape :
  PyJson.loads (dq ++ "Ren" ++ String PyJson.backslash "u00e9e" ++ dq)
  = PyJson.Ok (PStr ("Ren" ++ e_acute ++ "e")).
Proof. reflexivity. Qed.

Example loads_repeated_key :
  PyJson.loads ("{" ++ dq ++ "a" ++ dq ++ ": 1, " ++ dq ++ "b" ++ dq ++ ": 2, " ++
                dq ++ "a" ++ dq ++ ": 3}")
  = PyJson.Ok (PDict [("a", PInt 3); ("b", PInt 2)]).
Proof. reflexivity. Qed.

Example loads_refuses :
  PyJson.loads "[1,]" = PyJson.Malformed /\
  PyJson.loads "01" = PyJson.Malformed /\
  PyJson.loads (dq ++ nl ++ dq) = PyJson.Malformed /\
  PyJson.loads "" = PyJson.Malformed.
Proof. repeat split. Qed.

(* ================================================================== *)
(** * The claims *)
(* ================================================================== *)

(** C1.  Every prompt sent to the model is the composed prompt: the
    prompt template, then the ontology in its labeled XML block, then
    the text of the document in its labeled text block, then the marker
    asking for JSON; the three texts are those read from the prompt
    file, from the ontology file and from the pages of the upload, and a
    request sends no other prompt. *)
Theorem C1_prompt_composition (w : World) (request : Request) (p : string) :
  In p (llm_calls (trace_of (handle_extraction w request))) ->
  exists file ontology template texts,
    accepted_upload request file /\
    config_loaded w ontology template /\
    well_formed_pdf w (content file) texts /\
    p = (template ++ nl ++ nl ++
         labeled_xml_block ontology ++ nl ++ nl ++
         labeled_text_block (pages_text texts) ++ nl ++ nl ++
         json_output_marker)%string /\
    llm_calls (trace_of (handle_extraction w request)) = [p].
Proof.
  intros Hin.
  destruct (upload_dec request) as [[file Hacc]|Hbad].
  2:{ destruct (handle_turned_down w request Hbad) as (m & msg & E).
      rewrite E in Hin. destruct Hin. }
  destruct (config_loaded_dec w) as [(ontology & template & Hcfg)|Hcfg].
  2:{ destruct (handle_config_failure w request file Hacc Hcfg)
        as (t & E & _ & _ & L & _).
      rewrite E in Hin. cbn in Hin. rewrite L in Hin. destruct Hin. }
  destruct (pdf_well_formed_dec w (content file)) as [[texts Hwf]|Hwf].
  2:{ destruct (handle_pdf_failure w request file ontology template Hacc Hcfg Hwf)
        as (m & E).
      rewrite E in Hin. destruct Hin. }
  destruct (gemini_returns w (String.concat "" texts) ontology template)
    as (tg & v & Eg & _ & _ & _ & _ & Hcalls & _).
  rewrite (handle_llm_step w request file ontology template Hacc Hcfg texts tg v Hwf Eg)
    in Hin |- *.
  assert (Hrest : llm_calls
            (if is_not_None v
             then EvPrint LogSuccess ::
                  trace_of (save_output w (output_name (filename file)) v OUTPUT_DIR)
             else [EvPrint LogFailed]) = []).
  { destruct (is_not_None v); [|reflexivity]. cbn. apply save_output_quiet. }
  assert (Hpre : llm_calls (extraction_events file (String.concat "" texts)) = []).
  { unfold extraction_events. cbn.
    destruct (String.eqb _ ""), (PyStr.strip_is_empty _); reflexivity. }
  unfold trace_of in *; cbn [fst] in Hin |- *.
  rewrite !llm_calls_app, Hpre, Hrest, app_nil_r in Hin |- *.
  cbn [app before_extraction llm_calls] in Hin |- *.
  destruct Hcalls as [Hc|Hc]; rewrite Hc in Hin |- *; [destruct Hin|].
  destruct Hin as [<-|[]].
  exists file, ontology, template, texts.
  repeat split; try assumption; try apply Hacc; try apply Hcfg.
  rewrite <- concat_no_separator. apply full_prompt_composed.
Qed.

(** C1 on a request that is served: the prompt sent for [good_upload]. *)
Lemma C1_prompt_composition_witness :
  exists file ontology template texts,
    accepted_upload good_upload file /\
    config_loaded (world_answering "{}") ontology template /\
    well_formed_pdf (world_answering "{}") (content file) texts /\
    composed_prompt "Extract." "<rdf/>" "Dowry case." =
      (template ++ nl ++ nl ++
       labeled_xml_block ontology ++ nl ++ nl ++
       labeled_text_block (pages_text texts) ++ nl ++ nl ++
       json_output_marker)%string /\
    llm_calls (trace_of (handle_extraction (world_answering "{}") good_upload))
    = [composed_prompt "Extract." "<rdf/>" "Dowry case."].
Proof.
  apply (C1_prompt_composition (world_answering "{}") good_upload
           (composed_prompt "Extract." "<rdf/>" "Dowry case.")).
  vm_compute. left. reflexivity.
Defined.

(** An event of a trace without writes is no write. *)
Lemma not_in_output_writes (t : list Event) (ev : Event) :
  output_writes t = [] -> is_output_write ev = true -> ~ In ev t.
Proof.
  intros Hw Hev Hin.
  assert (H : In ev (output_writes t)) by (apply filter_In; auto).
  rewrite Hw in H. destruct H.
Qed.

(** The output writer dumps nothing but [data], and nowhere but in
    [dir/name]. *)
Lemma save_output_dumps (w : World) (name : string) (data : pyvalue)
      (dir path : string) (v : pyvalue) :
  In (EvJsonDump path v) (trace_of (save_output w name data dir)) ->
  path = PosixPath.join dir name /\ v = data.
Proof.
  unfold save_output, call, outcome.
  destruct (makedirs w dir); cbn.
  { intros [H|[]]. discriminate. }
  destruct (open_write w (PosixPath.join dir name)); cbn.
  { intros [H|[H|[H|[]]]]; discriminate. }
  destruct (snd (json_dump w data)); cbn;
    intros [H|[H|[H|[H|[]]]]]; try discriminate;
    injection H as <- <-; auto.
Qed.

(** Once the directory is there, the output writer opens the file
    [dir/name] for writing. *)
Lemma save_output_opens (w : World) (name : string) (data : pyvalue) (dir : string) :
  makedirs w dir = None ->
  In (EvOpenWrite (PosixPath.join dir name)) (trace_of (save_output w name data dir)).
Proof.
  intros H. unfold save_output, call, outcome. rewrite H. cbn.
  destruct (open_write w (PosixPath.join dir name)); cbn; [tauto|].
  destruct (snd (json_dump w data)); cbn; tauto.
Qed.

(** C2.  The handler answers 400 with an error payload before it opens
    any configuration file exactly when the upload is invalid: the file
    part is missing, or its name is empty, or the extension of the name,
    compared without regard to case, is not [.pdf].  A request turned
    down reads no configuration file and calls no model.  For any other
    request the handler goes on to read the two configuration files, and
    what it hands on is the upload itself.  Nothing but the bytes of the
    file part is given to the PDF reader, and nothing is dumped but in
    the file named after the upload.  Once the configuration is read,
    the file name is printed as it came and the PDF reader is called,
    once, on the bytes of the file part as they came; and a request
    answered 200 has opened for writing the file named after the
    upload. *)
Theorem C2_request_validator (w : World) (request : Request) :
  ((exists msg,
       result_of (handle_extraction w request) = inr (mkHttp (error_body msg) 400) /\
       config_reads (trace_of (handle_extraction w request)) = [])
   <-> invalid_upload request) /\
  (invalid_upload request ->
   config_reads (trace_of (handle_extraction w request)) = [] /\
   llm_calls (trace_of (handle_extraction w request)) = []) /\
  (~ invalid_upload request ->
   exists file,
     files_get "file" (files request) = Some file /\
     config_reads (trace_of (handle_extraction w request))
     = [ONTOLOGY_FILE; PROMPT_FILE] /\
     (forall data, In data (pdf_reads (trace_of (handle_extraction w request))) ->
                   data = content file) /\
     (forall path v, In (EvJsonDump path v) (trace_of (handle_extraction w request)) ->
                     path = output_path (filename file)) /\
     (forall ontology template,
         config_loaded w ontology template ->
         In (EvPrint (LogExtractingFrom (filename file)))
            (trace_of (handle_extraction w request)) /\
         pdf_reads (trace_of (handle_extraction w request)) = [content file]) /\
     (forall v,
         result_of (handle_extraction w request) = inr (mkHttp v 200) ->
         In (EvOpenWrite (output_path (filename file)))
            (trace_of (handle_extraction w request)))).
Proof.
  assert (Hrej : turned_down request ->
                 (exists msg,
                     result_of (handle_extraction w request)
                     = inr (mkHttp (error_body msg) 400) /\
                     config_reads (trace_of (handle_extraction w request)) = []) /\
                 config_reads (trace_of (handle_extraction w request)) = [] /\
                 llm_calls (trace_of (handle_extraction w request)) = []).
  { intros Hbad. destruct (handle_turned_down w request Hbad) as (m & msg & E).
    rewrite E. cbn. split; [exists msg|]; auto. }
  assert (Hacc : forall file, accepted_upload request file ->
                 files_get "file" (files request) = Some file /\
                 config_reads (trace_of (handle_extraction w request))
                 = [ONTOLOGY_FILE; PROMPT_FILE] /\
                 (forall data, In data (pdf_reads (trace_of (handle_extraction w request))) ->
                               data = content file) /\
                 (forall path v, In (EvJsonDump path v) (trace_of (handle_extraction w request)) ->
                                 path = output_path (filename file))).
  { intros file Hacc. split; [apply Hacc|].
    destruct (config_loaded_dec w) as [(ontology & template & Hcfg)|Hcfg].
    2:{ destruct (handle_config_failure w request file Hacc Hcfg)
          as (t & E & R & P & _ & W).
        rewrite E. cbn. rewrite R, P. repeat split; [intros ? []|].
        intros path v Hin. now apply not_in_output_writes in Hin. }
    destruct (pdf_well_formed_dec w (content file)) as [[texts Hwf]|Hwf].
    2:{ destruct (handle_pdf_failure w request file ontology template Hacc Hcfg Hwf)
          as (m & E).
        rewrite E. cbn. repeat split.
        - intros data [<-|[]]. reflexivity.
        - intros path v Hin.
          repeat (destruct Hin as [Hin|Hin]; [discriminate|]). destruct Hin. }
    destruct (gemini_returns w (String.concat "" texts) ontology template)
      as (tg & v & Eg & Rg & Pg & Wg & _).
    rewrite (handle_llm_step w request file ontology template Hacc Hcfg texts tg v Hwf Eg).
    destruct (save_output_quiet w (output_name (filename file)) v OUTPUT_DIR)
      as (_ & Rs & Ps).
    unfold trace_of in *. cbn [fst].
    assert (Re : config_reads (extraction_events file (String.concat "" texts)) = [] /\
                 pdf_reads (extraction_events file (String.concat "" texts))
                 = [content file]).
    { unfold extraction_events. cbn.
      destruct (String.eqb _ ""), (PyStr.strip_is_empty _); auto. }
    destruct Re as [Re Pe].
    rewrite !config_reads_app, !pdf_reads_app, Re, Pe, Rg, Pg.
    repeat split.
    - destruct (is_not_None v); cbn; [rewrite Rs|]; reflexivity.
    - intros data. destruct (is_not_None v); cbn; [rewrite Ps|];
        intros [<-|[]]; reflexivity.
    - intros path v' Hin. apply in_app_or in Hin. destruct Hin as [Hin|Hin].
      { cbn in Hin. repeat (destruct Hin as [Hin|Hin]; [discriminate|]).
        destruct Hin. }
      apply in_app_or in Hin. destruct Hin as [Hin|Hin].
      { unfold extraction_events in Hin. cbn in Hin.
        destruct Hin as [Hin|Hin]; [discriminate|].
        destruct (String.eqb _ ""), (PyStr.strip_is_empty _); cbn in Hin;
          repeat (destruct Hin as [Hin|Hin]; [discriminate|]); destruct Hin. }
      apply in_app_or in Hin. destruct Hin as [Hin|Hin].
      { now apply not_in_output_writes in Hin. }
      destruct (is_not_None v).
      + destruct Hin as [Hin|Hin]; [discriminate|].
        apply (save_output_dumps w _ _ _ _ _) in Hin. apply Hin.
      + destruct Hin as [Hin|[]]. discriminate. }
  assert (Hpass : forall file, accepted_upload request file ->
                  (forall ontology template,
                      config_loaded w ontology template ->
                      In (EvPrint (LogExtractingFrom (filename file)))
                         (trace_of (handle_extraction w request)) /\
                      pdf_reads (trace_of (handle_extraction w request))
                      = [content file]) /\
                  (forall v,
                      result_of (handle_extraction w request) = inr (mkHttp v 200) ->
                      In (EvOpenWrite (output_path (filename file)))
                         (trace_of (handle_extraction w request)))).
  { intros file Hacc'.
    destruct (config_loaded_dec w) as [(ontology & template & Hcfg)|Hcfg].
    2:{ split; [intros o t Hc; now elim (Hcfg o t)|].
        destruct (handle_config_failure w request file Hacc' Hcfg) as (t & E & _).
        rewrite E. intros v Hr. discriminate Hr. }
    destruct (pdf_well_formed_dec w (content file)) as [[texts Hwf]|Hwf].
    2:{ destruct (handle_pdf_failure w request file ontology template Hacc' Hcfg Hwf)
          as (m & E).
        rewrite E. split.
        - intros _ _ _. split; [|reflexivity].
          apply in_or_app. left. unfold before_extraction. cbn. tauto.
        - intros v Hr. discriminate Hr. }
    destruct (gemini_returns w (String.concat "" texts) ontology template)
      as (tg & v & Eg & Rg & Pg & Wg & _).
    rewrite (handle_llm_step w request file ontology template Hacc' Hcfg texts tg v Hwf Eg).
    unfold trace_of at 1 2 3. unfold result_of at 1. cbn [fst snd].
    split.
    - intros _ _ _. split.
      + apply in_or_app. left. unfold before_extraction. cbn. tauto.
      + assert (Pe : pdf_reads (extraction_events file (String.concat "" texts))
                     = [content file]).
        { unfold extraction_events. cbn.
          destruct (String.eqb _ ""), (PyStr.strip_is_empty _); reflexivity. }
        rewrite !pdf_reads_app, Pe, Pg.
        destruct (save_output_quiet w (output_name (filename file)) v OUTPUT_DIR)
          as (_ & _ & Ps).
        destruct (is_not_None v); cbn; [rewrite Ps|]; reflexivity.
    - intros v' Hr.
      destruct (is_not_None v); [|discriminate Hr].
      destruct (makedirs w OUTPUT_DIR) as [e|] eqn:Hd.
      { rewrite (save_output_raises w _ _ _ e Hd) in Hr. discriminate Hr. }
      apply in_or_app. right. apply in_or_app. right. apply in_or_app. right.
      right. apply (save_output_opens w _ v OUTPUT_DIR Hd). }
  split; [split|split].
  - intros (msg & Hr & Hc). apply turned_down_invalid.
    destruct (upload_dec request) as [[file Ha]|Hbad]; [|exact Hbad].
    destruct (Hacc file Ha) as (_ & R & _). rewrite R in Hc. discriminate.
  - intros H. apply turned_down_invalid in H. apply Hrej. exact H.
  - intros H. apply turned_down_invalid in H. apply Hrej. exact H.
  - intros Hvalid. destruct (upload_dec request) as [[file Ha]|Hbad].
    + exists file.
      destruct (Hacc file Ha) as (H1 & H2 & H3 & H4).
      destruct (Hpass file Ha) as (H5 & H6).
      split; [exact H1|]. split; [exact H2|]. split; [exact H3|].
      split; [exact H4|]. split; [exact H5|exact H6].
    + apply turned_down_invalid in Hbad. contradiction.
Qed.

(** C2 on two requests: [good_upload], whose file is [Case.PDF], is not
    turned down, and its bytes and its name are handed on; an upload
    named [notes.txt] is turned down with 400 before any file is
    read. *)
Lemma C2_request_validator_witness :
  (exists file,
      files_get "file" (files good_upload) = Some file /\
      pdf_reads (trace_of (handle_extraction (world_answering "{}") good_upload))
      = [content file] /\
      In (EvPrint (LogExtractingFrom (filename file)))
         (trace_of (handle_extraction (world_answering "{}") good_upload)) /\
      In (EvOpenWrite (output_path (filename file)))
         (trace_of (handle_extraction (world_answering "{}") good_upload))) /\
  config_reads (trace_of (handle_extraction (world_answering "{}")
                                            (upload "notes.txt" pdf_magic))) = [] /\
  llm_calls (trace_of (handle_extraction (world_answering "{}")
                                         (upload "notes.txt" pdf_magic))) = [].
Proof.
  split.
  - destruct (C2_request_validator (world_answering "{}") good_upload)
      as (_ & _ & Hok).
    destruct Hok as (file & Hfile & _ & _ & _ & Hpdf & Hopen).
    + intros [H|H]; [discriminate H|]. apply H. reflexivity.
    + exists file. split; [exact Hfile|].
      destruct (Hpdf "<rdf/>" "Extract.") as (Hname & Hbytes).
      { split; reflexivity. }
      split; [exact Hbytes|]. split; [exact Hname|].
      apply (Hopen (PDict [])).
      reflexivity.
  - destruct (C2_request_validator (world_answering "{}")
                                   (upload "notes.txt" pdf_magic))
      as (_ & Hrej & _).
    apply Hrej.
    right. intros H. discriminate H.
Defined.

(** The answer of the handler once the LLM step has returned [v],
    when the output directory can be made. *)
Lemma handle_after_llm (w : World) (request : Request) (file : FileStorage)
      (ontology template : string) (texts : list string)
      (tg : list Event) (v : pyvalue) :
  accepted_upload request file ->
  config_loaded w ontology template ->
  well_formed_pdf w (content file) texts ->
  extract_concepts_with_gemini w (String.concat "" texts) ontology template
  = (tg, inr v) ->
  makedirs w OUTPUT_DIR = None ->
  result_of (handle_extraction w request) =
    inr (if is_not_None v then mkHttp v 200
         else mkHttp (error_body "Failed to extract information using the AI model.") 500).
Proof.
  intros Hacc Hcfg Hwf Eg Hdir.
  rewrite (handle_llm_step w request file ontology template Hacc Hcfg texts tg v Hwf Eg).
  unfold result_of at 1. cbn [snd].
  destruct (is_not_None v); [|reflexivity].
  destruct (save_output_returns w (output_name (filename file)) v OUTPUT_DIR Hdir)
    as (t & -> & _). reflexivity.
Qed.

(** A parsed answer other than [None] is returned as it is, with
    status 200, when the output directory can be made. *)
Lemma parsed_answer_is_returned (w : World) (request : Request) (file : FileStorage)
      (ontology template : string) (texts : list string)
      (r : GenerateContentResponse) (c : Candidate) (cs : list Candidate)
      (s : string) (v : pyvalue) :
  accepted_upload request file ->
  config_loaded w ontology template ->
  well_formed_pdf w (content file) texts ->
  GenerativeModel w = None ->
  generate_content w (full_prompt template ontology (String.concat "" texts)) = inr r ->
  candidates r = c :: cs -> parts c <> [] ->
  text r = inr s -> json_loads w s = inr v ->
  makedirs w OUTPUT_DIR = None ->
  v <> PNone ->
  result_of (handle_extraction w request) = inr (mkHttp v 200).
Proof.
  intros Hacc Hcfg Hwf Hm Hg Hc Hp Ht Hj Hdir Hv.
  rewrite (handle_after_llm w request file ontology template texts _ v Hacc Hcfg Hwf
             (gemini_parses w _ _ _ r c cs s v Hm Hg Hc Hp Ht Hj) Hdir).
  destruct v; try reflexivity. now elim Hv.
Qed.

(** A parsed answer that is [None], the value of JSON's [null], is
    taken for a failure of the LLM step. *)
Lemma null_answer_is_refused (w : World) (request : Request) (file : FileStorage)
      (ontology template : string) (texts : list string)
      (r : GenerateContentResponse) (c : Candidate) (cs : list Candidate)
      (s : string) :
  accepted_upload request file ->
  config_loaded w ontology template ->
  well_formed_pdf w (content file) texts ->
  GenerativeModel w = None ->
  generate_content w (full_prompt template ontology (String.concat "" texts)) = inr r ->
  candidates r = c :: cs -> parts c <> [] ->
  text r = inr s -> json_loads w s = inr PNone ->
  handle_extraction w request =
    (before_extraction file ++ extraction_events file (String.concat "" texts) ++
     [EvPrint LogAttempting; EvGenerativeModel MODEL_NAME;
      EvPrint (LogSending MODEL_NAME);
      EvGenerateContent (full_prompt template ontology (String.concat "" texts));
      EvPrint LogResponseReceived; EvPrint LogParsedJson; EvPrint LogFailed],
     inr (mkHttp (error_body "Failed to extract information using the AI model.") 500)).
Proof.
  intros Hacc Hcfg Hwf Hm Hg Hc Hp Ht Hj.
  rewrite (handle_llm_step w request file ontology template Hacc Hcfg texts _ PNone Hwf
             (gemini_parses w _ _ _ r c cs s PNone Hm Hg Hc Hp Ht Hj)).
  reflexivity.
Qed.

(** C3.  The model answers the request [good_upload] with one candidate
    whose text is [null].  The text parses as JSON, to the value [None];
    the program prints that it parsed the answer, then that the
    extraction failed, and answers 500 with an error payload, where
    the specification promises 200 with the value [null]. *)
Theorem C3_null_answer_gets_500 :
  json_loads (world_answering "null") "null" = inr PNone /\
  In LogParsedJson
     (printed (trace_of (handle_extraction (world_answering "null") good_upload))) /\
  In LogFailed
     (printed (trace_of (handle_extraction (world_answering "null") good_upload))) /\
  result_of (handle_extraction (world_answering "null") good_upload) =
    inr (mkHttp (error_body "Failed to extract information using the AI model.") 500).
Proof.
  split; [reflexivity|].
  assert (E := null_answer_is_refused (world_answering "null") good_upload
                 good_file "<rdf/>" "Extract."
                 ["Dowry "; "case."]
                 (answer_of "null") (mkCandidate ["null"]) [] "null").
  rewrite E.
  - repeat split; vm_compute; repeat (first [left; reflexivity | right]).
  - repeat split; discriminate.
  - split; reflexivity.
  - reflexivity.
  - reflexivity.
  - reflexivity.
  - reflexivity.
  - discriminate.
  - reflexivity.
  - reflexivity.
Qed.

(** C4.  When the LLM step fails on a request that reached it (the
    client cannot be set up, the call raises, the response has no
    candidate, its first candidate has no part, it has no text, or its
    text is not JSON), the handler answers 500 with an error payload and
    the output writer is not called: no directory is made, no file is
    opened for writing, nothing is dumped. *)
Theorem C4_llm_failure (w : World) (request : Request) (file : FileStorage)
        (ontology template : string) (texts : list string) :
  accepted_upload request file ->
  config_loaded w ontology template ->
  well_formed_pdf w (content file) texts ->
  llm_step_fails w (full_prompt template ontology (String.concat "" texts)) ->
  result_of (handle_extraction w request) =
    inr (mkHttp (error_body "Failed to extract information using the AI model.") 500) /\
  output_writes (trace_of (handle_extraction w request)) = [] /\
  forall fs, fs_after w fs (trace_of (handle_extraction w request)) = fs.
Proof.
  intros Hacc Hcfg Hwf Hfail.
  destruct (gemini_returns w (String.concat "" texts) ontology template)
    as (tg & v & Eg & _ & _ & Wg & _).
  assert (Hv := gemini_fails w _ _ _ Hfail). rewrite Eg in Hv.
  injection Hv as ->.
  rewrite (handle_llm_step w request file ontology template Hacc Hcfg texts tg PNone Hwf Eg).
  cbn [is_not_None result_of trace_of fst snd].
  assert (Hw : output_writes
                 (before_extraction file ++
                  extraction_events file (String.concat "" texts) ++
                  tg ++ [EvPrint LogFailed]) = []).
  { rewrite !output_writes_app, Wg. unfold extraction_events. cbn.
    destruct (String.eqb _ ""), (PyStr.strip_is_empty _); reflexivity. }
  repeat split; [exact Hw|].
  intros fs. now apply fs_after_no_writes.
Qed.

(** C4 on a response without candidates. *)
Lemma C4_llm_failure_witness :
  result_of (handle_extraction (world_responding (inr blocked_response)) good_upload) =
    inr (mkHttp (error_body "Failed to extract information using the AI model.") 500) /\
  output_writes
    (trace_of (handle_extraction (world_responding (inr blocked_response)) good_upload))
  = [] /\
  forall fs,
    fs_after (world_responding (inr blocked_response)) fs
      (trace_of (handle_extraction (world_responding (inr blocked_response)) good_upload))
    = fs.
Proof.
  apply (C4_llm_failure (world_responding (inr blocked_response)) good_upload
           good_file "<rdf/>" "Extract." ["Dowry "; "case."]).
  - repeat split; discriminate.
  - split; reflexivity.
  - reflexivity.
  - eapply fails_no_candidates; reflexivity.
Defined.

(** The output writer does not set the model client up. *)
Lemma save_output_no_entry (w : World) (name : string) (data : pyvalue) (dir : string) :
  llm_entries (trace_of (save_output w name data dir)) = 0.
Proof.
  destruct (makedirs w dir) as [e|] eqn:Hd.
  - rewrite (save_output_raises w _ _ _ e Hd). reflexivity.
  - unfold save_output, call, outcome. rewrite Hd. cbn.
    destruct (open_write w _); cbn; [reflexivity|].
    destruct (snd (json_dump w data)); reflexivity.
Qed.

(** C5.  For a well-formed PDF the extractor returns the texts of the
    pages, glued in page order without a separator; when no page has
    text it returns the empty string, not [None].  A request with that
    upload, accepted by the validator and with its configuration read,
    then enters the LLM step exactly once and, the client being set up,
    calls the model exactly once, with the prompt composed over that
    text; when no page has text, the single call is made with the empty
    document section. *)
Theorem C5_text_extraction (w : World) (data : list byte) (texts : list string) :
  well_formed_pdf w data texts ->
  result_of (extract_text_from_pdf w data) = inr (Some (pages_text texts)) /\
  (Forall (fun s => s = "") texts ->
   result_of (extract_text_from_pdf w data) = inr (Some "")) /\
  forall request file ontology template,
    accepted_upload request file -> content file = data ->
    config_loaded w ontology template ->
    llm_entries (trace_of (handle_extraction w request)) = 1 /\
    (GenerativeModel w = None ->
     llm_calls (trace_of (handle_extraction w request))
     = [composed_prompt template ontology (pages_text texts)]) /\
    (Forall (fun s => s = "") texts -> GenerativeModel w = None ->
     llm_calls (trace_of (handle_extraction w request))
     = [(template ++ nl ++ nl ++ labeled_xml_block ontology ++ nl ++ nl ++
         labeled_text_block "" ++ nl ++ nl ++ json_output_marker)%string]).
Proof.
  intros Hwf.
  assert (Hx : result_of (extract_text_from_pdf w data)
               = inr (Some (pages_text texts))).
  { rewrite (extract_text_well_formed w _ _ Hwf), concat_no_separator. reflexivity. }
  split; [exact Hx|]. split.
  { intros Hblank. rewrite Hx, (pages_text_blank texts Hblank). reflexivity. }
  intros request file ontology template Hacc <- Hcfg.
  destruct (gemini_returns w (String.concat "" texts) ontology template)
    as (tg & v & Eg & _ & _ & _ & Ng & _ & Cg).
  destruct (save_output_quiet w (output_name (filename file)) v OUTPUT_DIR)
    as (Ls & _ & _).
  assert (Ns := save_output_no_entry w (output_name (filename file)) v OUTPUT_DIR).
  assert (Hcalls : GenerativeModel w = None ->
                   llm_calls (trace_of (handle_extraction w request))
                   = [composed_prompt template ontology (pages_text texts)]).
  { intros Hm. specialize (Cg Hm).
    rewrite (handle_llm_step w request file ontology template Hacc Hcfg texts tg v Hwf Eg).
    unfold trace_of in *. cbn [fst].
    rewrite !llm_calls_app, Cg, full_prompt_composed, concat_no_separator.
    unfold extraction_events. cbn.
    destruct (String.eqb _ ""), (PyStr.strip_is_empty _), (is_not_None v);
      cbn; rewrite ?Ls; reflexivity. }
  split; [|split; [exact Hcalls|]].
  - rewrite (handle_llm_step w request file ontology template Hacc Hcfg texts tg v Hwf Eg).
    unfold trace_of in *. cbn [fst].
    rewrite !llm_entries_app, Ng. unfold extraction_events. cbn.
    destruct (String.eqb _ ""), (PyStr.strip_is_empty _), (is_not_None v);
      cbn; rewrite ?Ns; reflexivity.
  - intros Hblank Hm. rewrite (Hcalls Hm), (pages_text_blank texts Hblank).
    reflexivity.
Qed.

(** C5 on a PDF of three pages without text. *)
Lemma C5_text_extraction_witness :
  result_of (extract_text_from_pdf world_blank_pages (content good_file)) = inr (Some "") /\
  llm_entries (trace_of (handle_extraction world_blank_pages good_upload)) = 1 /\
  llm_calls (trace_of (handle_extraction world_blank_pages good_upload))
  = [composed_prompt "Extract." "<rdf/>" ""].
Proof.
  destruct (C5_text_extraction world_blank_pages (content good_file) [""; ""; ""])
    as (_ & Hx & H).
  - reflexivity.
  - split; [apply Hx; repeat constructor|].
    destruct (H good_upload good_file "<rdf/>" "Extract.") as (Hn & _ & Hc).
    + repeat split; discriminate.
    + reflexivity.
    + split; reflexivity.
    + split; [exact Hn|]. apply Hc; [repeat constructor | reflexivity].
Defined.

(** C6 as it stands fails where the configuration is missing: the
    upload [corrupt_upload] is accepted by the validator and is no PDF,
    and the answer is 500, not 400. *)
Lemma C6_counterexample :
  accepted_upload corrupt_upload corrupt_file /\
  (forall texts, ~ well_formed_pdf (world_no_config "{}") (content corrupt_file) texts) /\
  result_of (handle_extraction (world_no_config "{}") corrupt_upload) =
    inr (mkHttp (error_body "Server configuration error reading ontology or prompt.") 500) /\
  ~ (exists msg,
        result_of (handle_extraction (world_no_config "{}") corrupt_upload) =
          inr (mkHttp (error_body msg) 400)).
Proof.
  split; [repeat split; discriminate|].
  split; [intros texts H; discriminate|].
  split; [reflexivity|].
  intros [msg H]. vm_compute in H. discriminate.
Qed.

(** C6, amended.  When the bytes are not a well-formed PDF, the
    extractor returns [None].  A request that uploads them never calls
    the model, and it is answered 400 with an error payload, unless its
    upload passed the validator and a configuration file could not be
    read: the answer is then the 500 of the configuration loader, which
    runs before the extractor. *)
Theorem C6_invalid_pdf (w : World) (data : list byte) :
  (forall texts, ~ well_formed_pdf w data texts) ->
  result_of (extract_text_from_pdf w data) = inr None /\
  forall request file,
    files_get "file" (files request) = Some file -> content file = data ->
    llm_calls (trace_of (handle_extraction w request)) = [] /\
    ((exists msg,
         result_of (handle_extraction w request) = inr (mkHttp (error_body msg) 400)) \/
     (accepted_upload request file /\
      (forall ontology template, ~ config_loaded w ontology template) /\
      result_of (handle_extraction w request) =
        inr (mkHttp (error_body "Server configuration error reading ontology or prompt.") 500))) /\
    (accepted_upload request file ->
     forall ontology template,
       config_loaded w ontology template ->
       result_of (handle_extraction w request) =
         inr (mkHttp (error_body "Failed to extract text from the PDF file. It might be invalid, corrupted, or image-based.") 400)).
Proof.
  intros Hwf.
  split.
  { destruct (extract_text_not_well_formed w _ Hwf) as [m ->]. reflexivity. }
  intros request file Hfile <-.
  destruct (upload_dec request) as [[file' Hacc]|Hbad].
  2:{ destruct (handle_turned_down w request Hbad) as (m & msg & E).
      rewrite E. cbn. split; [reflexivity|]. split; [left; now exists msg|].
      intros Hacc. now elim (accepted_not_turned_down request file Hacc). }
  assert (file' = file) as ->.
  { destruct Hacc as (Hf & _). rewrite Hfile in Hf. now injection Hf. }
  destruct (config_loaded_dec w) as [(ontology & template & Hcfg)|Hcfg].
  - destruct (handle_pdf_failure w request file ontology template Hacc Hcfg Hwf)
      as (m & E).
    rewrite E. cbn. split; [reflexivity|]. split; [left; eauto|]. reflexivity.
  - destruct (handle_config_failure w request file Hacc Hcfg) as (t & E & _ & _ & L & _).
    rewrite E. cbn. split; [exact L|]. split; [right; auto|].
    intros _ ontology template Hc. now elim (Hcfg ontology template).
Qed.

(** C6 on the corrupt upload, the configuration being there. *)
Lemma C6_invalid_pdf_witness :
  result_of (extract_text_from_pdf (world_answering "{}") (content corrupt_file)) = inr None /\
  llm_calls (trace_of (handle_extraction (world_answering "{}") corrupt_upload)) = [] /\
  result_of (handle_extraction (world_answering "{}") corrupt_upload) =
    inr (mkHttp (error_body "Failed to extract text from the PDF file. It might be invalid, corrupted, or image-based.") 400).
Proof.
  destruct (C6_invalid_pdf (world_answering "{}") (content corrupt_file))
    as (Hx & H).
  - intros texts Hw. discriminate.
  - destruct (H corrupt_upload corrupt_file) as (Hl & _ & Hr); try reflexivity.
    split; [exact Hx|]. split; [exact Hl|].
    apply (Hr ltac:(repeat split; discriminate) "<rdf/>" "Extract.").
    split; reflexivity.
Defined.

(** C7.  When a configuration file cannot be opened or read, the
    loader returns [None]; it reports a file that does not exist and
    any other failure with two different lines.  Whichever of the two
    fixed paths fails, and in either way, a request that passed the
    validator is answered 500 with an error payload, and neither the
    PDF reader nor the model is called. *)
Theorem C7_config_failure (w : World) (path : string) (e : Exn) :
  open_read w path = inl e ->
  result_of (read_file w path) = inr None /\
  (exn_class e = FileNotFoundError ->
   printed (trace_of (read_file w path)) = [LogFileNotFound path]) /\
  (exn_class e <> FileNotFoundError ->
   printed (trace_of (read_file w path)) = [LogErrorReading path e]) /\
  LogFileNotFound path <> LogErrorReading path e /\
  (path = ONTOLOGY_FILE \/ path = PROMPT_FILE ->
   forall request file,
     accepted_upload request file ->
     result_of (handle_extraction w request) =
       inr (mkHttp (error_body "Server configuration error reading ontology or prompt.") 500) /\
     pdf_reads (trace_of (handle_extraction w request)) = [] /\
     llm_calls (trace_of (handle_extraction w request)) = []).
Proof.
  intros Hopen.
  split; [|split; [|split; [|split]]].
  - destruct (read_file_cases w path)
      as (t & _ & _ & _ & _ & _ & [(s & Hs & _)|(e' & _ & ->)]).
    + rewrite Hopen in Hs. discriminate.
    + reflexivity.
  - intros Hc. rewrite (read_file_not_found w path e Hopen Hc). reflexivity.
  - intros Hc. rewrite (read_file_other_error w path e Hopen Hc). reflexivity.
  - discriminate.
  - intros Hpath request file Hacc.
    assert (Hno : forall ontology template, ~ config_loaded w ontology template).
    { intros ontology template [Ho Hp].
      destruct Hpath as [-> | ->]; [rewrite Hopen in Ho | rewrite Hopen in Hp];
        discriminate. }
    destruct (handle_config_failure w request file Hacc Hno) as (t & -> & _ & P & L & _).
    cbn. auto.
Qed.

(** C7 on an ontology that is missing, and on one that is there but
    cannot be read. *)
Lemma C7_config_failure_witness :
  (printed (trace_of (read_file (world_no_config "{}") ONTOLOGY_FILE))
   = [LogFileNotFound ONTOLOGY_FILE] /\
   result_of (handle_extraction (world_no_config "{}") good_upload) =
     inr (mkHttp (error_body "Server configuration error reading ontology or prompt.") 500)) /\
  (printed (trace_of (read_file world_unreadable_ontology ONTOLOGY_FILE))
   = [LogErrorReading ONTOLOGY_FILE (mkExn OtherException "PermissionError")] /\
   result_of (handle_extraction world_unreadable_ontology good_upload) =
     inr (mkHttp (error_body "Server configuration error reading ontology or prompt.") 500)).
Proof.
  split.
  - destruct (C7_config_failure (world_no_config "{}") ONTOLOGY_FILE
                (mkExn FileNotFoundError ONTOLOGY_FILE))
      as (_ & Hnf & _ & _ & Hr).
    + reflexivity.
    + split; [apply Hnf; reflexivity|].
      apply (Hr (or_introl eq_refl) good_upload good_file).
      repeat split; discriminate.
  - destruct (C7_config_failure world_unreadable_ontology ONTOLOGY_FILE
                (mkExn OtherException "PermissionError"))
      as (_ & _ & Hother & _ & Hr).
    + reflexivity.
    + split; [apply Hother; discriminate|].
      apply (Hr (or_introl eq_refl) good_upload good_file).
      repeat split; discriminate.
Defined.

(* ------------------------------------------------------------------ *)
(** ** The output file *)

(** [splitext] returns the whole name, or the name cut at an index
    that is not its first. *)
Lemma splitext_loop_stem (p : string) (dotIndex : nat) : forall n filenameIndex,
  fst (PosixPath.splitext_loop p dotIndex filenameIndex n) = p \/
  (1 <= n /\
   fst (PosixPath.splitext_loop p dotIndex filenameIndex n) = PyStr.take dotIndex p).
Proof.
  induction n as [|n IH]; intros filenameIndex; [now left|].
  cbn [PosixPath.splitext_loop].
  destruct (negb (String.eqb (substring filenameIndex 1 p) ".")).
  - right. split; [lia | reflexivity].
  - destruct (IH (S filenameIndex)) as [H|[Hn H]]; [now left|].
    right. split; [lia | exact H].
Qed.

Lemma splitext_stem (p : string) :
  fst (PosixPath.splitext p) = p \/
  exists d, fst (PosixPath.splitext p) = PyStr.take (S d) p.
Proof.
  unfold PosixPath.splitext.
  destruct (PyStr.rfind "/"%char p <? PyStr.rfind "."%char p)%Z eqn:Hlt; [|now left].
  apply Z.ltb_lt in Hlt.
  pose proof (PyStrFacts.rfind_lower_bound "/"%char p) as Hsep.
  destruct (splitext_loop_stem p (Z.to_nat (PyStr.rfind "."%char p))
              (Z.to_nat (PyStr.rfind "."%char p - (PyStr.rfind "/"%char p + 1)))
              (Z.to_nat (PyStr.rfind "/"%char p + 1))) as [H|[Hn H]];
    [now left|].
  right. exists (Z.to_nat (PyStr.rfind "."%char p) - 1).
  rewrite H. f_equal. lia.
Qed.

(** The output name of a relative file name is relative. *)
Lemma output_name_relative (name : string) :
  PyStr.startswith name "/" = false ->
  PyStr.startswith (output_name name) "/" = false.
Proof.
  unfold output_name, PyStr.startswith.
  destruct (splitext_stem name) as [-> | [d ->]];
    (destruct name as [|c name]; [reflexivity|]);
    unfold PyStr.take; cbn [String.prefix String.append substring];
    intros H; (destruct (ascii_dec "/" c); [|reflexivity]);
    destruct name; discriminate H.
Qed.

(** Under [output], a relative name is joined with one [/]. *)
Lemma join_output_dir (name : string) :
  PyStr.startswith name "/" = false ->
  PosixPath.join OUTPUT_DIR name = ("output/" ++ name)%string.
Proof. intros H. unfold PosixPath.join. rewrite H. reflexivity. Qed.

(** A request answered 200 went through every step: its upload was
    accepted, the configuration was read, the PDF gave its text, the
    LLM step returned the body of the answer, which is not [None], and
    the output directory could be made. *)
Lemma handle_200_inv (w : World) (request : Request) (v : pyvalue) :
  result_of (handle_extraction w request) = inr (mkHttp v 200) ->
  exists file ontology template texts tg,
    accepted_upload request file /\
    config_loaded w ontology template /\
    well_formed_pdf w (content file) texts /\
    extract_concepts_with_gemini w (String.concat "" texts) ontology template
    = (tg, inr v) /\
    is_not_None v = true /\
    makedirs w OUTPUT_DIR = None.
Proof.
  intros Hr.
  destruct (upload_dec request) as [[file Hacc]|Hbad].
  2:{ destruct (handle_turned_down w request Hbad) as (m & msg & E).
      rewrite E in Hr. discriminate. }
  destruct (config_loaded_dec w) as [(ontology & template & Hcfg)|Hcfg].
  2:{ destruct (handle_config_failure w request file Hacc Hcfg) as (t & E & _).
      rewrite E in Hr. discriminate. }
  destruct (pdf_well_formed_dec w (content file)) as [[texts Hwf]|Hwf].
  2:{ destruct (handle_pdf_failure w request file ontology template Hacc Hcfg Hwf)
        as (m & E).
      rewrite E in Hr. discriminate. }
  destruct (gemini_returns w (String.concat "" texts) ontology template)
    as (tg & v' & Eg & _).
  rewrite (handle_llm_step w request file ontology template Hacc Hcfg texts tg v' Hwf Eg)
    in Hr.
  unfold result_of at 1 in Hr. cbn [snd] in Hr.
  destruct (is_not_None v') eqn:Hv; [|discriminate].
  destruct (makedirs w OUTPUT_DIR) as [e|] eqn:Hd.
  { rewrite (save_output_raises w _ _ _ e Hd) in Hr. discriminate. }
  destruct (save_output_returns w (output_name (filename file)) v' OUTPUT_DIR Hd)
    as (t & E & _).
  rewrite E in Hr. cbn in Hr. injection Hr as <-.
  exists file, ontology, template, texts, tg.
  split; [exact Hacc|]. split; [exact Hcfg|]. auto.
Qed.

(** When the output directory can be made, the handler returns a
    response: 200, or 400 or 500 with an error payload. *)
Lemma handle_extraction_responds (w : World) (request : Request) :
  makedirs w OUTPUT_DIR = None ->
  exists resp,
    result_of (handle_extraction w request) = inr resp /\
    (status resp = 200%Z \/
     ((status resp = 400%Z \/ status resp = 500%Z) /\
      exists msg, body resp = error_body msg)).
Proof.
  intros Hd.
  destruct (upload_dec request) as [[file Hacc]|Hbad].
  2:{ destruct (handle_turned_down w request Hbad) as (m & msg & ->).
      eexists. split; [reflexivity|]. right. cbn. eauto. }
  destruct (config_loaded_dec w) as [(ontology & template & Hcfg)|Hcfg].
  2:{ destruct (handle_config_failure w request file Hacc Hcfg) as (t & -> & _).
      eexists. split; [reflexivity|]. right. cbn. eauto. }
  destruct (pdf_well_formed_dec w (content file)) as [[texts Hwf]|Hwf].
  2:{ destruct (handle_pdf_failure w request file ontology template Hacc Hcfg Hwf)
        as (m & ->).
      eexists. split; [reflexivity|]. right. cbn. eauto. }
  destruct (gemini_returns w (String.concat "" texts) ontology template)
    as (tg & v & Eg & _).
  rewrite (handle_after_llm w request file ontology template texts tg v
             Hacc Hcfg Hwf Eg Hd).
  eexists. split; [reflexivity|].
  destruct (is_not_None v); [now left|]. right. cbn. eauto.
Qed.

(** C8.  Where the output directory cannot be made (here a regular
    file named [output] is in the way), [os.makedirs] raises before
    [filepath] is bound; the handler of the [try] then reads [filepath]
    to print its line, and [save_output] raises [UnboundLocalError] to
    its caller, having printed nothing. *)
Theorem C8_save_output_raises :
  makedirs (world_no_output_dir "{}") OUTPUT_DIR
  = Some (mkExn OtherException "FileExistsError") /\
  save_output (world_no_output_dir "{}") "Case_extraction.json" (PDict []) OUTPUT_DIR
  = ([EvMakedirs OUTPUT_DIR], inl (mkExn UnboundLocalError "filepath")) /\
  printed (trace_of (save_output (world_no_output_dir "{}") "Case_extraction.json"
                                 (PDict []) OUTPUT_DIR)) = [].
Proof. repeat split. Qed.

(** The output name of an absolute file name is absolute. *)
Lemma output_name_absolute (name : string) :
  PyStr.startswith name "/" = true ->
  PyStr.startswith (output_name name) "/" = true.
Proof.
  unfold output_name, PyStr.startswith.
  destruct (splitext_stem name) as [-> | [d ->]];
    (destruct name as [|c name]; [discriminate|]);
    unfold PyStr.take; cbn [String.prefix String.append substring];
    intros H; (destruct (ascii_dec "/" c); [|discriminate H]);
    match goal with |- String.prefix "" ?s = true => destruct s; reflexivity end.
Qed.

(** The files after a request that is answered 200 and whose output
    writer meets no failure: the output file, emptied when it is
    opened, holds the text that [json.dump] wrote for the value of the
    answer. *)
Lemma output_file_text (w : World) (request : Request) (file : FileStorage)
      (v : pyvalue) (fs : FS) :
  files_get "file" (files request) = Some file ->
  result_of (handle_extraction w request) = inr (mkHttp v 200) ->
  open_write w (output_path (filename file)) = None ->
  snd (json_dump w v) = None ->
  fs_after w fs (trace_of (handle_extraction w request))
  = fs_write (fs_write fs (output_path (filename file)) "")
             (output_path (filename file)) (fst (json_dump w v)).
Proof.
  intros Hfile Hr Hopen Hdump.
  destruct (handle_200_inv w request v Hr)
    as (file' & ontology & template & texts & tg & Hacc & Hcfg & Hwf & Eg & Hv & Hd).
  assert (file' = file) as ->.
  { destruct Hacc as (Hf & _). rewrite Hfile in Hf. now injection Hf. }
  rewrite (handle_llm_step w request file ontology template Hacc Hcfg texts tg v Hwf Eg).
  rewrite Hv. unfold trace_of at 1. cbn [fst].
  rewrite (save_output_saves w _ v OUTPUT_DIR Hd Hopen Hdump).
  cbn [trace_of fst].
  destruct (gemini_returns w (String.concat "" texts) ontology template)
    as (tg' & v' & Eg' & _ & _ & Wg & _).
  rewrite Eg in Eg'. injection Eg' as <- <-.
  rewrite !fs_after_app.
  rewrite (fs_after_no_writes w (before_extraction file)) by reflexivity.
  rewrite (fs_after_no_writes w (extraction_events file (String.concat "" texts))).
  2:{ unfold extraction_events. cbn.
      destruct (String.eqb _ ""), (PyStr.strip_is_empty _); reflexivity. }
  rewrite (fs_after_no_writes w tg) by exact Wg.
  cbn. fold (output_path (filename file)). rewrite Hopen. reflexivity.
Qed.




(** C10.  On the request [good_upload], answered by the model with the
    empty object, where the output directory cannot be made, the
    handler returns no response: [save_output] raises and the exception
    leaves the handler. *)
Theorem C10_handler_raises :
  result_of (handle_extraction (world_no_output_dir "{}") good_upload)
  = inl (mkExn UnboundLocalError "filepath") /\
  ~ (exists resp,
        result_of (handle_extraction (world_no_output_dir "{}") good_upload)
        = inr resp).
Proof.
  split; [reflexivity|]. intros [resp H]. vm_compute in H. discriminate.
Qed.

(* ================================================================== *)
(** * Further properties of the program *)
(* ================================================================== *)

(** ** The LLM step *)

(** The seven runs of [extract_concepts_with_gemini]. *)
Lemma gemini_run_cases (w : World) (document ontology template : string) :
  let prompt := full_prompt template ontology document in
  let run := extract_concepts_with_gemini w document ontology template in
  (exists e,
      GenerativeModel w = Some e /\
      run = ([EvPrint LogAttempting; EvGenerativeModel MODEL_NAME;
              EvPrint (LogErrorInitModel e)], inr PNone)) \/
  (exists e,
      GenerativeModel w = None /\ generate_content w prompt = inl e /\
      run = ([EvPrint LogAttempting; EvGenerativeModel MODEL_NAME;
              EvPrint (LogSending MODEL_NAME); EvGenerateContent prompt;
              EvPrint (LogApiError e)], inr PNone)) \/
  (exists r,
      GenerativeModel w = None /\ generate_content w prompt = inr r /\
      candidates r = [] /\
      run = ([EvPrint LogAttempting; EvGenerativeModel MODEL_NAME;
              EvPrint (LogSending MODEL_NAME); EvGenerateContent prompt;
              EvPrint LogResponseReceived; EvPrint LogBlockedOrEmpty;
              EvPrint (match prompt_feedback r with
                       | Some fb => if negb (block_reason fb =? 0)
                                    then LogBlockReason (block_reason fb)
                                    else LogNoCandidates
                       | None => LogNoCandidates
                       end)], inr PNone)) \/
  (exists r c cs,
      GenerativeModel w = None /\ generate_content w prompt = inr r /\
      candidates r = c :: cs /\ parts c = [] /\
      run = ([EvPrint LogAttempting; EvGenerativeModel MODEL_NAME;
              EvPrint (LogSending MODEL_NAME); EvGenerateContent prompt;
              EvPrint LogResponseReceived; EvPrint LogNoParts;
              EvPrint LogRawBegin; EvPrint (LogRawResponse r);
              EvPrint LogRawEnd], inr PNone)) \/
  (exists r c cs e,
      GenerativeModel w = None /\ generate_content w prompt = inr r /\
      candidates r = c :: cs /\ parts c <> [] /\ text r = inl e /\
      run = ([EvPrint LogAttempting; EvGenerativeModel MODEL_NAME;
              EvPrint (LogSending MODEL_NAME); EvGenerateContent prompt;
              EvPrint LogResponseReceived; EvPrint (LogApiError e)],
             inr PNone)) \/
  (exists r c cs s e,
      GenerativeModel w = None /\ generate_content w prompt = inr r /\
      candidates r = c :: cs /\ parts c <> [] /\ text r = inr s /\
      json_loads w s = inl e /\
      run = ([EvPrint LogAttempting; EvGenerativeModel MODEL_NAME;
              EvPrint (LogSending MODEL_NAME); EvGenerateContent prompt;
              EvPrint LogResponseReceived;
              EvPrint (match exn_class e with
                       | JSONDecodeError => LogInvalidJson e
                       | _ => LogJsonUnexpected e
                       end);
              EvPrint LogRawBegin; EvPrint (LogRawText (truncate_raw s));
              EvPrint LogRawEnd], inr PNone)) \/
  (exists r c cs s v,
      GenerativeModel w = None /\ generate_content w prompt = inr r /\
      candidates r = c :: cs /\ parts c <> [] /\ text r = inr s /\
      json_loads w s = inr v /\
      run = ([EvPrint LogAttempting; EvGenerativeModel MODEL_NAME;
              EvPrint (LogSending MODEL_NAME); EvGenerateContent prompt;
              EvPrint LogResponseReceived; EvPrint LogParsedJson], inr v)).
Proof.
  cbv zeta.
  unfold extract_concepts_with_gemini, parse_json_response, call, outcome.
  destruct (GenerativeModel w) as [e0|]; cbn.
  { left. exists e0. auto. }
  right.
  destruct (generate_content w (full_prompt template ontology document))
    as [e|r]; cbn.
  { left. exists e. auto. }
  right.
  destruct (candidates r) as [|c cs] eqn:Hc; cbn.
  { left. exists r. repeat split; try assumption.
    destruct (prompt_feedback r) as [fb|]; cbn;
      [destruct (block_reason fb =? 0)|]; reflexivity. }
  right.
  destruct (parts c) as [|part ps] eqn:Hp; cbn.
  { left. exists r, c, cs. auto. }
  right.
  assert (Hne : parts c <> []) by (rewrite Hp; discriminate).
  destruct (text r) as [e|s] eqn:Ht; cbn.
  { left. exists r, c, cs, e. auto 7. }
  right.
  destruct (json_loads w s) as [e|v] eqn:Hj; cbn.
  { left. exists r, c, cs, s, e. repeat split; try assumption.
    destruct (exn_class e); reflexivity. }
  right. exists r, c, cs, s, v. auto 8.
Qed.

Ltac gemini_runs w document ontology template :=
  let H := fresh "Hrun" in
  pose proof (gemini_run_cases w document ontology template) as H;
  cbv zeta in H;
  destruct H as
    [ (?e & ?Hm & ?E)
    | [ (?e & ?Hm & ?Hg & ?E)
      | [ (?r & ?Hm & ?Hg & ?Hc & ?E)
        | [ (?r & ?c & ?cs & ?Hm & ?Hg & ?Hc & ?Hp & ?E)
          | [ (?r & ?c & ?cs & ?e & ?Hm & ?Hg & ?Hc & ?Hp & ?Ht & ?E)
            | [ (?r & ?c & ?cs & ?s & ?e & ?Hm & ?Hg & ?Hc & ?Hp & ?Ht & ?Hj & ?E)
              | (?r & ?c & ?cs & ?s & ?v & ?Hm & ?Hg & ?Hc & ?Hp & ?Ht & ?Hj & ?E)
    ]]]]]].

(** X1.  [extract_concepts_with_gemini] never raises.  It sets the
    client up exactly once and, when that succeeded, calls the model
    exactly once with the composed prompt: there is no second attempt
    after a failure, and no call at all when the set-up failed.  It
    makes no other call. *)
Theorem gemini_single_attempt (w : World) (document ontology template : string) :
  (exists v,
      result_of (extract_concepts_with_gemini w document ontology template) = inr v) /\
  calls_of (trace_of (extract_concepts_with_gemini w document ontology template))
  = EvGenerativeModel MODEL_NAME ::
    match GenerativeModel w with
    | Some _ => []
    | None => [EvGenerateContent (full_prompt template ontology document)]
    end.
Proof.
  gemini_runs w document ontology template; rewrite E, Hm; cbn;
    (split; [eexists; reflexivity | reflexivity]).
Qed.

(** X2.  A value other than [None] returned by
    [extract_concepts_with_gemini] is the value that [json.loads] gave
    for the text of the response to the composed prompt, a response
    whose first candidate has content parts. *)
Theorem gemini_value_provenance (w : World) (document ontology template : string)
        (v : pyvalue) :
  result_of (extract_concepts_with_gemini w document ontology template) = inr v ->
  v <> PNone ->
  exists r c cs s,
    GenerativeModel w = None /\
    generate_content w (full_prompt template ontology document) = inr r /\
    candidates r = c :: cs /\ parts c <> [] /\
    text r = inr s /\ json_loads w s = inr v.
Proof.
  intros Hr Hv.
  gemini_runs w document ontology template; rewrite E in Hr; cbn in Hr;
    injection Hr as Hr; try (now elim Hv).
  subst v0. exists r, c, cs, s. auto 7.
Qed.

(** X2 on the answer [{}]. *)
Lemma gemini_value_provenance_witness :
  exists r c cs s,
    GenerativeModel (world_answering "{}") = None /\
    generate_content (world_answering "{}")
                     (full_prompt "Extract." "<rdf/>" "Dowry case.") = inr r /\
    candidates r = c :: cs /\ parts c <> [] /\
    text r = inr s /\ json_loads (world_answering "{}") s = inr (PDict []).
Proof.
  apply (gemini_value_provenance (world_answering "{}") "Dowry case." "<rdf/>"
           "Extract." (PDict [])).
  - reflexivity.
  - discriminate.
Defined.

Lemma length_substring_0 (n : nat) : forall s : string,
  n <= String.length s -> String.length (substring 0 n s) = n.
Proof.
  induction n as [|n IH]; intros [|c s] H; cbn [substring]; try reflexivity.
  - change (S n <= 0) in H. lia.
  - change (S n <= S (String.length s)) in H.
    change (S (String.length (substring 0 n s)) = S n).
    rewrite IH by lia. reflexivity.
Qed.

(** The raw text that is logged is the text itself up to 1000
    characters, and its first 1000 characters followed by three dots
    beyond. *)
Lemma truncate_raw_length (s : string) :
  String.length (truncate_raw s) <= 1003 /\
  (String.length s <= 1000 -> truncate_raw s = s) /\
  (1000 < String.length s ->
   truncate_raw s = (substring 0 1000 s ++ "...")%string /\
   String.length (truncate_raw s) = 1003).
Proof.
  unfold truncate_raw, PyStr.take.
  destruct (1000 <? String.length s) eqn:H.
  - apply Nat.ltb_lt in H.
    assert (L : String.length (substring 0 1000 s ++ "...") = 1003).
    { rewrite length_append, length_substring_0 by lia. reflexivity. }
    rewrite L. repeat split; auto; lia.
  - apply Nat.ltb_ge in H. repeat split; try lia; auto.
Qed.

(** X3.  Whatever the model returns, the raw text that the LLM step
    prints after a failed parse has at most 1003 characters: it is the
    text of the response when that has at most 1000 characters, and
    otherwise its first 1000 characters followed by three dots. *)
Theorem raw_text_log_is_bounded (w : World) (document ontology template : string)
        (logged : string) :
  In (LogRawText logged)
     (printed (trace_of (extract_concepts_with_gemini w document ontology template))) ->
  String.length logged <= 1003 /\
  exists r s e,
    generate_content w (full_prompt template ontology document) = inr r /\
    text r = inr s /\ json_loads w s = inl e /\
    (String.length s <= 1000 -> logged = s) /\
    (1000 < String.length s -> logged = (substring 0 1000 s ++ "...")%string).
Proof.
  intros Hin.
  gemini_runs w document ontology template; rewrite E in Hin;
    try (destruct (exn_class e));
    try (destruct (prompt_feedback r) as [fb|];
         [destruct (block_reason fb =? 0)|]);
    cbn in Hin;
    repeat (destruct Hin as [Hin|Hin]; [try discriminate Hin|]);
    try (now destruct Hin);
    injection Hin as <-;
    (destruct (truncate_raw_length s) as (L & Hshort & Hlong);
     split; [exact L|]; exists r, s, e;
     repeat split; auto; intros H; apply Hlong; exact H).
Qed.

(** X4.  The line that gives the block reason is printed exactly when
    the model was called, its response has no candidates, and the
    response carries a prompt feedback whose block reason is set. *)
Theorem block_reason_is_logged (w : World) (document ontology template : string)
        (reason : nat) :
  In (LogBlockReason reason)
     (printed (trace_of (extract_concepts_with_gemini w document ontology template)))
  <->
  GenerativeModel w = None /\
  exists r fb,
    generate_content w (full_prompt template ontology document) = inr r /\
    candidates r = [] /\ prompt_feedback r = Some fb /\
    block_reason fb = reason /\ reason <> 0.
Proof.
  split.
  - intros Hin.
    gemini_runs w document ontology template; rewrite E in Hin;
      try (destruct (exn_class e));
      try (destruct (prompt_feedback r) as [fb|] eqn:Hfb;
           [destruct (block_reason fb =? 0) eqn:Hb|]);
      cbn in Hin;
      repeat (destruct Hin as [Hin|Hin]; [try discriminate Hin|]);
      try (now destruct Hin).
    injection Hin as <-. split; [exact Hm|]. exists r, fb.
    repeat split; auto. now apply Nat.eqb_neq.
  - intros (Hm & r & fb & Hg & Hc & Hfb & <- & Hne).
    gemini_runs w document ontology template; rewrite E; clear E;
      try congruence;
      rewrite Hg in *; try discriminate;
      match goal with H : inr _ = inr _ |- _ => injection H as <- end;
      try congruence.
    rewrite Hfb. apply Nat.eqb_neq in Hne. rewrite Hne. cbn. auto 10.
Qed.

(** ** The output writer *)

(** The four runs of [save_output]. *)
Lemma save_output_run_cases (w : World) (name : string) (data : pyvalue)
      (dir : string) :
  let path := PosixPath.join dir name in
  let run := save_output w name data dir in
  (exists e, makedirs w dir = Some e /\
     run = ([EvMakedirs dir], inl (mkExn UnboundLocalError "filepath"))) \/
  (exists e, makedirs w dir = None /\ open_write w path = Some e /\
     run = ([EvMakedirs dir; EvOpenWrite path;
             EvPrint (LogErrorSaving path e)], inr tt)) \/
  (exists e, makedirs w dir = None /\ open_write w path = None /\
     snd (json_dump w data) = Some e /\
     run = ([EvMakedirs dir; EvOpenWrite path; EvJsonDump path data;
             EvPrint (LogErrorSaving path e)], inr tt)) \/
  (makedirs w dir = None /\ open_write w path = None /\
   snd (json_dump w data) = None /\
   run = ([EvMakedirs dir; EvOpenWrite path; EvJsonDump path data;
           EvPrint (LogOutputSaved path)], inr tt)).
Proof.
  cbv zeta. unfold save_output, call, outcome.
  destruct (makedirs w dir) as [e|]; cbn.
  { left. exists e. auto. }
  right.
  destruct (open_write w (PosixPath.join dir name)) as [e|]; cbn.
  { left. exists e. auto. }
  right.
  destruct (snd (json_dump w data)) as [e|]; cbn.
  { left. exists e. auto. }
  right. auto.
Qed.

(** X5.  When the directory can be made, [save_output] returns
    whatever happens to the file, having printed exactly one line.  The
    line is "Output saved" exactly when the file could be opened and
    the dump went through; otherwise it is the error line with the path
    and the exception.  When the file cannot be opened nothing is
    dumped. *)
Theorem save_output_one_line (w : World) (name : string) (data : pyvalue)
        (dir : string) :
  makedirs w dir = None ->
  result_of (save_output w name data dir) = inr tt /\
  (exists line, printed (trace_of (save_output w name data dir)) = [line] /\
     (line = LogOutputSaved (PosixPath.join dir name) <->
      open_write w (PosixPath.join dir name) = None /\
      snd (json_dump w data) = None) /\
     (line <> LogOutputSaved (PosixPath.join dir name) ->
      exists e, line = LogErrorSaving (PosixPath.join dir name) e)) /\
  (open_write w (PosixPath.join dir name) <> None ->
   forall path v,
     ~ In (EvJsonDump path v) (trace_of (save_output w name data dir))).
Proof.
  intros Hd.
  pose proof (save_output_run_cases w name data dir) as H. cbv zeta in H.
  destruct H as [(e & Hd' & E)|[(e & _ & Ho & E)|[(e & _ & Ho & Hj & E)|(_ & Ho & Hj & E)]]];
    [congruence| | |]; rewrite E; cbn; (split; [reflexivity|]); split.
  - eexists. split; [reflexivity|]. split.
    + split; [discriminate|]. intros [Ho' _]. congruence.
    + intros _. eauto.
  - intros _ path v [H|[H|[H|[]]]]; discriminate.
  - eexists. split; [reflexivity|]. split.
    + split; [discriminate|]. intros [_ Hj']. congruence.
    + intros _. eauto.
  - intros Ho'. congruence.
  - eexists. split; [reflexivity|]. split.
    + split; auto.
    + intros Hne. now elim Hne.
  - intros Ho'. congruence.
Qed.

(** X5 where the disk is full. *)
Lemma save_output_one_line_witness :
  result_of (save_output (world_disk_full "{}") "Case_extraction.json"
                         (PDict []) OUTPUT_DIR) = inr tt /\
  printed (trace_of (save_output (world_disk_full "{}") "Case_extraction.json"
                                 (PDict []) OUTPUT_DIR))
  = [LogErrorSaving "output/Case_extraction.json" (mkExn OtherException "OSError")].
Proof.
  destruct (save_output_one_line (world_disk_full "{}") "Case_extraction.json"
              (PDict []) OUTPUT_DIR) as (Hr & _ & _).
  - reflexivity.
  - split; [exact Hr | reflexivity].
Defined.

(** ** The handler *)

(** [read_file] makes one call, and prints at most one line. *)
Lemma read_file_calls (w : World) (path : string) :
  calls_of (trace_of (read_file w path)) = [EvOpenRead path] /\
  output_writes (trace_of (read_file w path)) = [] /\
  result_of (read_file w path)
  = inr (match open_read w path with inr s => Some s | inl _ => None end).
Proof.
  unfold read_file, call. destruct (open_read w path) as [e|s]; cbn.
  - destruct (exn_class e); cbn; auto.
  - auto.
Qed.

(** The run of an accepted request whose configuration cannot be
    read. *)
Lemma handle_config_failure_run (w : World) (request : Request)
      (file : FileStorage) :
  accepted_upload request file ->
  (forall ontology template, ~ config_loaded w ontology template) ->
  handle_extraction w request =
    (EvPrint LogReceivedRequest :: EvPrint (LogReadingOntology ONTOLOGY_FILE) ::
     trace_of (read_file w ONTOLOGY_FILE) ++
     EvPrint (LogReadingPrompt PROMPT_FILE) ::
     trace_of (read_file w PROMPT_FILE) ++ [EvPrint LogConfigIssue],
     inr (mkHttp (error_body "Server configuration error reading ontology or prompt.") 500)).
Proof.
  intros (Hf & Hn & He) Hno.
  unfold handle_extraction. rewrite Hf.
  apply String.eqb_neq in Hn. rewrite Hn, He. cbn [negb].
  destruct (read_file_calls w ONTOLOGY_FILE) as (_ & _ & R1).
  destruct (read_file_calls w PROMPT_FILE) as (_ & _ & R2).
  unfold trace_of, result_of in *.
  destruct (read_file w ONTOLOGY_FILE) as [t1 r1].
  destruct (read_file w PROMPT_FILE) as [t2 r2].
  cbn [fst snd] in *. subst r1 r2.
  destruct (open_read w ONTOLOGY_FILE) as [e1|o] eqn:Ho;
    destruct (open_read w PROMPT_FILE) as [e2|p] eqn:Hp; cbn;
    try (now elim (Hno o p));
    rewrite <- ?app_assoc; reflexivity.
Qed.

(** The four kinds of run of [handle_extraction]. *)
Lemma handle_run_cases (w : World) (request : Request) :
  (turned_down request /\
   exists m msg,
     handle_extraction w request =
       ([EvPrint LogReceivedRequest; EvPrint m],
        inr (mkHttp (error_body msg) 400))) \/
  (exists file,
      accepted_upload request file /\
      (forall ontology template, ~ config_loaded w ontology template) /\
      handle_extraction w request =
        (EvPrint LogReceivedRequest :: EvPrint (LogReadingOntology ONTOLOGY_FILE) ::
         trace_of (read_file w ONTOLOGY_FILE) ++
         EvPrint (LogReadingPrompt PROMPT_FILE) ::
         trace_of (read_file w PROMPT_FILE) ++ [EvPrint LogConfigIssue],
         inr (mkHttp (error_body "Server configuration error reading ontology or prompt.") 500))) \/
  (exists file ontology template m,
      accepted_upload request file /\
      config_loaded w ontology template /\
      (forall texts, ~ well_formed_pdf w (content file) texts) /\
      handle_extraction w request =
        (before_extraction file ++
         [EvPdfReader (content file); EvPrint m; EvPrint LogExtractFailed],
         inr (mkHttp (error_body "Failed to extract text from the PDF file. It might be invalid, corrupted, or image-based.") 400))) \/
  (exists file ontology template texts tg v,
      accepted_upload request file /\
      config_loaded w ontology template /\
      well_formed_pdf w (content file) texts /\
      extract_concepts_with_gemini w (String.concat "" texts) ontology template
      = (tg, inr v) /\
      handle_extraction w request =
        (before_extraction file ++
         extraction_events file (String.concat "" texts) ++ tg ++
         (if is_not_None v
          then EvPrint LogSuccess ::
               trace_of (save_output w (output_name (filename file)) v OUTPUT_DIR)
          else [EvPrint LogFailed]),
         if is_not_None v
         then match result_of (save_output w (output_name (filename file)) v OUTPUT_DIR) with
              | inl e => inl e
              | inr _ => inr (mkHttp v 200)
              end
         else inr (mkHttp (error_body "Failed to extract information using the AI model.") 500))).
Proof.
  destruct (upload_dec request) as [[file Hacc]|Hbad].
  2:{ left. split; [exact Hbad|]. now apply handle_turned_down. }
  right.
  destruct (config_loaded_dec w) as [(ontology & template & Hcfg)|Hcfg].
  2:{ left. exists file. split; [exact Hacc|]. split; [exact Hcfg|].
      now apply handle_config_failure_run with (file := file). }
  right.
  destruct (pdf_well_formed_dec w (content file)) as [[texts Hwf]|Hwf].
  2:{ left.
      destruct (handle_pdf_failure w request file ontology template Hacc Hcfg Hwf)
        as (m & E).
      exists file, ontology, template, m.
      split; [exact Hacc|]. split; [exact Hcfg|]. split; [exact Hwf|]. exact E. }
  right.
  destruct (gemini_returns w (String.concat "" texts) ontology template)
    as (tg & v & Eg & _).
  exists file, ontology, template, texts, tg, v.
  split; [exact Hacc|]. split; [exact Hcfg|]. split; [exact Hwf|].
  split; [exact Eg|].
  now apply handle_llm_step with (ontology := ontology) (template := template).
Qed.

Lemma output_writes_extraction_events (file : FileStorage) (doc : string) :
  output_writes (extraction_events file doc) = [].
Proof.
  unfold extraction_events. cbn.
  destruct (String.eqb doc ""), (PyStr.strip_is_empty doc); reflexivity.
Qed.

(** X6.  Whenever the handler returns a response other than 200, the
    output writer was not called: no directory was made, no file was
    opened for writing, nothing was dumped, and the files are as they
    were. *)
Theorem error_response_writes_nothing (w : World) (request : Request)
        (resp : HttpResponse) :
  result_of (handle_extraction w request) = inr resp ->
  status resp <> 200%Z ->
  output_writes (trace_of (handle_extraction w request)) = [] /\
  forall fs, fs_after w fs (trace_of (handle_extraction w request)) = fs.
Proof.
  intros Hr Hs.
  assert (Hw : output_writes (trace_of (handle_extraction w request)) = []).
  { destruct (handle_run_cases w request)
      as [(_ & m & msg & E)
         |[(file & Hacc & Hcfg & E)
          |[(file & o & t & m & Hacc & Hcfg & Hwf & E)
           |(file & o & t & texts & tg & v & Hacc & Hcfg & Hwf & Eg & E)]]];
      rewrite E in Hr |- *; cbn [trace_of result_of fst snd] in *.
    - reflexivity.
    - destruct (read_file_calls w ONTOLOGY_FILE) as (_ & W1 & _).
      destruct (read_file_calls w PROMPT_FILE) as (_ & W2 & _).
      change (output_writes (trace_of (read_file w ONTOLOGY_FILE) ++
                EvPrint (LogReadingPrompt PROMPT_FILE) ::
                trace_of (read_file w PROMPT_FILE) ++ [EvPrint LogConfigIssue]) = []).
      rewrite output_writes_app, W1. cbn.
      change (output_writes (trace_of (read_file w PROMPT_FILE) ++ [EvPrint LogConfigIssue]) = []).
      rewrite output_writes_app, W2. reflexivity.
    - reflexivity.
    - destruct (gemini_returns w (String.concat "" texts) o t)
        as (tg' & v' & Eg' & _ & _ & Wg & _).
      rewrite Eg in Eg'. injection Eg' as <- <-.
      rewrite !output_writes_app, output_writes_extraction_events, Wg.
      destruct (is_not_None v); [|reflexivity].
      exfalso.
      destruct (result_of (save_output w (output_name (filename file)) v OUTPUT_DIR));
        [discriminate|].
      injection Hr as <-. now elim Hs. }
  split; [exact Hw|]. intros fs. now apply fs_after_no_writes.
Qed.

(** X6 on the corrupt upload. *)
Lemma error_response_writes_nothing_witness :
  output_writes (trace_of (handle_extraction (world_answering "{}") corrupt_upload)) = [] /\
  forall fs,
    fs_after (world_answering "{}") fs
             (trace_of (handle_extraction (world_answering "{}") corrupt_upload)) = fs.
Proof.
  apply (error_response_writes_nothing (world_answering "{}") corrupt_upload
           (mkHttp (error_body "Failed to extract text from the PDF file. It might be invalid, corrupted, or image-based.") 400)).
  - reflexivity.
  - discriminate.
Defined.

Lemma accepted_upload_unique (request : Request) (f1 f2 : FileStorage) :
  accepted_upload request f1 -> accepted_upload request f2 -> f1 = f2.
Proof. intros (H1 & _) (H2 & _). rewrite H1 in H2. now injection H2. Qed.

Lemma config_loaded_unique (w : World) (o1 t1 o2 t2 : string) :
  config_loaded w o1 t1 -> config_loaded w o2 t2 -> o1 = o2 /\ t1 = t2.
Proof.
  intros (Ho1 & Ht1) (Ho2 & Ht2). rewrite Ho1 in Ho2. rewrite Ht1 in Ht2.
  injection Ho2 as ->. injection Ht2 as ->. auto.
Qed.

Lemma well_formed_pdf_unique (w : World) (data : list byte) (l1 l2 : list string) :
  well_formed_pdf w data l1 -> well_formed_pdf w data l2 -> l1 = l2.
Proof.
  unfold well_formed_pdf. intros H1 H2. rewrite H1 in H2. injection H2 as H2.
  clear H1. revert l2 H2.
  induction l1 as [|a l1 IH]; intros [|b l2] H; try discriminate.
  - reflexivity.
  - cbn in H. injection H as -> H. f_equal. now apply IH.
Qed.

(** X7.  A 200 answer never carries [None], and its body is never made
    up by the service: it is the value that [json.loads] gave for the
    text of the model's response to the composed prompt.  Such a request
    read both configuration files, parsed the uploaded bytes once and
    called the model once. *)
Theorem ok_response_provenance (w : World) (request : Request) (v : pyvalue) :
  result_of (handle_extraction w request) = inr (mkHttp v 200) ->
  v <> PNone /\
  exists file ontology template texts r s,
    accepted_upload request file /\
    config_loaded w ontology template /\
    well_formed_pdf w (content file) texts /\
    generate_content w (composed_prompt template ontology (pages_text texts)) = inr r /\
    text r = inr s /\ json_loads w s = inr v /\
    config_reads (trace_of (handle_extraction w request)) = [ONTOLOGY_FILE; PROMPT_FILE] /\
    pdf_reads (trace_of (handle_extraction w request)) = [content file] /\
    llm_calls (trace_of (handle_extraction w request))
    = [composed_prompt template ontology (pages_text texts)].
Proof.
  intros Hr.
  destruct (handle_200_inv w request v Hr)
    as (file & ontology & template & texts & tg & Hacc & Hcfg & Hwf & Eg & Hv & Hd).
  assert (Hne : v <> PNone) by (intros ->; discriminate Hv).
  split; [exact Hne|].
  exists file, ontology, template, texts.
  rewrite (handle_llm_step w request file ontology template Hacc Hcfg texts tg v Hwf Eg).
  destruct (save_output_quiet w (output_name (filename file)) v OUTPUT_DIR)
    as (Ls & Rs & Ps).
  gemini_runs w (String.concat "" texts) ontology template;
    rewrite E in Eg; injection Eg as <- Hv'; try (now elim Hne).
  subst v0. rewrite full_prompt_composed, concat_no_separator in Hg |- *.
  exists r, s.
  split; [exact Hacc|]. split; [exact Hcfg|]. split; [exact Hwf|].
  split; [exact Hg|]. split; [exact Ht|]. split; [exact Hj|].
  unfold trace_of in *. cbn [fst]. rewrite Hv.
  rewrite !config_reads_app, !pdf_reads_app, !llm_calls_app.
  unfold extraction_events. cbn.
  rewrite Ls, Rs, Ps.
  destruct (String.eqb _ ""), (PyStr.strip_is_empty _); cbn; auto.
Qed.

(** X7 on the request that is served. *)
Lemma ok_response_provenance_witness :
  exists file ontology template texts r s,
    accepted_upload good_upload file /\
    config_loaded (world_answering "{}") ontology template /\
    well_formed_pdf (world_answering "{}") (content file) texts /\
    generate_content (world_answering "{}")
                     (composed_prompt template ontology (pages_text texts)) = inr r /\
    text r = inr s /\ json_loads (world_answering "{}") s = inr (PDict []) /\
    config_reads (trace_of (handle_extraction (world_answering "{}") good_upload))
    = [ONTOLOGY_FILE; PROMPT_FILE] /\
    pdf_reads (trace_of (handle_extraction (world_answering "{}") good_upload))
    = [content file] /\
    llm_calls (trace_of (handle_extraction (world_answering "{}") good_upload))
    = [composed_prompt template ontology (pages_text texts)].
Proof.
  apply (ok_response_provenance (world_answering "{}") good_upload (PDict [])).
  reflexivity.
Defined.

(** X8.  Whenever the whole pipeline has succeeded with a value other
    than [None] and the output directory cannot be made, the handler
    raises the [UnboundLocalError] of the output writer instead of
    answering: the model has been called, once, with the composed
    prompt, the success of the extraction has been printed, and nothing
    is written. *)
Theorem output_dir_failure_raises (w : World) (request : Request)
        (file : FileStorage) (ontology template : string) (texts : list string)
        (v : pyvalue) (e : Exn) :
  accepted_upload request file ->
  config_loaded w ontology template ->
  well_formed_pdf w (content file) texts ->
  result_of (extract_concepts_with_gemini w (String.concat "" texts) ontology template)
  = inr v ->
  v <> PNone ->
  makedirs w OUTPUT_DIR = Some e ->
  result_of (handle_extraction w request) = inl (mkExn UnboundLocalError "filepath") /\
  llm_calls (trace_of (handle_extraction w request))
  = [composed_prompt template ontology (pages_text texts)] /\
  In (EvPrint LogSuccess) (trace_of (handle_extraction w request)) /\
  output_writes (trace_of (handle_extraction w request)) = [EvMakedirs OUTPUT_DIR].
Proof.
  intros Hacc Hcfg Hwf Hg Hv Hd.
  destruct (extract_concepts_with_gemini w (String.concat "" texts) ontology template)
    as [tg rg] eqn:Eg.
  cbn in Hg. subst rg.
  rewrite (handle_llm_step w request file ontology template Hacc Hcfg texts tg v Hwf Eg).
  replace (is_not_None v) with true by (destruct v; auto; now elim Hv).
  rewrite (save_output_raises w _ _ _ e Hd).
  cbn [result_of trace_of fst snd].
  split; [reflexivity|].
  gemini_runs w (String.concat "" texts) ontology template;
    rewrite E in Eg; injection Eg as <- Hv'; try (now elim Hv).
  rewrite full_prompt_composed, concat_no_separator.
  split; [|split].
  - rewrite !llm_calls_app. unfold extraction_events. cbn.
    destruct (String.eqb _ ""), (PyStr.strip_is_empty _); reflexivity.
  - apply in_or_app. right. apply in_or_app. right. apply in_or_app. right.
    cbn. tauto.
  - rewrite !output_writes_app, output_writes_extraction_events. reflexivity.
Qed.

(** X8 on the request [good_upload], where [output] cannot be made a
    directory. *)
Lemma output_dir_failure_raises_witness :
  result_of (handle_extraction (world_no_output_dir "{}") good_upload)
  = inl (mkExn UnboundLocalError "filepath") /\
  llm_calls (trace_of (handle_extraction (world_no_output_dir "{}") good_upload))
  = [composed_prompt "Extract." "<rdf/>" (pages_text ["Dowry "; "case."])] /\
  In (EvPrint LogSuccess)
     (trace_of (handle_extraction (world_no_output_dir "{}") good_upload)) /\
  output_writes (trace_of (handle_extraction (world_no_output_dir "{}") good_upload))
  = [EvMakedirs OUTPUT_DIR].
Proof.
  apply (output_dir_failure_raises (world_no_output_dir "{}") good_upload good_file
           "<rdf/>" "Extract." ["Dowry "; "case."] (PDict [])
           (mkExn OtherException "FileExistsError")).
  - repeat split; discriminate.
  - split; reflexivity.
  - reflexivity.
  - reflexivity.
  - discriminate.
  - reflexivity.
Defined.

(** The answer to a request that is turned down carries one of the
    three messages of the validator. *)
Lemma turned_down_message (w : World) (request : Request) :
  turned_down request ->
  exists msg,
    result_of (handle_extraction w request) = inr (mkHttp (error_body msg) 400) /\
    (msg = "No file part in the request" \/ msg = "No selected file" \/
     msg = "Invalid file type. Please upload a PDF.").
Proof.
  intros [H|(file & H & Hbad)].
  - rewrite (handle_no_file w request H).
    eexists. split; [reflexivity|]. auto.
  - destruct (String.eqb_spec (filename file) "") as [Hn|Hn].
    + rewrite (handle_empty_filename w request file H Hn).
      eexists. split; [reflexivity|]. auto.
    + destruct Hbad as [Hn'|He]; [contradiction|].
      rewrite (handle_wrong_type w request file H Hn He).
      eexists. split; [reflexivity|]. auto.
Qed.

(** The five outcomes of a request that passed the validator. *)
Lemma accepted_result_cases (w : World) (request : Request) (file : FileStorage) :
  accepted_upload request file ->
  ((forall ontology template, ~ config_loaded w ontology template) /\
   result_of (handle_extraction w request) =
     inr (mkHttp (error_body "Server configuration error reading ontology or prompt.") 500)) \/
  (exists ontology template,
      config_loaded w ontology template /\
      (((forall texts, ~ well_formed_pdf w (content file) texts) /\
        result_of (handle_extraction w request) =
          inr (mkHttp (error_body "Failed to extract text from the PDF file. It might be invalid, corrupted, or image-based.") 400)) \/
       (exists texts v,
           well_formed_pdf w (content file) texts /\
           result_of (extract_concepts_with_gemini w (String.concat "" texts)
                                                   ontology template) = inr v /\
           ((v = PNone /\
             result_of (handle_extraction w request) =
               inr (mkHttp (error_body "Failed to extract information using the AI model.") 500)) \/
            (v <> PNone /\
             (result_of (handle_extraction w request) = inr (mkHttp v 200) \/
              exists e, result_of (handle_extraction w request) = inl e)))))).
Proof.
  intros Hacc.
  destruct (handle_run_cases w request)
    as [(Hbad & _)
       |[(file' & Hacc' & Hcfg & E)
        |[(file' & o & t & m & Hacc' & Hcfg & Hwf & E)
         |(file' & o & t & texts & tg & v & Hacc' & Hcfg & Hwf & Eg & E)]]].
  - now elim (accepted_not_turned_down request file Hacc).
  - left. rewrite E. auto.
  - right. exists o, t. split; [exact Hcfg|]. left.
    rewrite (accepted_upload_unique request file file' Hacc Hacc'), E. auto.
  - right. exists o, t. split; [exact Hcfg|]. right.
    rewrite (accepted_upload_unique request file file' Hacc Hacc').
    exists texts, v. split; [exact Hwf|]. rewrite Eg, E.
    split; [reflexivity|]. cbn [result_of snd].
    destruct v; cbn [is_not_None];
      try (right; split; [discriminate|];
           match goal with
           | |- context [save_output ?w ?n ?v ?d] =>
               destruct (result_of (save_output w n v d));
               [right; eauto | left; reflexivity]
           end).
    left. auto.
Qed.

(** X9.  The message of a 400 answer of the validator names the test
    that failed: there is no file part; or the file part has an empty
    name (which is reported as such, not as a wrong type); or its name
    is not empty and its extension, whatever its case, is not [.pdf]. *)
Theorem validator_messages (w : World) (request : Request) :
  (result_of (handle_extraction w request) =
     inr (mkHttp (error_body "No file part in the request") 400)
   <-> files_get "file" (files request) = None) /\
  (result_of (handle_extraction w request) =
     inr (mkHttp (error_body "No selected file") 400)
   <-> exists file, files_get "file" (files request) = Some file /\
                    filename file = "") /\
  (result_of (handle_extraction w request) =
     inr (mkHttp (error_body "Invalid file type. Please upload a PDF.") 400)
   <-> exists file, files_get "file" (files request) = Some file /\
                    filename file <> "" /\
                    PyStr.lower (extension (filename file)) <> ".pdf").
Proof.
  assert (Hacc : forall file, accepted_upload request file ->
            forall msg,
              msg = "No file part in the request" \/ msg = "No selected file" \/
              msg = "Invalid file type. Please upload a PDF." ->
              result_of (handle_extraction w request)
              <> inr (mkHttp (error_body msg) 400)).
  { intros file Ha msg Hmsg Hr. unfold error_body in *.
    destruct (accepted_result_cases w request file Ha)
      as [(_ & E)|(o & t & _ & [(_ & E)|(texts & v & _ & _ & [(_ & E)|(_ & [E|(e & E)])])])];
      unfold error_body in E; rewrite E in Hr;
      destruct Hmsg as [-> | [-> | ->]]; discriminate Hr. }
  destruct (files_get "file" (files request)) as [file|] eqn:Hf.
  2:{ rewrite (handle_no_file w request Hf). unfold error_body. cbn.
      split; [split; auto|]. split; split.
      - discriminate.
      - intros (file & H & _). discriminate.
      - discriminate.
      - intros (file & H & _). discriminate. }
  destruct (String.eqb_spec (filename file) "") as [Hn|Hn].
  { rewrite (handle_empty_filename w request file Hf Hn). unfold error_body. cbn.
    split; [split; discriminate|]. split; split.
    - intros _. exists file. auto.
    - reflexivity.
    - discriminate.
    - intros (f & H & Hne & _). injection H as <-. contradiction. }
  destruct (PyStr.endswith (PyStr.lower (filename file)) ".pdf") eqn:He.
  - assert (Ha : accepted_upload request file) by (repeat split; auto).
    assert (Hext := proj1 (PyStrFacts.endswith_pdf_extension (filename file)) He).
    split; [split|split; split].
    + intros Hr. exfalso. apply (Hacc file Ha _ (or_introl eq_refl) Hr).
    + discriminate.
    + intros Hr. exfalso.
      apply (Hacc file Ha _ (or_intror (or_introl eq_refl)) Hr).
    + intros (f & H & Hempty). injection H as <-. contradiction.
    + intros Hr. exfalso.
      apply (Hacc file Ha _ (or_intror (or_intror eq_refl)) Hr).
    + intros (f & H & _ & Hx). injection H as <-. contradiction.
  - rewrite (handle_wrong_type w request file Hf Hn He). unfold error_body. cbn.
    split; [split; discriminate|]. split; split.
    + discriminate.
    + intros (f & H & Hempty). injection H as <-. contradiction.
    + intros _. exists file. repeat split; auto.
      intros Hx. apply PyStrFacts.endswith_pdf_extension in Hx. congruence.
    + reflexivity.
Qed.

(** X10.  The message of an error answer of the pipeline names the step
    that failed.  The configuration error (500) is given exactly when
    the upload passed the validator and a configuration file could not
    be read; the PDF error (400) exactly when moreover the
    configuration was read and the bytes are not a well-formed PDF; the
    model error (500) exactly when moreover the PDF gave its text and
    the LLM step returned [None]. *)
Theorem pipeline_messages (w : World) (request : Request) :
  (result_of (handle_extraction w request) =
     inr (mkHttp (error_body "Server configuration error reading ontology or prompt.") 500)
   <-> exists file,
         accepted_upload request file /\
         forall ontology template, ~ config_loaded w ontology template) /\
  (result_of (handle_extraction w request) =
     inr (mkHttp (error_body "Failed to extract text from the PDF file. It might be invalid, corrupted, or image-based.") 400)
   <-> exists file ontology template,
         accepted_upload request file /\
         config_loaded w ontology template /\
         forall texts, ~ well_formed_pdf w (content file) texts) /\
  (result_of (handle_extraction w request) =
     inr (mkHttp (error_body "Failed to extract information using the AI model.") 500)
   <-> exists file ontology template texts,
         accepted_upload request file /\
         config_loaded w ontology template /\
         well_formed_pdf w (content file) texts /\
         result_of (extract_concepts_with_gemini w (String.concat "" texts)
                                                 ontology template) = inr PNone).
Proof.
  destruct (upload_dec request) as [[file Ha]|Hbad].
  2:{ destruct (turned_down_message w request Hbad) as (msg & E & Hmsg).
      rewrite E. unfold error_body.
      split; [|split]; split;
        try (intros H; exfalso; destruct Hmsg as [-> | [-> | ->]];
             discriminate H).
      - intros (f & H & _).
        now elim (accepted_not_turned_down request f H Hbad).
      - intros (f & ? & ? & H & _).
        now elim (accepted_not_turned_down request f H Hbad).
      - intros (f & ? & ? & ? & H & _).
        now elim (accepted_not_turned_down request f H Hbad). }
  destruct (accepted_result_cases w request file Ha)
    as [(Hcfg & E)
       |(o & t & Hcfg & [(Hwf & E)
                        |(texts & v & Hwf & Eg & [(-> & E)|(Hv & [E|(e & E)])])])];
    rewrite E; unfold error_body;
    (split; [|split]); split; try discriminate; try reflexivity;
    try (intros _; eauto 10; fail);
    intros H.
  - destruct H as (f & o & t & _ & Hc & _). now elim (Hcfg o t).
  - destruct H as (f & o & t & texts & _ & Hc & _). now elim (Hcfg o t).
  - destruct H as (f & _ & Hno). now elim (Hno o t).
  - destruct H as (f & o' & t' & texts & Ha' & _ & Hw & _).
    rewrite (accepted_upload_unique request f file Ha' Ha) in Hw.
    now elim (Hwf texts).
  - destruct H as (f & _ & Hno). now elim (Hno o t).
  - destruct H as (f & o' & t' & Ha' & _ & Hno).
    rewrite (accepted_upload_unique request f file Ha' Ha) in Hno.
    now elim (Hno texts).
  - destruct H as (f & _ & Hno). now elim (Hno o t).
  - destruct H as (f & o' & t' & Ha' & _ & Hno).
    rewrite (accepted_upload_unique request f file Ha' Ha) in Hno.
    now elim (Hno texts).
  - destruct H as (f & o' & t' & texts' & Ha' & Hc' & Hw' & Hg').
    rewrite (accepted_upload_unique request f file Ha' Ha) in Hw'.
    destruct (config_loaded_unique w o' t' o t Hc' Hcfg) as [-> ->].
    rewrite (well_formed_pdf_unique w _ texts' texts Hw' Hwf) in Hg'.
    rewrite Eg in Hg'. injection Hg' as ->. now elim Hv.
  - destruct H as (f & _ & Hno). now elim (Hno o t).
  - destruct H as (f & o' & t' & Ha' & _ & Hno).
    rewrite (accepted_upload_unique request f file Ha' Ha) in Hno.
    now elim (Hno texts).
  - destruct H as (f & o' & t' & texts' & Ha' & Hc' & Hw' & Hg').
    rewrite (accepted_upload_unique request f file Ha' Ha) in Hw'.
    destruct (config_loaded_unique w o' t' o t Hc' Hcfg) as [-> ->].
    rewrite (well_formed_pdf_unique w _ texts' texts Hw' Hwf) in Hg'.
    rewrite Eg in Hg'. injection Hg' as ->. now elim Hv.
Qed.

Lemma calls_of_app (t1 t2 : list Event) :
  calls_of (t1 ++ t2) = calls_of t1 ++ calls_of t2.
Proof. apply filter_app. Qed.

Lemma calls_of_extraction_events (file : FileStorage) (doc : string) :
  calls_of (extraction_events file doc) = [EvPdfReader (content file)].
Proof.
  unfold extraction_events. cbn.
  destruct (String.eqb doc ""), (PyStr.strip_is_empty doc); reflexivity.
Qed.

(** X11.  The steps of a request always run in the same order and each
    at most once.  A request that is turned down calls nothing.  The
    calls of any other request are the first [n] calls, for some [n]
    from 2 to 8, of: read the ontology, read the prompt, open the PDF,
    set the model up, call the model, make the output directory, open
    the output file, dump the value.  Both configuration files are
    always read, also when the first cannot be. *)
Theorem pipeline_call_order (w : World) (request : Request) :
  (turned_down request ->
   calls_of (trace_of (handle_extraction w request)) = []) /\
  (forall file,
      accepted_upload request file ->
      exists prompt v n,
        2 <= n <= 8 /\
        calls_of (trace_of (handle_extraction w request))
        = firstn n (pipeline_calls file prompt v)).
Proof.
  split.
  { intros Hbad. destruct (handle_turned_down w request Hbad) as (m & msg & ->).
    reflexivity. }
  intros file Ha.
  destruct (handle_run_cases w request)
    as [(Hbad & _)
       |[(file' & Ha' & Hcfg & E)
        |[(file' & o & t & m & Ha' & Hcfg & Hwf & E)
         |(file' & o & t & texts & tg & v & Ha' & Hcfg & Hwf & Eg & E)]]];
    [now elim (accepted_not_turned_down request file Ha)
    |pose proof (accepted_upload_unique request file' file Ha' Ha) as Heq;
     subst file' ..];
    rewrite E; cbn [trace_of fst].
  - exists "", PNone, 2. split; [lia|].
    destruct (read_file_calls w ONTOLOGY_FILE) as (C1 & _).
    destruct (read_file_calls w PROMPT_FILE) as (C2 & _).
    change (calls_of (trace_of (read_file w ONTOLOGY_FILE) ++
              EvPrint (LogReadingPrompt PROMPT_FILE) ::
              trace_of (read_file w PROMPT_FILE) ++ [EvPrint LogConfigIssue])
            = [EvOpenRead ONTOLOGY_FILE; EvOpenRead PROMPT_FILE]).
    rewrite calls_of_app, C1. cbn [app]. f_equal.
    change (calls_of (trace_of (read_file w PROMPT_FILE) ++ [EvPrint LogConfigIssue])
            = [EvOpenRead PROMPT_FILE]).
    rewrite calls_of_app, C2. reflexivity.
  - exists "", PNone, 3. split; [lia | reflexivity].
  - rewrite !calls_of_app, calls_of_extraction_events.
    change (calls_of (before_extraction file))
      with [EvOpenRead ONTOLOGY_FILE; EvOpenRead PROMPT_FILE].
    set (prompt := full_prompt t o (String.concat "" texts)).
    pose proof (save_output_run_cases w (output_name (filename file)) v OUTPUT_DIR) as Hs.
    cbv zeta in Hs. fold (output_path (filename file)) in Hs.
    gemini_runs w (String.concat "" texts) o t; fold prompt in E0;
      rewrite E0 in Eg; injection Eg as <- <-; cbn [is_not_None];
      try (exists prompt, PNone, 4; split; [lia | reflexivity]);
      try (exists prompt, PNone, 5; split; [lia | reflexivity]).
    destruct (is_not_None v0);
      [|exists prompt, PNone, 5; split; [lia | reflexivity]].
    destruct Hs as [(e' & _ & Es)|[(e' & _ & _ & Es)|[(e' & _ & _ & _ & Es)|(_ & _ & _ & Es)]]];
      rewrite Es; cbn [trace_of fst]; exists prompt, v0;
      [ exists 6 | exists 7 | exists 8 | exists 8 ];
      (split; [lia | reflexivity]).
Qed.

(** X11 on the request that is served, and on one whose configuration
    is missing. *)
Lemma pipeline_call_order_witness :
  (exists prompt v n,
      2 <= n <= 8 /\
      calls_of (trace_of (handle_extraction (world_answering "{}") good_upload))
      = firstn n (pipeline_calls good_file prompt v)) /\
  (exists prompt v n,
      2 <= n <= 8 /\
      calls_of (trace_of (handle_extraction (world_no_config "{}") good_upload))
      = firstn n (pipeline_calls good_file prompt v)).
Proof.
  split.
  - apply (proj2 (pipeline_call_order (world_answering "{}") good_upload) good_file).
    repeat split; discriminate.
  - apply (proj2 (pipeline_call_order (world_no_config "{}") good_upload) good_file).
    repeat split; discriminate.
Defined.

(** ** The text extractor *)

Lemma pages_with_failure_not_texts (before : list string) (e : Exn)
      (rest : list (Exn + string)) :
  forall texts, map inr before ++ inl e :: rest <> map inr texts.
Proof.
  induction before as [|b before IH]; intros [|t texts] H; try discriminate.
  cbn in H. injection H as _ H. now apply (IH texts).
Qed.

(** X12.  When a page cannot be read, the text already collected from
    the pages before it is dropped: the extractor returns [None], as
    for a file that is no PDF at all, after printing one line. *)
Theorem page_failure_discards_text (w : World) (data : list byte)
        (before : list string) (e : Exn) (rest : list (Exn + string)) :
  PdfReader w data = inr (map inr before ++ inl e :: rest) ->
  result_of (extract_text_from_pdf w data) = inr None /\
  printed (trace_of (extract_text_from_pdf w data))
  = [match exn_class e with
     | PdfReadError => LogInvalidPdf
     | _ => LogErrorExtracting e
     end] /\
  forall texts, ~ well_formed_pdf w data texts.
Proof.
  intros H.
  assert (Hrun : forall acc,
             extract_pages (map inr before ++ inl e :: rest) acc = ([], inl e)).
  { clear H. induction before as [|b before IH]; intros acc; cbn.
    - reflexivity.
    - rewrite IH. reflexivity. }
  unfold extract_text_from_pdf, call. rewrite H. cbn. rewrite Hrun. cbn.
  split; [|split].
  - destruct (exn_class e); reflexivity.
  - destruct (exn_class e); reflexivity.
  - intros texts Hw. unfold well_formed_pdf in Hw. rewrite H in Hw.
    injection Hw as Hw. now apply (pages_with_failure_not_texts before e rest texts).
Qed.

(** X12 on a PDF whose second page cannot be read. *)
Lemma page_failure_discards_text_witness :
  result_of (extract_text_from_pdf world_bad_second_page pdf_magic) = inr None /\
  result_of (handle_extraction world_bad_second_page good_upload) =
    inr (mkHttp (error_body "Failed to extract text from the PDF file. It might be invalid, corrupted, or image-based.") 400).
Proof.
  destruct (page_failure_discards_text world_bad_second_page pdf_magic
              ["Dowry "] (mkExn OtherException "KeyError") [inr "case."])
    as (Hr & _ & _).
  - reflexivity.
  - split; [exact Hr | reflexivity].
Defined.

(** ** The name and the place of the output file *)

(** Every file that a request opens for writing is the output file of
    the upload. *)
Lemma opened_for_writing (w : World) (request : Request) (file : FileStorage)
      (path : string) :
  files_get "file" (files request) = Some file ->
  In (EvOpenWrite path) (trace_of (handle_extraction w request)) ->
  path = output_path (filename file).
Proof.
  intros Hf Hin.
  destruct (handle_run_cases w request)
    as [(_ & m & msg & E)
       |[(file' & Ha & Hcfg & E)
        |[(file' & o & t & m & Ha & Hcfg & Hwf & E)
         |(file' & o & t & texts & tg & v & Ha & Hcfg & Hwf & Eg & E)]]];
    rewrite E in Hin; cbn [trace_of fst] in Hin.
  - repeat (destruct Hin as [Hin|Hin]; [discriminate|]). destruct Hin.
  - exfalso. revert Hin. apply not_in_output_writes; [|reflexivity].
    destruct (read_file_calls w ONTOLOGY_FILE) as (_ & W1 & _).
    destruct (read_file_calls w PROMPT_FILE) as (_ & W2 & _).
    change (output_writes (trace_of (read_file w ONTOLOGY_FILE) ++
              EvPrint (LogReadingPrompt PROMPT_FILE) ::
              trace_of (read_file w PROMPT_FILE) ++ [EvPrint LogConfigIssue]) = []).
    rewrite output_writes_app, W1. cbn.
    change (output_writes (trace_of (read_file w PROMPT_FILE) ++ [EvPrint LogConfigIssue]) = []).
    rewrite output_writes_app, W2. reflexivity.
  - cbn in Hin. repeat (destruct Hin as [Hin|Hin]; [discriminate|]). destruct Hin.
  - assert (file' = file) as ->.
    { destruct Ha as (Hf' & _). rewrite Hf in Hf'. now injection Hf'. }
    destruct (gemini_returns w (String.concat "" texts) o t)
      as (tg' & v' & Eg' & _ & _ & Wg & _).
    rewrite Eg in Eg'. injection Eg' as <- <-.
    apply in_app_or in Hin. destruct Hin as [Hin|Hin].
    { cbn in Hin. repeat (destruct Hin as [Hin|Hin]; [discriminate|]). destruct Hin. }
    apply in_app_or in Hin. destruct Hin as [Hin|Hin].
    { exfalso. revert Hin. apply not_in_output_writes; [|reflexivity].
      apply output_writes_extraction_events. }
    apply in_app_or in Hin. destruct Hin as [Hin|Hin].
    { exfalso. revert Hin. now apply not_in_output_writes. }
    destruct (is_not_None v); [|destruct Hin as [Hin|[]]; discriminate].
    destruct Hin as [Hin|Hin]; [discriminate|].
    pose proof (save_output_run_cases w (output_name (filename file)) v OUTPUT_DIR) as Hs.
    cbv zeta in Hs. fold (output_path (filename file)) in Hs.
    destruct Hs as [(e' & _ & Es)|[(e' & _ & _ & Es)|[(e' & _ & _ & _ & Es)|(_ & _ & _ & Es)]]];
      rewrite Es in Hin; cbn in Hin;
      repeat (destruct Hin as [Hin|Hin]; [try discriminate Hin|]);
      try (now destruct Hin); now injection Hin.
Qed.

(** X13.  The output file is looked for under [output] only when the
    uploaded file name is relative.  Every file that a request opens
    for writing has the path [output/<stem>_extraction.json] when the
    uploaded name does not start with [/]; when it does, the path is
    [<stem>_extraction.json] itself, an absolute path outside the
    output directory. *)
Theorem output_file_location (w : World) (request : Request) (file : FileStorage)
        (path : string) :
  files_get "file" (files request) = Some file ->
  In (EvOpenWrite path) (trace_of (handle_extraction w request)) ->
  path = ((if PyStr.startswith (filename file) "/" then "" else "output/") ++
          fst (PosixPath.splitext (filename file)) ++ "_extraction.json")%string /\
  PyStr.startswith path "/" = PyStr.startswith (filename file) "/".
Proof.
  intros Hf Hin.
  rewrite (opened_for_writing w request file path Hf Hin).
  unfold output_path.
  destruct (PyStr.startswith (filename file) "/") eqn:Habs.
  - pose proof (output_name_absolute _ Habs) as Ho.
    unfold PosixPath.join. rewrite Ho. auto.
  - pose proof (output_name_relative _ Habs) as Ho.
    rewrite (join_output_dir _ Ho). auto.
Qed.

(** X13 on an upload named [/tmp/x.pdf]. *)
Lemma output_file_location_witness :
  "/tmp/x_extraction.json" =
    ((if PyStr.startswith "/tmp/x.pdf" "/" then "" else "output/") ++
     fst (PosixPath.splitext "/tmp/x.pdf") ++ "_extraction.json")%string /\
  PyStr.startswith "/tmp/x_extraction.json" "/" = PyStr.startswith "/tmp/x.pdf" "/".
Proof.
  apply (output_file_location (world_answering "{}") (upload "/tmp/x.pdf" pdf_magic)
           (mkFile "/tmp/x.pdf" pdf_magic) "/tmp/x_extraction.json").
  - reflexivity.
  - vm_compute. do 16 right. left. reflexivity.
Defined.

(** The stem of an accepted file name. *)

Lemma lower_cons (c : ascii) (s : string) :
  PyStr.lower (String c s) = String (PyStr.lower_char c) (PyStr.lower s).
Proof. reflexivity. Qed.

Lemma length_cons (c : ascii) (s : string) :
  String.length (String c s) = S (String.length s).
Proof. reflexivity. Qed.

(** A character that lower-cases to [p], [d] or [f] is neither a dot
    nor a slash. *)
Lemma lower_char_letter (c : ascii) :
  PyStr.lower_char c = "p"%char \/ PyStr.lower_char c = "d"%char \/
  PyStr.lower_char c = "f"%char ->
  Ascii.eqb c "."%char = false /\ Ascii.eqb c "/"%char = false.
Proof.
  destruct c as [[] [] [] [] [] [] [] []]; vm_compute;
    intros [H|[H|H]]; try discriminate H; auto.
Qed.

Lemma lower_char_is_dot (c : ascii) :
  PyStr.lower_char c = "."%char -> c = "."%char.
Proof.
  destruct c as [[] [] [] [] [] [] [] []]; vm_compute;
    intros H; try discriminate H; reflexivity.
Qed.

(** The shape of an extension that is [.pdf] up to case. *)
Lemma pdf_extension_shape (ext : string) :
  PyStr.lower ext = ".pdf" ->
  exists c1 c2 c3,
    ext = String "."%char (String c1 (String c2 (String c3 EmptyString))) /\
    (Ascii.eqb c1 "."%char = false /\ Ascii.eqb c1 "/"%char = false) /\
    (Ascii.eqb c2 "."%char = false /\ Ascii.eqb c2 "/"%char = false) /\
    (Ascii.eqb c3 "."%char = false /\ Ascii.eqb c3 "/"%char = false).
Proof.
  destruct ext as [|c0 [|c1 [|c2 [|c3 [|c4 ext]]]]]; try discriminate.
  rewrite !lower_cons. intros H. injection H as H0 H1 H2 H3.
  apply lower_char_is_dot in H0. subst c0.
  exists c1, c2, c3. split; [reflexivity|].
  split; [|split]; apply lower_char_letter; auto.
Qed.

Lemma rfind_from_append (c : ascii) (a b : string) : forall i found,
  PyStr.rfind_from c (a ++ b) i found =
  PyStr.rfind_from c b (i + Z.of_nat (String.length a))
                   (PyStr.rfind_from c a i found).
Proof.
  induction a as [|d a IH]; intros i found; cbn [String.append PyStr.rfind_from].
  - change (String.length "") with 0. now rewrite Z.add_0_r.
  - rewrite IH, length_cons. f_equal. lia.
Qed.

Lemma rfind_from_upper_bound (c : ascii) (s : string) : forall i found,
  (found < i)%Z ->
  (PyStr.rfind_from c s i found < i + Z.of_nat (String.length s))%Z.
Proof.
  induction s as [|d s IH]; intros i found H; cbn [PyStr.rfind_from].
  - change (String.length "") with 0. lia.
  - rewrite length_cons.
    specialize (IH (i + 1)%Z (if Ascii.eqb d c then i else found)).
    destruct (Ascii.eqb d c); lia.
Qed.

(** In [stem ++ ext], the last dot is the dot of [ext] and the last
    slash is the last slash of [stem]. *)
Lemma rfind_pdf_name (stem ext : string) :
  PyStr.lower ext = ".pdf" ->
  PyStr.rfind "."%char (stem ++ ext) = Z.of_nat (String.length stem) /\
  PyStr.rfind "/"%char (stem ++ ext) = PyStr.rfind "/"%char stem.
Proof.
  intros H.
  destruct (pdf_extension_shape ext H)
    as (c1 & c2 & c3 & -> & (D1 & S1) & (D2 & S2) & (D3 & S3)).
  unfold PyStr.rfind. rewrite !rfind_from_append.
  cbn [PyStr.rfind_from]. rewrite D1, D2, D3, S1, S2, S3. cbn. auto.
Qed.

Lemma substring_0_append (a b : string) :
  substring 0 (String.length a) (a ++ b) = a.
Proof.
  induction a as [|c a IH]; [now destruct b|].
  rewrite length_cons. cbn [String.append substring]. now rewrite IH.
Qed.

Lemma drop_length_append (a b : string) :
  PyStr.drop (String.length a) (a ++ b) = b.
Proof.
  induction a as [|c a IH]; [reflexivity|].
  rewrite length_cons. cbn [String.append PyStr.drop]. exact IH.
Qed.

(** The loop of [splitext] cuts the name at the dot unless what lies
    between the last slash and the dot is nothing but dots. *)
Lemma splitext_loop_only_dots (a b : string) : forall skipped rest,
  a = (skipped ++ rest)%string ->
  PosixPath.splitext_loop (a ++ b) (String.length a) (String.length skipped)
                          (String.length rest)
  = if only_dots rest then ((a ++ b)%string, "") else (a, b).
Proof.
  intros skipped rest. revert skipped.
  induction rest as [|c rest IH]; intros skipped Ha.
  - reflexivity.
  - rewrite length_cons. cbn [PosixPath.splitext_loop only_dots].
    assert (Hc : substring (String.length skipped) 1 (a ++ b) = String c "").
    { rewrite Ha, append_assoc, substring_skip. cbn [String.append substring].
      now destruct (rest ++ b)%string. }
    rewrite Hc.
    assert (He : String.eqb (String c "") "." = Ascii.eqb c "."%char).
    { unfold String.eqb. destruct (Ascii.eqb c "."%char); reflexivity. }
    rewrite He.
    destruct (Ascii.eqb c "."%char); cbn [negb andb].
    + specialize (IH (skipped ++ String c "")%string).
      rewrite length_append in IH. change (String.length (String c "")) with 1 in IH.
      rewrite Nat.add_1_r in IH. apply IH.
      rewrite Ha, append_assoc. reflexivity.
    + unfold PyStr.take. now rewrite substring_0_append, drop_length_append.
Qed.

(** A string is what comes before index [n] and what [drop] leaves. *)
Lemma take_drop (n : nat) : forall s : string,
  n <= String.length s ->
  s = (substring 0 n s ++ PyStr.drop n s)%string /\
  String.length (substring 0 n s) = n.
Proof.
  induction n as [|n IH]; intros s Hn.
  - split; [now destruct s | now destruct s].
  - destruct s as [|c s]; [change (S n <= 0) in Hn; lia|].
    rewrite length_cons in Hn.
    destruct (IH s) as [H1 H2]; [lia|].
    cbn [substring PyStr.drop String.append]. rewrite length_cons, H2.
    split; [now rewrite <- H1 | reflexivity].
Qed.

(** [splitext] on a name that ends in [.pdf], whatever the case. *)
Lemma splitext_pdf_name (stem ext : string) :
  PyStr.lower ext = ".pdf" ->
  PosixPath.splitext (stem ++ ext)
  = if only_dots (last_component stem) then ((stem ++ ext)%string, "")
    else (stem, ext).
Proof.
  intros H. unfold PosixPath.splitext, last_component.
  destruct (rfind_pdf_name stem ext H) as [-> ->].
  pose proof (PyStrFacts.rfind_lower_bound "/"%char stem) as Hlo.
  pose proof (rfind_from_upper_bound "/"%char stem 0 (-1) ltac:(lia)) as Hhi.
  fold (PyStr.rfind "/"%char stem) in Hhi.
  set (sep := PyStr.rfind "/"%char stem) in *.
  replace (sep <? Z.of_nat (String.length stem))%Z with true
    by (symmetry; apply Z.ltb_lt; lia).
  destruct (take_drop (Z.to_nat (sep + 1)) stem) as [Hsplit Hlen]; [lia|].
  rewrite Nat2Z.id.
  replace (Z.to_nat (sep + 1))
    with (String.length (substring 0 (Z.to_nat (sep + 1)) stem)) at 1
    by exact Hlen.
  replace (Z.to_nat (Z.of_nat (String.length stem) - (sep + 1)))
    with (String.length (PyStr.drop (Z.to_nat (sep + 1)) stem)).
  - now apply splitext_loop_only_dots.
  - assert (L : String.length stem
                = String.length (substring 0 (Z.to_nat (sep + 1)) stem)
                  + String.length (PyStr.drop (Z.to_nat (sep + 1)) stem)).
    { rewrite Hsplit at 1. apply length_append. }
    lia.
Qed.

Lemma lower_append_inv (a b : string) : forall s,
  PyStr.lower s = (a ++ b)%string ->
  exists s1 s2, s = (s1 ++ s2)%string /\ PyStr.lower s1 = a /\ PyStr.lower s2 = b.
Proof.
  induction a as [|c a IH]; intros s H.
  - exists "", s. auto.
  - destruct s as [|d s]; [discriminate|].
    rewrite lower_cons in H. cbn [String.append] in H. injection H as Hc H.
    destruct (IH s H) as (s1 & s2 & -> & H1 & H2).
    exists (String d s1), s2. rewrite lower_cons, Hc, H1. auto.
Qed.

(** X14.  The output file of an accepted upload is named after the
    upload without its [.pdf]: the name is [stem ++ ext] with [ext]
    equal to [.pdf] up to case, and the output name is
    [stem ++ "_extraction.json"].  The one exception is a name whose
    last path component is nothing but dots before the [.pdf] (such as
    [.pdf] itself): [os.path.splitext] sees no extension there and the
    whole name is kept. *)
Theorem output_name_of_accepted (name : string) :
  PyStr.endswith (PyStr.lower name) ".pdf" = true ->
  exists stem ext,
    name = (stem ++ ext)%string /\ PyStr.lower ext = ".pdf" /\
    output_name name
    = ((if only_dots (last_component stem) then name else stem)
       ++ "_extraction.json")%string.
Proof.
  intros H. apply PyStrFacts.endswith_inv in H. destruct H as [p H].
  destruct (lower_append_inv p ".pdf" name H) as (stem & ext & -> & _ & Hext).
  exists stem, ext. split; [reflexivity|]. split; [exact Hext|].
  unfold output_name. rewrite (splitext_pdf_name stem ext Hext).
  destruct (only_dots (last_component stem)); reflexivity.
Qed.

(** X14 on [Case.PDF], on a name in a directory with a dot, and on
    [.pdf]. *)
Lemma output_name_of_accepted_witness :
  (exists stem ext,
      "Case.PDF" = (stem ++ ext)%string /\ PyStr.lower ext = ".pdf" /\
      output_name "Case.PDF"
      = ((if only_dots (last_component stem) then "Case.PDF" else stem)
         ++ "_extraction.json")%string) /\
  output_name "Case.PDF" = "Case_extraction.json" /\
  output_name "v1.2/scan.Pdf" = "v1.2/scan_extraction.json" /\
  output_name ".pdf" = ".pdf_extraction.json".
Proof.
  split; [apply (output_name_of_accepted "Case.PDF"); reflexivity|].
  repeat split.
Defined.

(** ** The start of the process *)

(** X15.  The module gets past its configuration exactly when
    [GOOGLE_API_KEY] is set, is not empty, and is accepted by
    [genai.configure]; in every other case the process exits after one
    line.  A key that is set but empty is reported as a key that is not
    set, and [genai.configure] is then not tried.  A [ValueError] of
    [genai.configure] is reported as a configuration error, any other
    exception as an unexpected one. *)
Theorem service_needs_api_key (p : Process) :
  (configure_gemini p = Continues <->
   exists key, getenv p "GOOGLE_API_KEY" = Some key /\ key <> "" /\
               genai_configure p key = None) /\
  (getenv p "GOOGLE_API_KEY" = None \/ getenv p "GOOGLE_API_KEY" = Some "" ->
   configure_gemini p =
     Exits (LogConfigurationError
              (ValueError "GOOGLE_API_KEY environment variable not set."))) /\
  (forall key e,
      getenv p "GOOGLE_API_KEY" = Some key -> key <> "" ->
      genai_configure p key = Some e ->
      configure_gemini p =
        Exits (match e with
               | ValueError _ => LogConfigurationError e
               | OtherStartupError _ => LogUnexpectedConfigurationError e
               end)).
Proof.
  unfold configure_gemini.
  destruct (getenv p "GOOGLE_API_KEY") as [key|] eqn:Hk.
  2:{ split; [split; [discriminate | intros (k & H & _); discriminate]|].
      split; [reflexivity | intros key e H; discriminate]. }
  destruct (String.eqb_spec key "") as [->|Hne].
  { split; [split; [discriminate|]|].
    - intros (k & H & Hn & _). injection H as <-. now elim Hn.
    - split; [reflexivity|]. intros k e H Hn. injection H as <-. now elim Hn. }
  destruct (genai_configure p key) as [e|] eqn:Hc.
  - split; [split|split].
    + destruct e; discriminate.
    + intros (k & H & _ & Hc'). injection H as <-. congruence.
    + intros [H|H]; [discriminate|]. injection H as ->. now elim Hne.
    + intros k e' H _ Hc'. injection H as <-. rewrite Hc in Hc'.
      injection Hc' as <-. destruct e; reflexivity.
  - split; [split|split].
    + intros _. exists key. auto.
    + reflexivity.
    + intros [H|H]; [discriminate|]. injection H as ->. now elim Hne.
    + intros k e' H _ Hc'. injection H as <-. congruence.
Qed.

Example startup_with_and_without_key :
  configure_gemini (process_with_key (Some "k3y")) = Continues /\
  configure_gemini (process_with_key (Some "")) =
    Exits (LogConfigurationError
             (ValueError "GOOGLE_API_KEY environment variable not set.")) /\
  configure_gemini (process_with_key None) =
    Exits (LogConfigurationError
             (ValueError "GOOGLE_API_KEY environment variable not set.")).
Proof. repeat split. Qed.

(** X3 on an answer that is not JSON. *)
Lemma raw_text_log_is_bounded_witness :
  String.length "{" <= 1003 /\
  exists r s e,
    generate_content (world_answering "{")
                     (full_prompt "Extract." "<rdf/>" "Dowry case.") = inr r /\
    text r = inr s /\ json_loads (world_answering "{") s = inl e /\
    (String.length s <= 1000 -> "{" = s) /\
    (1000 < String.length s -> "{" = (substring 0 1000 s ++ "...")%string).
Proof.
  apply (raw_text_log_is_bounded (world_answering "{") "Dowry case." "<rdf/>"
           "Extract." "{").
  vm_compute. do 5 right. left. reflexivity.
Defined.

(** ** The files a request can change *)

(** Every [json.dump] of a request goes to the output file of the
    upload. *)
Lemma dumped_to_output_file (w : World) (request : Request) (file : FileStorage)
      (path : string) (v : pyvalue) :
  files_get "file" (files request) = Some file ->
  In (EvJsonDump path v) (trace_of (handle_extraction w request)) ->
  path = output_path (filename file).
Proof.
  intros Hf Hin.
  destruct (handle_run_cases w request)
    as [(_ & m & msg & E)
       |[(file' & Ha & Hcfg & E)
        |[(file' & o & t & m & Ha & Hcfg & Hwf & E)
         |(file' & o & t & texts & tg & v' & Ha & Hcfg & Hwf & Eg & E)]]];
    rewrite E in Hin; cbn [trace_of fst] in Hin.
  - repeat (destruct Hin as [Hin|Hin]; [discriminate|]). destruct Hin.
  - exfalso. revert Hin. apply not_in_output_writes; [|reflexivity].
    destruct (read_file_calls w ONTOLOGY_FILE) as (_ & W1 & _).
    destruct (read_file_calls w PROMPT_FILE) as (_ & W2 & _).
    change (output_writes (trace_of (read_file w ONTOLOGY_FILE) ++
              EvPrint (LogReadingPrompt PROMPT_FILE) ::
              trace_of (read_file w PROMPT_FILE) ++ [EvPrint LogConfigIssue]) = []).
    rewrite output_writes_app, W1. cbn.
    change (output_writes (trace_of (read_file w PROMPT_FILE) ++ [EvPrint LogConfigIssue]) = []).
    rewrite output_writes_app, W2. reflexivity.
  - cbn in Hin. repeat (destruct Hin as [Hin|Hin]; [discriminate|]). destruct Hin.
  - assert (file' = file) as ->.
    { destruct Ha as (Hf' & _). rewrite Hf in Hf'. now injection Hf'. }
    destruct (gemini_returns w (String.concat "" texts) o t)
      as (tg' & v'' & Eg' & _ & _ & Wg & _).
    rewrite Eg in Eg'. injection Eg' as <- <-.
    apply in_app_or in Hin. destruct Hin as [Hin|Hin].
    { cbn in Hin. repeat (destruct Hin as [Hin|Hin]; [discriminate|]). destruct Hin. }
    apply in_app_or in Hin. destruct Hin as [Hin|Hin].
    { exfalso. revert Hin. apply not_in_output_writes; [|reflexivity].
      apply output_writes_extraction_events. }
    apply in_app_or in Hin. destruct Hin as [Hin|Hin].
    { exfalso. revert Hin. now apply not_in_output_writes. }
    destruct (is_not_None v'); [|destruct Hin as [Hin|[]]; discriminate].
    destruct Hin as [Hin|Hin]; [discriminate|].
    apply save_output_dumps in Hin. destruct Hin as [-> _]. reflexivity.
Qed.

(** Writes that all go to one path leave the other paths alone. *)
Lemma fs_after_other_paths (w : World) (path : string) (t : list Event) :
  (forall p, In (EvOpenWrite p) t -> p = path) ->
  (forall p v, In (EvJsonDump p v) t -> p = path) ->
  forall fs other, other <> path -> fs_after w fs t other = fs other.
Proof.
  induction t as [|ev t IH]; intros Ho Hj fs other Hne; [reflexivity|].
  cbn [fs_after fold_left]. fold (fs_after w (fs_event w fs ev) t).
  rewrite IH; auto.
  - apply String.eqb_neq in Hne.
    destruct ev; cbn [fs_event]; try reflexivity.
    + rewrite (Ho path0 (or_introl eq_refl)).
      destruct (open_write w path); [reflexivity|].
      unfold fs_write. now rewrite Hne.
    + rewrite (Hj path0 data (or_introl eq_refl)).
      unfold fs_write. now rewrite Hne.
  - intros p Hin. apply Ho. now right.
  - intros p v Hin. apply (Hj p v). now right.
Qed.

(** X16.  Whatever happens to a request, it changes no file but the
    output file of its upload: every other path holds afterwards what
    it held before. *)
Theorem only_output_file_changes (w : World) (request : Request)
        (file : FileStorage) (fs : FS) (other : string) :
  files_get "file" (files request) = Some file ->
  other <> output_path (filename file) ->
  fs_after w fs (trace_of (handle_extraction w request)) other = fs other.
Proof.
  intros Hf Hne.
  apply (fs_after_other_paths w (output_path (filename file))); auto.
  - intros p Hin. now apply (opened_for_writing w request file p).
  - intros p v Hin. now apply (dumped_to_output_file w request file p v).
Qed.

(** X16 on the request that is served, where the disk is full. *)
Lemma only_output_file_changes_witness :
  fs_after (world_disk_full "{}") (fs_write fs_empty "output/other.json" "kept")
           (trace_of (handle_extraction (world_disk_full "{}") good_upload))
           "output/other.json"
  = Some "kept".
Proof.
  apply (only_output_file_changes (world_disk_full "{}") good_upload good_file
           (fs_write fs_empty "output/other.json" "kept") "output/other.json").
  - reflexivity.
  - discriminate.
Defined.

(* ------------------------------------------------------------------ *)
(** ** The text of the output file *)


